(** * MiniSat: rotator / rig interfaces of the satellite tracking bridge

    A shallow embedding of [rigif.py], [satif.py] and [rotif.py]
    (directory [SatApplication]) together with the properties the
    specification states about them.

    Layout: the Python runtime primitives the sources rely on (module
    [Py]), the constants of [defs.py] (module [Defs]), one module per
    source class ([RigIf], [SatIf], [RotIf]), and then the theorems. *)

From Stdlib Require Import ZArith String Ascii List Bool Lia DecimalString.
From Stdlib Require Import Floats.SpecFloat.
From stdpp Require Import base strings gmap.
Import ListNotations.

Local Open Scope string_scope.
Local Open Scope list_scope.
Local Open Scope Z_scope.

(* ===================================================================== *)
(** * Python runtime primitives *)
(* ===================================================================== *)

Module Py.

(** The exception classes that the modelled code can raise. *)
Inductive Exn :=
| ValueError | IndexError | TypeError | NameError | AttributeError
| OverflowError | KeyError | UnicodeDecodeError
| SocketTimeout                 (* socket.timeout *)
| OSError.                      (* an OSError other than socket.timeout *)

(** Outcome of running a piece of Python code: a value, a raised
    exception, or [OutOfFuel] when a fuel-bounded loop of the model was
    not given enough fuel to finish. *)
Inductive Res (A : Type) :=
| Ok (a : A)
| Raise (e : Exn)
| OutOfFuel.
Arguments Ok {A} a.
Arguments Raise {A} e.
Arguments OutOfFuel {A}.

(** State and exception monad over an object state [S]. *)
Definition M (S A : Type) : Type := S -> Res A * S.

Definition ret {S A} (a : A) : M S A := fun s => (Ok a, s).

Definition bind {S A B} (c : M S A) (k : A -> M S B) : M S B :=
  fun s =>
    match c s with
    | (Ok a, s') => k a s'
    | (Raise e, s') => (Raise e, s')
    | (OutOfFuel, s') => (OutOfFuel, s')
    end.

Definition raise {S A} (e : Exn) : M S A := fun s => (Raise e, s).
Definition get {S} : M S S := fun s => (Ok s, s).
Definition modify {S} (f : S -> S) : M S unit := fun s => (Ok tt, f s).

(** [try: c  except Exception as e: h e] *)
Definition try_except {S A} (c : M S A) (h : Exn -> M S A) : M S A :=
  fun s =>
    match c s with
    | (Raise e, s') => h e s'
    | r => r
    end.

(** [try: c  except E: h] for one exception class [E]. *)
Definition try_except_only {S A} (is_E : Exn -> bool)
           (c : M S A) (h : M S A) : M S A :=
  fun s =>
    match c s with
    | (Raise e, s') => if is_E e then h s' else (Raise e, s')
    | r => r
    end.

(** Lifting of a builtin that returns [None] on a [ValueError] etc. *)
Definition lift {S A} (r : Res A) : M S A := fun s => (r, s).

(** Dynamically typed values that cross the interfaces. [VQueue q] is a
    reference to the deque object number [q]. *)
Inductive Val :=
| VNone
| VBool (b : bool)
| VInt (z : Z)
| VStr (s : string)
| VQueue (q : nat).

(** ** Characters

    A [str] is represented by its UTF-8 encoding: the texts of the
    program come from its literals, from [bytes.decode] and from
    formatting these, so that encoding them again never fails. *)

Definition code (c : ascii) : Z := Z.of_N (N_of_ascii c).

Definition in_range (lo hi : Z) (c : ascii) : bool :=
  let n := code c in (lo <=? n) && (n <=? hi).

(** A continuation byte, and the six bits it carries. *)
Definition is_cont (c : ascii) : bool :=
  let n := code c in (128 <=? n) && (n <=? 191).

Definition low6 (c : ascii) : Z := code c - 128.

(** The code point of the character at the head of [String c s] and the
    number of bytes that encode it. A byte that starts no well-formed
    sequence counts as a character of its own, numbered from U+DC80 as
    the error handler [surrogateescape] does: it is neither whitespace
    nor a digit. *)
Definition head_char (c : ascii) (s : string) : Z * nat :=
  let n := code c in
  let alone := (if n <=? 127 then n else 56320 + n, 1%nat) in
  if (194 <=? n) && (n <=? 223) then
    match s with
    | String c1 _ =>
        if is_cont c1 then ((n - 192) * 64 + low6 c1, 2%nat) else alone
    | _ => alone
    end
  else if (224 <=? n) && (n <=? 239) then
    match s with
    | String c1 (String c2 _) =>
        if (if n =? 224 then in_range 160 191 c1
            else if n =? 237 then in_range 128 159 c1
            else is_cont c1)
           && is_cont c2
        then ((n - 224) * 4096 + low6 c1 * 64 + low6 c2, 3%nat)
        else alone
    | _ => alone
    end
  else if (240 <=? n) && (n <=? 244) then
    match s with
    | String c1 (String c2 (String c3 _)) =>
        if (if n =? 240 then in_range 144 191 c1
            else if n =? 244 then in_range 128 143 c1
            else is_cont c1)
           && is_cont c2 && is_cont c3
        then ((n - 240) * 262144 + low6 c1 * 4096 + low6 c2 * 64 + low6 c3,
              4%nat)
        else alone
    | _ => alone
    end
  else alone.

(** [Py_UNICODE_ISSPACE]: the characters that [str.isspace] and
    [str.split()] take as whitespace. *)
Definition is_space (cp : Z) : bool :=
  ((9 <=? cp) && (cp <=? 13)) || ((28 <=? cp) && (cp <=? 32))
  || (cp =? 133) || (cp =? 160) || (cp =? 5760)
  || ((8192 <=? cp) && (cp <=? 8202))
  || (cp =? 8232) || (cp =? 8233) || (cp =? 8239) || (cp =? 8287)
  || (cp =? 12288).

(** [Py_ISSPACE]: the whitespace of the C locale, which is what [int]
    and [float] skip around a number. *)
Definition is_c_space (c : ascii) : bool :=
  let n := code c in
  ((9 <=? n) && (n <=? 13)) || (n =? 32).

(** [Py_UNICODE_TODECIMAL]: the digit zero of each set of decimal digits
    (Unicode 14.0, the character database of CPython 3.11); the nine
    other digits of a set follow its zero. *)
Definition decimal_zeros : list Z :=
  [48; 1632; 1776; 1984; 2406; 2534; 2662; 2790; 2918; 3046; 3174; 3302;
   3430; 3558; 3664; 3792; 3872; 4160; 4240; 6112; 6160; 6470; 6608; 6784;
   6800; 6992; 7088; 7232; 7248; 42528; 43216; 43264; 43472; 43504; 43600;
   44016; 65296; 66720; 68912; 69734; 69872; 69942; 70096; 70384; 70736;
   70864; 71248; 71360; 71472; 71904; 72016; 72784; 73040; 73120; 92768;
   92864; 93008; 120782; 120792; 120802; 120812; 120822; 123200; 123632;
   125264; 130032].

Definition decimal_val (cp : Z) : option Z :=
  match List.find (fun z => (z <=? cp) && (cp <=? z + 9)) decimal_zeros with
  | Some z => Some (cp - z)
  | None => None
  end.

Definition digit_val (c : ascii) : option Z :=
  let n := code c in
  if (48 <=? n) && (n <=? 57) then Some (n - 48) else None.

Definition is_digit (c : ascii) : bool :=
  match digit_val c with Some _ => true | None => false end.

Definition nl : ascii := ascii_of_nat 10.
Definition NL : string := String nl EmptyString.

(** ** String methods *)

Definition is_empty (s : string) : bool :=
  match s with EmptyString => true | _ => false end.

(** [s.rstrip("\n")] *)
Fixpoint rstrip_nl (s : string) : string :=
  match s with
  | EmptyString => EmptyString
  | String c s' =>
      let r := rstrip_nl s' in
      if Ascii.eqb c nl && is_empty r then EmptyString else String c r
  end.

(** What [int] and [float] do to a [str] before they read it.

    [_PyUnicode_TransformDecimalAndSpaceToASCII]: characters below 127
    are kept, other whitespace becomes a space, other decimal digits
    become ASCII digits, and the text is cut behind the first character
    that is none of these, which becomes a question mark. [skip] counts
    the bytes still to pass of the character being read. *)
Fixpoint to_ascii_from (skip : nat) (s : string) : string :=
  match s with
  | EmptyString => EmptyString
  | String c s' =>
      match skip with
      | S k => to_ascii_from k s'
      | O =>
          let (cp, width) := head_char c s' in
          if cp <? 127 then String c (to_ascii_from 0 s')
          else if is_space cp then
            String " "%char (to_ascii_from (width - 1) s')
          else
            match decimal_val cp with
            | Some d =>
                String (ascii_of_N (Z.to_N (48 + d)))
                       (to_ascii_from (width - 1) s')
            | None => String "?"%char EmptyString
            end
      end
  end.

Definition to_ascii (s : string) : string := to_ascii_from 0 s.

(** The whitespace of the C locale skipped at both ends. *)
Fixpoint lstrip (s : string) : string :=
  match s with
  | String c s' => if is_c_space c then lstrip s' else s
  | EmptyString => EmptyString
  end.

Fixpoint rstrip (s : string) : string :=
  match s with
  | EmptyString => EmptyString
  | String c s' =>
      let r := rstrip s' in
      if is_c_space c && is_empty r then EmptyString else String c r
  end.

Definition strip (s : string) : string := rstrip (lstrip s).

(** [s.split(sep, maxsplit)] for a one-character separator: at most
    [maxsplit] cuts, empty fields kept. *)
Fixpoint split_max (sep : ascii) (s : string) (maxsplit : nat) : list string :=
  match s with
  | EmptyString => [EmptyString]
  | String c s' =>
      match maxsplit with
      | O => [s]
      | S n' =>
          if Ascii.eqb c sep then EmptyString :: split_max sep s' n'
          else match split_max sep s' maxsplit with
               | h :: t => String c h :: t
               | [] => [String c EmptyString]
               end
      end
  end.

(** [s.split(sep)]: no limit on the number of cuts. *)
Definition split_on (sep : ascii) (s : string) : list string :=
  split_max sep s (String.length s).

(** [s.split()]: cut at runs of whitespace, no empty fields. [cur] is
    the field being read, reversed; [skip] counts the bytes still to
    pass of the whitespace character being read. *)
Fixpoint split_ws_from (skip : nat) (cur : list ascii) (s : string)
  : list string :=
  let flush (rest : list string) :=
    match cur with
    | [] => rest
    | _ => string_of_list_ascii (List.rev cur) :: rest
    end in
  match s with
  | EmptyString => flush []
  | String c s' =>
      match skip with
      | S k => split_ws_from k cur s'
      | O =>
          let (cp, width) := head_char c s' in
          if is_space cp then flush (split_ws_from (width - 1) [] s')
          else split_ws_from 0 (c :: cur) s'
      end
  end.

Definition split_ws (s : string) : list string := split_ws_from 0 [] s.

(** [l[i]] *)
Definition index {A} (l : list A) (i : nat) : Res A :=
  match List.nth_error l i with
  | Some a => Ok a
  | None => Raise IndexError
  end.

(** ** [int(str)] *)

(** Decimal digits with single underscores between digits. *)
Fixpoint digits_from (acc : Z) (after_digit : bool) (s : string) : option Z :=
  match s with
  | EmptyString => if after_digit then Some acc else None
  | String c s' =>
      match digit_val c with
      | Some d => digits_from (10 * acc + d) true s'
      | None =>
          if Ascii.eqb c "_"%char && after_digit
          then digits_from acc false s'
          else None
      end
  end.

Definition signed (s : string) : bool * string :=
  match s with
  | String "-"%char s' => (true, s')
  | String "+"%char s' => (false, s')
  | _ => (false, s)
  end.

(** The number of digits that [int] reads at most
    ([sys.int_info.default_max_str_digits]). *)
Definition max_str_digits : nat := 4300.

Fixpoint count_digits (s : string) : nat :=
  match s with
  | EmptyString => 0%nat
  | String c s' => if is_digit c then S (count_digits s') else count_digits s'
  end.

(** [int(s)] for a [str] argument, base 10: surrounding whitespace, an
    optional sign, digits. *)
Definition int_of_str (s : string) : Res Z :=
  let (neg, body) := signed (strip (to_ascii s)) in
  match digits_from 0 false body with
  | Some n =>
      if (count_digits body <=? max_str_digits)%nat
      then Ok (if neg then - n else n)
      else Raise ValueError
  | None => Raise ValueError
  end.

(** [str(n)] / ["%s" % n] for an [int]. The limit that Python puts on
    the digits of this conversion (4300 as well) is not modelled: the
    integers that the program formats are positions, speeds and
    calibration counts. *)
Definition str_of_int (n : Z) : string :=
  NilZero.string_of_int (Z.to_int n).

(** [repr(v)], ["%s" % v] and [str(l)] for a list. The escapes that
    [repr] puts inside a quoted string are not modelled, and a queue
    prints without its contents. *)
Definition repr (v : Val) : string :=
  match v with
  | VNone => "None"
  | VBool true => "True"
  | VBool false => "False"
  | VInt z => str_of_int z
  | VStr s => "'" +:+ s +:+ "'"
  | VQueue _ => "deque([...])"
  end.

Definition str (v : Val) : string :=
  match v with
  | VStr s => s
  | _ => repr v
  end.

Fixpoint join_repr (l : list Val) : string :=
  match l with
  | [] => ""
  | [x] => repr x
  | x :: rest => repr x +:+ ", " +:+ join_repr rest
  end.

Definition str_list (l : list Val) : string := "[" +:+ join_repr l +:+ "]".

(** ** Floats: [float(str)], [float(int)], [int(float)], ["%f" % x]

    A Python float is an IEEE binary64 number, here a [spec_float]
    with precision 53 and maximal exponent 1024. *)

Definition prec : Z := 53.
Definition emax : Z := 1024.

(** A maximal run of digits, underscores allowed between two digits:
    the value read so far, the number of digits, and what is left. *)
Fixpoint read_digits (acc : Z) (n : nat) (s : string) : Z * nat * string :=
  match s with
  | EmptyString => (acc, n, s)
  | String c s' =>
      match digit_val c with
      | Some d => read_digits (10 * acc + d) (S n) s'
      | None =>
          if Ascii.eqb c "_"%char && (0 <? n)%nat then
            match s' with
            | String c' _ => if is_digit c' then read_digits acc n s' else (acc, n, s)
            | EmptyString => (acc, n, s)
            end
          else (acc, n, s)
      end
  end.

(** The optional exponent part [("e"|"E") [sign] digits]. *)
Definition read_exponent (s : string) : option (Z * string) :=
  match s with
  | String c s' =>
      if Ascii.eqb c "e"%char || Ascii.eqb c "E"%char then
        let (neg, body) := signed s' in
        let '(v, n, rest) := read_digits 0 0 body in
        if (0 <? n)%nat then Some (if neg then - v else v, rest) else None
      else Some (0, s)
  | EmptyString => Some (0, s)
  end.

Definition lower (c : ascii) : ascii :=
  let n := code c in
  if (65 <=? n) && (n <=? 90) then ascii_of_N (Z.to_N (n + 32)) else c.

Fixpoint lowercase (s : string) : string :=
  match s with
  | EmptyString => EmptyString
  | String c s' => String (lower c) (lowercase s')
  end.

(** The binary64 number nearest to [m * 10^e10] (ties to even). *)
Definition round_decimal (neg : bool) (m : Z) (e10 : Z) : spec_float :=
  match m with
  | Zpos p =>
      if 0 <=? e10
      then binary_normalize prec emax
             ((if neg then - m else m) * 10 ^ e10) 0 neg
      else SFdiv prec emax (S754_finite neg p 0)
             (S754_finite false (Z.to_pos (10 ^ (- e10))) 0)
  | _ => S754_zero neg
  end.

(** [float(s)] for a [str] argument. *)
Definition float_of_str (s : string) : Res spec_float :=
  let (neg, body) := signed (strip (to_ascii s)) in
  let low := lowercase body in
  if String.eqb low "inf" || String.eqb low "infinity" then Ok (S754_infinity neg)
  else if String.eqb low "nan" then Ok S754_nan
  else
    let '(iv, ni, rest) := read_digits 0 0 body in
    let '(fv, nf, rest) :=
      match rest with
      | String "."%char rest' => read_digits 0 0 rest'
      | _ => (0, 0%nat, rest)
      end in
    if (ni + nf =? 0)%nat then Raise ValueError else
    match read_exponent rest with
    | Some (ex, EmptyString) =>
        Ok (round_decimal neg (iv * 10 ^ Z.of_nat nf + fv) (ex - Z.of_nat nf))
    | _ => Raise ValueError
    end.

(** [float(n)] for an [int] argument. *)
Definition float_of_int (n : Z) : Res spec_float :=
  match binary_normalize prec emax n 0 false with
  | S754_infinity _ => Raise OverflowError
  | f => Ok f
  end.

(** [float(v)] *)
Definition float (v : Val) : Res spec_float :=
  match v with
  | VInt n => float_of_int n
  | VStr s => float_of_str s
  | VBool b => float_of_int (if b then 1 else 0)
  | _ => Raise TypeError
  end.

(** [int(x)] for a float argument: truncation towards zero. *)
Definition int_of_float (x : spec_float) : Res Z :=
  match x with
  | S754_zero _ => Ok 0
  | S754_infinity _ => Raise OverflowError
  | S754_nan => Raise ValueError
  | S754_finite neg m e =>
      let a := if 0 <=? e then Zpos m * 2 ^ e else Zpos m / 2 ^ (- e) in
      Ok (if neg then - a else a)
  end.

(** Nearest integer to [p / q], ties to even ([0 < q]). *)
Definition round_half_even (p q : Z) : Z :=
  let d := p / q in
  let r := p mod q in
  match 2 * r ?= q with
  | Lt => d
  | Gt => d + 1
  | Eq => if Z.even d then d else d + 1
  end.

Definition drop_first (s : string) : string :=
  match s with
  | String _ s' => s'
  | EmptyString => EmptyString
  end.

(** ["%f" % x]: six digits after the point. *)
Definition fmt_f (x : spec_float) : string :=
  let render (neg : bool) (scaled : Z) :=
    (if neg then "-" else "") +:+ str_of_int (scaled / 1000000) +:+ "." +:+
    drop_first (str_of_int (1000000 + scaled mod 1000000)) in
  match x with
  | S754_nan => "nan"
  | S754_infinity neg => if neg then "-inf" else "inf"
  | S754_zero neg => render neg 0
  | S754_finite neg m e =>
      render neg
        (if 0 <=? e then Zpos m * 2 ^ e * 1000000
         else round_half_even (Zpos m * 1000000) (2 ^ (- e)))
  end.

(** ** UTF-8

    With a [str] represented by its UTF-8 encoding, encoding is the
    identity and decoding is a validity check. *)

Fixpoint utf8_valid (s : list ascii) : bool :=
  match s with
  | [] => true
  | c :: s1 =>
      let n := code c in
      if n <=? 127 then utf8_valid s1
      else if (194 <=? n) && (n <=? 223) then
        match s1 with
        | c1 :: s2 => is_cont c1 && utf8_valid s2
        | _ => false
        end
      else if (224 <=? n) && (n <=? 239) then
        match s1 with
        | c1 :: c2 :: s3 =>
            (if n =? 224 then in_range 160 191 c1
             else if n =? 237 then in_range 128 159 c1
             else is_cont c1)
            && is_cont c2 && utf8_valid s3
        | _ => false
        end
      else if (240 <=? n) && (n <=? 244) then
        match s1 with
        | c1 :: c2 :: c3 :: s4 =>
            (if n =? 240 then in_range 144 191 c1
             else if n =? 244 then in_range 128 143 c1
             else is_cont c1)
            && is_cont c2 && is_cont c3 && utf8_valid s4
        | _ => false
        end
      else false
  end.

(** [data.decode('utf-8')] *)
Definition decode_utf8 (data : string) : Res string :=
  if utf8_valid (list_ascii_of_string data) then Ok data
  else Raise UnicodeDecodeError.

End Py.

Import Py.

Declare Scope py_scope.
Delimit Scope py_scope with py.
Notation "'let*' x ':=' c 'in' k" := (bind c (fun x => k))
  (at level 10, x name, c at level 100, k at level 200) : py_scope.
Notation "'do*' c 'in' k" := (bind c (fun _ => k))
  (at level 10, c at level 100, k at level 200) : py_scope.
Local Open Scope py_scope.

(* ===================================================================== *)
(** * defs.py *)
(* ===================================================================== *)

Module Defs.

(** General states and the startup states of the rotator interface. *)
Definition ONLINE : Z := 0.
Definition OFFLINE : Z := 1.
Definition PENDING : Z := 2.
Definition STARTING_CAL : Z := 3.
Definition CAL_FAILED : Z := 4.
Definition FAILED : Z := 5.
Definition WAITING : Z := 6.

(** Controller timeouts (seconds) and motor speeds (percent). *)
Definition HW_TIMEOUT : Z := 3.
Definition CAL_TIMEOUT : Z := 30.
Definition MOV_TIMEOUT : Z := 30.
Definition AZ_MOTOR_SPEED : Z := 30.
Definition EL_MOTOR_SPEED : Z := 20.

(** CAT command set. *)
Definition CAT_LOCK := "catlock".
Definition CAT_PTT_SET := "catpttset".
Definition CAT_PTT_GET := "catpttget".
Definition CAT_FREQ_SET := "catfreqset".
Definition CAT_MODE_SET := "catmodeset".
Definition CAT_FREQ_GET := "catfreqget".
Definition CAT_MODE_GET := "catmodeget".
Definition CAT_TX_STATUS := "cattxstatus".

End Defs.

(** Lines put on the message queue. The text of a traceback is not
    modelled: [Problem where e] stands for the line built from [str(e)]
    and [traceback.format_exc()]. *)
Inductive LogMsg :=
| Text (s : string)
| Problem (origin : string) (e : Exn).

(* ===================================================================== *)
(** * rigif.py : class RigIf *)
(* ===================================================================== *)

Module RigIf.
Import Defs.

(** A reply tuple [(result code, command, data)] on the CAT queue. *)
Definition CatReply : Type := bool * string * Val.

(** What the object does to its collaborators, in program order. *)
Inductive Effect :=
| CatDo (op : string) (arg : option Val)  (* self.__cat.do_command(op[, arg]) *)
| SendqAppend (line : string)             (* self.__sendq.append(line) *)
| MsgqAppend (m : LogMsg)                 (* self.__msgq.append(m) *)
| FreqCallback (ptt : bool) (freq : string).

(** The instance attributes. [lastFreq] is [None] while the attribute
    [__lastFreq] does not exist: the constructor does not create it.
    [catq] is the deque shared with the CAT thread; [arrivals] lists
    what that thread appends to it during each successive
    [sleep(0.1)] of this thread (nothing once the list is exhausted). *)
Record State := mkState {
  ptt : bool;
  rigPtt : bool;
  lastFreq : option string;
  restart : bool;
  catq : list CatReply;
  arrivals : list (list CatReply);
  trace : list Effect
}.

(** [RigIf.__init__] *)
Definition init (q : list CatReply) (arr : list (list CatReply)) : State :=
  {| ptt := false; rigPtt := false; lastFreq := None; restart := false;
     catq := q; arrivals := arr; trace := [] |}.

Definition emit (e : Effect) : M State unit :=
  modify (fun st => mkState (ptt st) (rigPtt st) (lastFreq st) (restart st)
                            (catq st) (arrivals st) (trace st ++ [e])).
Definition set_ptt (b : bool) : M State unit :=
  modify (fun st => mkState b (rigPtt st) (lastFreq st) (restart st)
                            (catq st) (arrivals st) (trace st)).
Definition set_rigPtt (b : bool) : M State unit :=
  modify (fun st => mkState (ptt st) b (lastFreq st) (restart st)
                            (catq st) (arrivals st) (trace st)).
Definition set_lastFreq (f : string) : M State unit :=
  modify (fun st => mkState (ptt st) (rigPtt st) (Some f) (restart st)
                            (catq st) (arrivals st) (trace st)).
Definition set_restart (b : bool) : M State unit :=
  modify (fun st => mkState (ptt st) (rigPtt st) (lastFreq st) b
                            (catq st) (arrivals st) (trace st)).
Definition set_catq (q : list CatReply) : M State unit :=
  modify (fun st => mkState (ptt st) (rigPtt st) (lastFreq st) (restart st)
                            q (arrivals st) (trace st)).

(** [sleep(0.1)]: the CAT thread appends this tick's replies. *)
Definition sleep_tick : M State unit :=
  modify (fun st =>
    match arrivals st with
    | [] => st
    | now :: later =>
        mkState (ptt st) (rigPtt st) (lastFreq st) (restart st)
                (catq st ++ now) later (trace st)
    end).

(** Reading [self.__lastFreq]. *)
Definition get_lastFreq : M State string :=
  let* st := get in
  match lastFreq st with
  | Some f => ret f
  | None => raise AttributeError
  end.

(** Reading a local variable that is only bound on some paths. *)
Definition local {A} (v : option A) : M State A :=
  match v with
  | Some a => ret a
  | None => raise NameError      (* UnboundLocalError *)
  end.

(** [self.__msgq(text)]: the message queue is a deque, and calling a
    deque raises. *)
Definition call_msgq (text : string) : M State unit := raise TypeError.

(** [manualSetPtt] *)
Definition manualSetPtt (p : bool) : M State unit :=
  do* set_ptt p in
  if negb p then
    do* emit (CatDo CAT_PTT_SET (Some (VBool false))) in
    set_rigPtt false
  else ret tt.

(** [getRigPtt] *)
Definition getRigPtt : M State bool :=
  let* st := get in ret (rigPtt st).

(** The timeout branch of [__cat_response]: the log line, then
    [return None] (the [None] of the result). *)
Definition timed_out (command : string) : M State (option nat) :=
  do* call_msgq ("Timeout on CAT response for " +:+ command +:+ "!") in
  ret None.

(** The inner loop of [__cat_response]:
    [while len(catq) == 0: sleep(0.1); count -= 1; if count <= 0: ...].
    Returns the remaining count, or [None] where the source leaves
    the whole method with [return None]. The counter never goes below
    zero before the loop is left, so it is a [nat]. *)
Fixpoint wait_catq (command : string) (count : nat) : M State (option nat) :=
  let* st := get in
  match catq st with
  | _ :: _ => ret (Some count)
  | [] =>
      (* Need timeout *)
      do* sleep_tick in
      match count with
      | S count' =>
          (* count -= 1 *)
          if (count' <=? 0)%nat then timed_out command
          else wait_catq command count'
      | O => timed_out command
      end
  end.

(** The outer [while True] of [__cat_response]; one unit of fuel per
    reply taken from the queue. *)
Fixpoint cat_response_loop (fuel : nat) (command : string) (count : nat)
  : M State Val :=
  match fuel with
  | O => lift OutOfFuel
  | S fuel' =>
      let* waited := wait_catq command count in
      match waited with
      | None => ret VNone
      | Some count =>
          (* Data available *)
          let* st := get in
          match catq st with
          | [] => raise IndexError   (* popleft from an empty deque *)
          | (r, cmd, data) :: rest =>
              do* set_catq rest in
              if r then
                if String.eqb cmd command then
                  (* Waiting for this *)
                  ret data
                else
                  do* call_msgq ("Expected CAT response to " +:+ command +:+
                                 ", got " +:+ cmd +:+ "! Trying again.") in
                  cat_response_loop fuel' command count
              else cat_response_loop fuel' command count
          end
      end
  end.

(** [__cat_response] *)
Definition cat_response (fuel : nat) (command : string) : M State Val :=
  cat_response_loop fuel command 50%nat.

(** The tokens of a line: the trailing newlines removed, the rest cut
    at single spaces, and the empty pieces dropped (there can be
    multiple spaces between tokens). *)
Definition params_of (msg : string) : list string :=
  let msg := rstrip_nl msg in
  let toks := split_on " "%char msg in
  List.filter (fun tok => (0 <? String.length tok)%nat) toks.

Section Handler.

(** The CAT object ([cat.py]) is outside this development: its two
    translation functions are parameters. *)
Variable mode_for_id : Val -> Res Val.
Variable bandwidth_for_mode : Val -> Res Val.

Definition is_None (v : Val) : bool :=
  match v with VNone => true | _ => false end.

(** The body of the [try] of [__listenCallback]. *)
Definition listenCallback_try (fuel : nat) (msg : string) : M State unit :=
  if (String.length msg =? 0)%nat then ret tt else
  let params := params_of msg in
  let msg := rstrip_nl msg in
  let* code := lift (index params 0) in
  let arg1 := if (List.length params =? 2)%nat then List.nth_error params 1 else None in
  let arg2 := if (List.length params =? 3)%nat then List.nth_error params 2 else None in
  if String.eqb code "F" then
    (* Set frequency *)
    let* freq := local arg1 in
    do* emit (CatDo CAT_FREQ_SET (Some (VStr freq))) in
    (* Send OK as we don't get response data *)
    do* emit (SendqAppend ("RPRT 0" +:+ NL)) in
    let* st := get in
    do* emit (FreqCallback (ptt st) freq) in
    (* See if we need to set rig to TX *)
    do* (if ptt st then
           let* new := lift (int_of_str freq) in
           let* lastf := get_lastFreq in
           let* last := lift (int_of_str lastf) in
           if Z.abs (new - last) >? 100000 then
             do* emit (CatDo CAT_PTT_SET (Some (VBool true))) in
             set_rigPtt true
           else ret tt
         else ret tt) in
    set_lastFreq freq
  else if String.eqb code "f" then
    (* Get frequency *)
    do* emit (CatDo CAT_FREQ_GET None) in
    let* f := cat_response fuel CAT_FREQ_GET in
    if negb (is_None f) then emit (SendqAppend (str f +:+ NL)) else ret tt
  else if String.eqb code "t" then
    (* Send manual PTT status *)
    let* st := get in
    if ptt st then emit (SendqAppend ("1" +:+ NL))
    else emit (SendqAppend ("0" +:+ NL))
  else if String.eqb code "M" then
    (* Set Mode, Passband *)
    let* mode := local arg1 in
    let* passband := local arg2 in
    do* emit (CatDo CAT_MODE_SET (Some (VStr mode))) in
    emit (SendqAppend ("RPRT 0" +:+ NL))
  else if String.eqb code "m" then
    (* Get Mode, Passband *)
    do* emit (CatDo CAT_MODE_GET None) in
    let* mode := cat_response fuel CAT_MODE_GET in
    let* smode := lift (mode_for_id mode) in
    let* sfilt := lift (bandwidth_for_mode smode) in
    emit (SendqAppend (str smode +:+ " " +:+ str sfilt +:+ NL))
  else if String.eqb code "q" then
    do* emit (MsgqAppend (Text "Request to quit from sat control program!")) in
    do* set_restart true in
    emit (SendqAppend ("RPRT 0" +:+ NL))
  else if String.eqb code "x" then
    do* emit (MsgqAppend (Text "Rig listner requested exit!")) in
    set_restart true
  else
    do* emit (MsgqAppend (Text ("Unknown command from rig interface! [" +:+ msg +:+ "]"))) in
    emit (SendqAppend ("RPRT 0" +:+ NL)).

(** [__listenCallback]: the body under its catch-all. *)
Definition listenCallback (fuel : nat) (msg : string) : M State unit :=
  try_except (listenCallback_try fuel msg)
    (fun e =>
       do* emit (MsgqAppend (Problem "rig interface" e)) in
       set_restart true).

End Handler.

End RigIf.

(* ===================================================================== *)
(** * satif.py : class SatIf *)
(* ===================================================================== *)

Module SatIf.

Inductive Effect :=
| CmdqAppend (cmd : string) (args : list Val)  (* self.__cmdq.append((cmd, args)) *)
| PositionCallback (az el : Z)
| SendqAppend (line : string)
| MsgqAppend (m : LogMsg).

Record State := mkState {
  azimuth : Z;
  elevation : Z;
  restart : bool;
  trace : list Effect
}.

(** The deque object [self.__sendq], as handed to the rotator in the
    arguments of [getPos]. *)
Definition sendq : Val := VQueue 0.

(** [SatIf.__init__] *)
Definition init : State :=
  {| azimuth := 0; elevation := 0; restart := false; trace := [] |}.

Definition emit (e : Effect) : M State unit :=
  modify (fun st => mkState (azimuth st) (elevation st) (restart st) (trace st ++ [e])).
Definition set_azimuth (a : Z) : M State unit :=
  modify (fun st => mkState a (elevation st) (restart st) (trace st)).
Definition set_elevation (e : Z) : M State unit :=
  modify (fun st => mkState (azimuth st) e (restart st) (trace st)).
Definition set_restart (b : bool) : M State unit :=
  modify (fun st => mkState (azimuth st) (elevation st) b (trace st)).

Definition is_ValueError (e : Exn) : bool :=
  match e with ValueError => true | _ => false end.

(** [int(float(tok))] *)
Definition int_float (tok : string) : Res Z :=
  match float_of_str tok with
  | Ok x => int_of_float x
  | Raise e => Raise e
  | OutOfFuel => OutOfFuel
  end.

(** The body of the [try] of [__listenCallback]. *)
Definition listenCallback_try (msg : string) : M State unit :=
  if (String.length msg =? 0)%nat then ret tt else
  let toks := split_ws msg in
  let* tok0 := lift (index toks 0) in
  if String.eqb tok0 "p" then
    (* Ask rotator interface to send position to sat program *)
    let* st := get in
    emit (CmdqAppend "getPos" [VInt (azimuth st); VInt (elevation st); sendq])
  else if String.eqb tok0 "P" then
    (* Set command *)
    if (List.length toks =? 3)%nat then
      try_except_only is_ValueError
        (let* tok1 := lift (index toks 1) in
         let* az := lift (int_float tok1) in
         do* set_azimuth az in
         let* tok2 := lift (index toks 2) in
         let* el := lift (int_float tok2) in
         do* set_elevation el in
         do* emit (CmdqAppend "setPosAz" [VInt az]) in
         do* emit (CmdqAppend "setPosEl" [VInt el]) in
         do* emit (PositionCallback az el) in
         (* Send an ack *)
         emit (SendqAppend ("RPRT 0" +:+ NL)))
        ((* the handler names [paramList], which does not exist *)
         raise NameError)
    else
      emit (MsgqAppend (Text ("Invalid number of parameters for position command! [" +:+ msg +:+ "]")))
  else if String.eqb tok0 "S" then
    (* Stop rotator, null effect as we move as directed *)
    emit (SendqAppend ("RPRT 0" +:+ NL))
  else if String.eqb tok0 "q" then
    do* emit (MsgqAppend (Text "Request to quit listening")) in
    do* emit (SendqAppend ("RPRT 0" +:+ NL)) in
    set_restart true
  else if String.eqb tok0 "x" then
    do* emit (MsgqAppend (Text "Antenna listner requested exit!")) in
    set_restart true
  else
    do* emit (MsgqAppend (Text ("Unknown command from satellite program! [" +:+ msg +:+ "]"))) in
    emit (SendqAppend ("RPRT 0" +:+ NL)).

(** [__listenCallback] *)
Definition listenCallback (msg : string) : M State unit :=
  try_except (listenCallback_try msg)
    (fun e =>
       do* emit (MsgqAppend (Problem "sat control" e)) in
       set_restart true).

(** The commands a trace put on the command queue, in order. *)
Fixpoint queued (t : list Effect) : list (string * list Val) :=
  match t with
  | [] => []
  | CmdqAppend cmd args :: t' => (cmd, args) :: queued t'
  | _ :: t' => queued t'
  end.

End SatIf.

(* ===================================================================== *)
(** * rotif.py : classes RotIf and EvntIf *)
(* ===================================================================== *)

Module RotIf.
Import Defs.

(** What one exchange on the command socket meets: the call of
    [sendto] raises, or it returns and the call of [recvfrom] raises or
    returns the bytes of one datagram. *)
Inductive NetEvent :=
| Timeout                      (* recvfrom raises socket.timeout *)
| Datagram (data : string)     (* recvfrom returns (data, address) *)
| Failure                      (* recvfrom raises another OSError *)
| SendTimeout                  (* sendto raises socket.timeout *)
| SendFailure.                 (* sendto raises another OSError *)

(** What one call of [recvfrom] on the event socket does. *)
Inductive EvntRead :=
| EvntTimeout                  (* raises socket.timeout *)
| EvntDatagram (data : string) (* returns (data, addr) *)
| EvntFailure.                 (* raises another OSError *)

(** What the object does to its collaborators, in program order.
    [UdpSend cmd] is the call
    [self.__cmdsock.sendto(bytes(cmd, 'utf-8'), ...)], whether it returns
    or raises. [PosCallback axis v seen_az seen_el] is the call
    [self.__pos_callback(axis, v)]; [seen_az] and [seen_el] record the
    values that [__degaz] and [__degel] hold at the moment of the call.
    [QueueAppend q line] is [q.append(line)] on the deque object [q]. *)
Inductive Effect :=
| UdpSend (cmd : string)
| StateCallback (status : Z)
| PosCallback (axis : string) (value : Z) (seen_az seen_el : Z)
| MsgqAppend (m : LogMsg)
| QueueAppend (q : nat) (line : string).

(** The instance attributes, with [defs.config["Calibration"]]
    ([calibration]) and what the exchanges on the command socket are
    going to meet ([net]: one entry per exchange, silence once
    exhausted). The lock of the object is not modelled: one thread runs
    the methods. *)
Record State := mkState {
  status : Z;
  calaz : Val;
  calel : Val;
  degaz : Z;
  degel : Z;
  timeout : Z;
  calibration : gmap string Val;
  net : list NetEvent;
  trace : list Effect
}.

(** [RotIf.__init__] *)
Definition init (cfg : gmap string Val) (replies : list NetEvent) : State :=
  {| status := OFFLINE; calaz := VInt (-1); calel := VInt (-1);
     degaz := -1; degel := -1; timeout := HW_TIMEOUT;
     calibration := cfg; net := replies;
     trace := [MsgqAppend (Text "HW interface initialised.")] |}.

Definition emit (e : Effect) : M State unit :=
  modify (fun st => mkState (status st) (calaz st) (calel st) (degaz st) (degel st)
                            (timeout st) (calibration st) (net st) (trace st ++ [e])).
Definition set_status (x : Z) : M State unit :=
  modify (fun st => mkState x (calaz st) (calel st) (degaz st) (degel st)
                            (timeout st) (calibration st) (net st) (trace st)).
Definition set_calaz (x : Val) : M State unit :=
  modify (fun st => mkState (status st) x (calel st) (degaz st) (degel st)
                            (timeout st) (calibration st) (net st) (trace st)).
Definition set_calel (x : Val) : M State unit :=
  modify (fun st => mkState (status st) (calaz st) x (degaz st) (degel st)
                            (timeout st) (calibration st) (net st) (trace st)).
Definition set_degaz (x : Z) : M State unit :=
  modify (fun st => mkState (status st) (calaz st) (calel st) x (degel st)
                            (timeout st) (calibration st) (net st) (trace st)).
Definition set_degel (x : Z) : M State unit :=
  modify (fun st => mkState (status st) (calaz st) (calel st) (degaz st) x
                            (timeout st) (calibration st) (net st) (trace st)).
Definition settimeout (x : Z) : M State unit :=
  modify (fun st => mkState (status st) (calaz st) (calel st) (degaz st) (degel st)
                            x (calibration st) (net st) (trace st)).
Definition set_calibration (c : gmap string Val) : M State unit :=
  modify (fun st => mkState (status st) (calaz st) (calel st) (degaz st) (degel st)
                            (timeout st) c (net st) (trace st)).

(** What the exchange that starts meets. *)
Definition next_exchange : M State NetEvent :=
  fun st =>
    match net st with
    | [] => (Ok Timeout, st)
    | ev :: rest =>
        (Ok ev, mkState (status st) (calaz st) (calel st) (degaz st) (degel st)
                        (timeout st) (calibration st) rest (trace st))
    end.

(** [self.__pos_callback(axis, v)] *)
Definition pos_callback (axis : string) (v : Z) : M State unit :=
  let* st := get in
  emit (PosCallback axis v (degaz st) (degel st)).

(** The two socket calls of [__doCommand], [sendto(...)] and then
    [recvfrom(defs.HW_BUFFER)], of which the second is only reached
    when the first returns. *)
Definition exchange (cmd : string) : M State string :=
  (* Send command *)
  do* emit (UdpSend cmd) in
  let* ev := next_exchange in
  match ev with
  | SendTimeout => raise SocketTimeout
  | SendFailure => raise OSError
  (* Wait for a reply *)
  | Timeout => raise SocketTimeout
  | Failure => raise OSError
  | Datagram data => ret data
  end.

Definition is_timeout (e : Exn) : bool :=
  match e with SocketTimeout => true | _ => false end.

(** [__doCommand]: only [socket.timeout] is caught. *)
Definition doCommand (cmd : string) : M State (bool * string) :=
  try_except_only is_timeout
    (let* data := exchange cmd in
     let* d := lift (decode_utf8 data) in
     ret (true, d))
    ((* No target or something failed *)
     ret (false, "nak")).

Definition offline (st : State) : bool := status st =? OFFLINE.

(** [not r or d == 'nak'] *)
Definition failed (rd : bool * string) : bool :=
  negb (fst rd) || String.eqb (snd rd) "nak".

(** The methods that send one command with the short timeout. Their
    parameter is the text that ["%s"] makes of the Python argument. *)
Definition hw_command (cmd : string) : M State (bool * string) :=
  let* st := get in
  if offline st then ret (true, "ack") else
  do* settimeout HW_TIMEOUT in
  doCommand cmd.

Definition setCalAz (calibration : string) := hw_command (calibration +:+ "a").
Definition setCalEl (calibration : string) := hw_command (calibration +:+ "b").
Definition setAzSpeed (speed : string) := hw_command (speed +:+ "n").
Definition setElSpeed (speed : string) := hw_command (speed +:+ "m").

(** [poll] *)
Definition poll : M State (bool * string) :=
  do* settimeout HW_TIMEOUT in
  let* r := doCommand "poll" in
  do* (if fst r then
         do* emit (StateCallback PENDING) in
         set_status PENDING
       else ret tt) in
  ret r.

(** [isOnLine] *)
Definition isOnLine : M State (bool * string) :=
  do* settimeout HW_TIMEOUT in
  let* r := doCommand "poll" in
  do* (if negb (fst r) then
         do* emit (StateCallback OFFLINE) in
         set_status OFFLINE
       else ret tt) in
  ret r.

(** [calibrateAz] *)
Definition calibrateAz : M State bool :=
  do* settimeout CAL_TIMEOUT in
  let* rd := doCommand "calaz" in
  if failed rd then ret false
  else
    do* set_degaz 0 in
    do* set_calaz (VStr (snd rd)) in
    ret true.

(** [calibrateEl] *)
Definition calibrateEl : M State bool :=
  do* settimeout CAL_TIMEOUT in
  let* rd := doCommand "calel" in
  if failed rd then ret false
  else
    do* set_degel 0 in
    do* set_calel (VStr (snd rd)) in
    ret true.

(** [homeAz] *)
Definition homeAz : M State (bool * string) :=
  let* st := get in
  if offline st then ret (true, "ack") else
  do* settimeout MOV_TIMEOUT in
  let* r := doCommand "homeaz" in
  do* set_degaz 0 in
  do* pos_callback "az" 0 in
  ret r.

(** [homeEl] *)
Definition homeEl : M State (bool * string) :=
  let* st := get in
  if offline st then ret (true, "ack") else
  do* settimeout MOV_TIMEOUT in
  let* r := doCommand "homeel" in
  do* set_degel 0 in
  do* pos_callback "el" 0 in
  ret r.

(** [setPosAz] *)
Definition setPosAz (params : list Val) : M State (bool * string) :=
  let* st := get in
  let* homed :=
    (if degaz st =? -1 then
       (* Don't know where we are so move to home first *)
       let* rd := homeAz in
       if failed rd then ret (Some rd)
       else do* set_degaz 0 in ret None
     else ret None) in
  match homed with
  | Some rd => ret rd
  | None =>
      let* st := get in
      if offline st then ret (true, "ack") else
      let* azimuth := lift (index params 0) in
      do* settimeout MOV_TIMEOUT in
      doCommand (str azimuth +:+ "z")
  end.

(** [setPosEl] *)
Definition setPosEl (params : list Val) : M State (bool * string) :=
  let* st := get in
  let* homed :=
    (if degel st =? -1 then
       let* rd := homeEl in
       if failed rd then ret (Some rd)
       else do* set_degel 0 in ret None
     else ret None) in
  match homed with
  | Some rd => ret rd
  | None =>
      let* st := get in
      if offline st then ret (true, "ack") else
      let* elevation := lift (index params 0) in
      do* settimeout MOV_TIMEOUT in
      doCommand (str elevation +:+ "e")
  end.

(** The four nudge methods. *)
Definition mov_command (cmd : string) : M State (bool * string) :=
  let* st := get in
  if offline st then ret (true, "ack") else
  do* settimeout MOV_TIMEOUT in
  doCommand cmd.

Definition nudgeAzFwd := mov_command "ngazfwd".
Definition nudgeAzRev := mov_command "ngazrev".
Definition nudgeElFwd := mov_command "ngelfwd".
Definition nudgeElRev := mov_command "ngelrev".

(** [getPos] *)
Definition getPos (args : list Val) : M State bool :=
  let* az := lift (index args 0) in
  let* el := lift (index args 1) in
  let* q := lift (index args 2) in
  let* st := get in
  match q with
  | VQueue q =>
      let* x := lift (if status st =? ONLINE then float (VInt (degaz st)) else float az) in
      let* y := lift (if status st =? ONLINE then float (VInt (degel st)) else float el) in
      do* emit (QueueAppend q (fmt_f x +:+ NL +:+ fmt_f y +:+ NL)) in
      ret true
  | _ => raise AttributeError      (* no [append] on this object *)
  end.

(** [defs.config["Calibration"][key]] *)
Definition saved (key : string) : M State Val :=
  let* st := get in
  match calibration st !! key with
  | Some v => ret v
  | None => raise KeyError
  end.

Definition cal_failed (why : option string) : M State bool :=
  do* (match why with
       | Some text => emit (MsgqAppend (Text text))
       | None => ret tt
       end) in
  do* emit (StateCallback CAL_FAILED) in
  do* set_status CAL_FAILED in
  ret false.

(** [coldStart] *)
Definition coldStart : M State bool :=
  let* st := get in
  if offline st then ret true else
  (* Set speed *)
  let* rd := setAzSpeed (str_of_int AZ_MOTOR_SPEED) in
  if failed rd then cal_failed (Some "Failed to set azimuth motor speed!") else
  let* rd := setElSpeed (str_of_int EL_MOTOR_SPEED) in
  if failed rd then cal_failed (Some "Failed to set elevation motor speed!") else
  let* st := get in
  let* good :=
    (if bool_decide (calibration st !! "AZ" = None)
        || bool_decide (calibration st !! "EL" = None) then
       (* Perform a calibration *)
       let* ok := calibrateAz in
       if negb ok then cal_failed (Some "Failed to calibrate azimuth motor!") else
       let* ok := calibrateEl in
       if negb ok then cal_failed (Some "Failed to calibrate elevation motor!") else
       ret true
     else
       (* Set saved calibration *)
       let* az := saved "AZ" in
       let* rd := setCalAz (str az) in
       if failed rd then cal_failed None else
       let* el := saved "EL" in
       let* rd := setCalEl (str el) in
       if failed rd then cal_failed None else
       ret true) in
  if negb good then ret false else
  do* emit (StateCallback ONLINE) in
  do* set_status ONLINE in
  ret true.

Definition is_ValueError (e : Exn) : bool :=
  match e with ValueError => true | _ => false end.

(** [__event_callback] *)
Definition event_callback (position : string) : M State unit :=
  let poslist := split_max ":"%char position 2 in
  try_except_only is_ValueError
    (let* axis := lift (index poslist 0) in
     let* field := lift (index poslist 1) in
     let* v := lift (int_of_str field) in
     do* pos_callback axis v in
     if String.eqb axis "az" then
       let* field := lift (index poslist 1) in
       let* v := lift (int_of_str field) in
       set_degaz v
     else if String.eqb axis "el" then
       let* field := lift (index poslist 1) in
       let* v := lift (int_of_str field) in
       set_degel v
     else ret tt)
    ((* [self.__msgq.append('Bad position data! ', position)]:
        [append] takes exactly one argument *)
     raise TypeError).

(** One turn of the loop of [EvntIf.run] on what the event socket
    delivers; only the timeout is handled there. *)
Definition evnt_turn (ev : EvntRead) : M State unit :=
  match ev with
  | EvntDatagram data =>
      let* position := lift (decode_utf8 data) in
      event_callback position
  | EvntTimeout => ret tt
  | EvntFailure => raise OSError
  end.

(** [EvntIf.run] over the successive reads of the event socket, up
    to the read after which the thread is told to quit. *)
Fixpoint evnt_loop (reads : list EvntRead) : M State unit :=
  match reads with
  | [] => ret tt
  | ev :: rest => do* evnt_turn ev in evnt_loop rest
  end.

Definition evnt_run (reads : list EvntRead) : M State unit :=
  do* emit (MsgqAppend (Text "Event thread starting (position events) ...")) in
  do* evnt_loop reads in
  emit (MsgqAppend (Text "Event thread exiting...")).

(** [terminate]: the calibration is saved when both values are set. *)
Definition is_minus_one (v : Val) : bool :=
  match v with VInt z => z =? -1 | _ => false end.

Definition terminate : M State unit :=
  let* st := get in
  if negb (is_minus_one (calaz st)) && negb (is_minus_one (calel st)) then
    set_calibration (<["EL" := calel st]> (<["AZ" := calaz st]> (calibration st)))
  else ret tt.

(** ** The dispatch table and the command loop of [run] *)

Inductive Method :=
| m_coldStart | m_poll | m_isOnLine | m_getPos
| m_setCalAz | m_setCalEl | m_setAzSpeed | m_setElSpeed
| m_calibrateAz | m_calibrateEl | m_homeAz | m_homeEl
| m_setPosAz | m_setPosEl
| m_nudgeAzFwd | m_nudgeAzRev | m_nudgeElFwd | m_nudgeElRev.

Definition lookup : gmap string Method :=
  list_to_map
    [("coldstart", m_coldStart); ("poll", m_poll); ("isonline", m_isOnLine);
     ("getPos", m_getPos); ("setCalAz", m_setCalAz); ("setCalEl", m_setCalEl);
     ("setAzSpeed", m_setAzSpeed); ("setElSpeed", m_setElSpeed);
     ("calibrateAz", m_calibrateAz); ("calibrateEl", m_calibrateEl);
     ("homeAz", m_homeAz); ("homeEl", m_homeEl);
     ("setPosAz", m_setPosAz); ("setPosEl", m_setPosEl);
     ("nudgeazfwd", m_nudgeAzFwd); ("nudgeazrev", m_nudgeAzRev);
     ("nudgeelfwd", m_nudgeElFwd); ("nudgeelrev", m_nudgeElRev)].

(** The truth value of what a method returns: a pair is a non-empty
    tuple, hence true. *)
Definition truthy_pair (c : M State (bool * string)) : M State bool :=
  do* c in ret true.

(** [self.__lookup[cmd](args)] *)
Definition call_with (m : Method) (args : list Val) : M State bool :=
  match m with
  | m_getPos => getPos args
  | m_setCalAz => truthy_pair (setCalAz (str_list args))
  | m_setCalEl => truthy_pair (setCalEl (str_list args))
  | m_setAzSpeed => truthy_pair (setAzSpeed (str_list args))
  | m_setElSpeed => truthy_pair (setElSpeed (str_list args))
  | m_setPosAz => truthy_pair (setPosAz args)
  | m_setPosEl => truthy_pair (setPosEl args)
  | _ => raise TypeError            (* takes no argument *)
  end.

(** [self.__lookup[cmd]()] *)
Definition call (m : Method) : M State bool :=
  match m with
  | m_coldStart => coldStart
  | m_poll => truthy_pair poll
  | m_isOnLine => truthy_pair isOnLine
  | m_calibrateAz => calibrateAz
  | m_calibrateEl => calibrateEl
  | m_homeAz => truthy_pair homeAz
  | m_homeEl => truthy_pair homeEl
  | m_nudgeAzFwd => truthy_pair nudgeAzFwd
  | m_nudgeAzRev => truthy_pair nudgeAzRev
  | m_nudgeElFwd => truthy_pair nudgeElFwd
  | m_nudgeElRev => truthy_pair nudgeElRev
  | _ => raise TypeError            (* misses its argument *)
  end.

(** One command taken from the queue. *)
Definition execute (item : string * list Val) : M State unit :=
  let (cmd, args) := item in
  match lookup !! cmd with
  | None => raise KeyError
  | Some m =>
      if (0 <? List.length args)%nat then
        let* ok := call_with m args in
        if negb ok then
          emit (MsgqAppend (Text ("Error executing command " +:+ cmd +:+
                                  " with args " +:+ str_list args +:+ "!")))
        else ret tt
      else
        let* ok := call m in
        if negb ok then
          emit (MsgqAppend (Text ("Error executing command " +:+ cmd +:+ "!")))
        else ret tt
  end.

(** [while len(self.__cmdq) > 0: ...] on the commands found queued. *)
Fixpoint process (cmdq : list (string * list Val)) : M State unit :=
  match cmdq with
  | [] => ret tt
  | item :: rest => do* execute item in process rest
  end.

(** The datagrams handed to the command socket by a trace (the calls of
    [sendto]), in order. *)
Fixpoint wire (t : list Effect) : list string :=
  match t with
  | [] => []
  | UdpSend cmd :: t' => cmd :: wire t'
  | _ :: t' => wire t'
  end.

(** The position events delivered to the position sink by a trace. *)
Fixpoint positions (t : list Effect) : list (string * Z) :=
  match t with
  | [] => []
  | PosCallback axis v _ _ :: t' => (axis, v) :: positions t'
  | _ :: t' => positions t'
  end.

End RotIf.

(* ===================================================================== *)
(** * satif.py, rigif.py : the listener threads and [__openSocket] *)
(* ===================================================================== *)

(** [needle in s] for two strings. *)
Fixpoint contains (needle s : string) : bool :=
  String.prefix needle s
  || match s with
     | EmptyString => false
     | String _ s' => contains needle s'
     end.

(** The sending loop of [AntListenerThread.run] and of
    [RigListenerThread.run]; the two differ in the text of one log
    line. *)
Module ListenerThread.
Import Defs.

Inductive Kind := Antenna | Rig.

(** The two lines the loop logs. The second one is
    ['Failure in antenna listener thread: [%s][%s]'], or the same with
    [rig] for [antenna], filled with [format(e)] and the traceback. *)
Inductive Line :=
| HostDisconnected                     (* 'Satelite control disconnected!' *)
| ThreadFailure (k : Kind) (text : string).

(** What [conn.send] does: it returns, or raises an exception whose
    [str] is [text]. *)
Inductive SendResult :=
| Sent
| SendError (text : string).

Inductive Effect :=
| ConnSend (data : string)            (* self.__conn.send(bytes(data, 'UTF-8')) *)
| MsgqAppend (line : Line)
| EvntCallback (msg : string)         (* self.__evntCallback(msg) *)
| StatusCallback (status : Z).

(** [sendq] is the deque shared with the protocol server, oldest entry
    first; [sends] lists the outcomes of the successive calls of
    [conn.send] (success once exhausted). *)
Record State := mkState {
  sendq : list string;
  terminate : bool;
  sends : list SendResult;
  trace : list Effect
}.

Definition emit (e : Effect) : M State unit :=
  modify (fun st => mkState (sendq st) (terminate st) (sends st) (trace st ++ [e])).
Definition set_sendq (q : list string) : M State unit :=
  modify (fun st => mkState q (terminate st) (sends st) (trace st)).
Definition set_terminate (b : bool) : M State unit :=
  modify (fun st => mkState (sendq st) b (sends st) (trace st)).

(** [self.__conn.send(...)] *)
Definition conn_send (data : string) : M State SendResult :=
  do* emit (ConnSend data) in
  fun st =>
    match sends st with
    | [] => (Ok Sent, st)
    | r :: rest => (Ok r, mkState (sendq st) (terminate st) rest (trace st))
    end.

(** ['10053' in str(e) or '10054' in str(e) or '32' in str(e)] *)
Definition disconnected (text : string) : bool :=
  contains "10053" text || contains "10054" text || contains "32" text.

Section Drain.

(** The event callback given to the constructor, as what it does to the
    send queue. *)
Variable evntCallback : string -> list string -> list string.
Variable kind : Kind.

(** [while len(self.__sendq) > 0: data = self.__sendq.pop() ...], on the
    queue read from its tail: [pending] is the queue reversed. The
    result is the flag [success]. *)
Fixpoint drain_from (pending : list string) : M State bool :=
  match pending with
  | [] => ret true
  | data :: older =>
      do* set_sendq (List.rev older) in
      let* r := conn_send data in
      match r with
      | Sent => drain_from older
      | SendError text =>
          do* (if disconnected text
               then emit (MsgqAppend HostDisconnected)
               else emit (MsgqAppend (ThreadFailure kind text))) in
          (* Request to restart thread *)
          do* emit (EvntCallback ("x" +:+ NL)) in
          let* st := get in
          do* set_sendq (evntCallback ("x" +:+ NL) (sendq st)) in
          do* set_terminate true in
          do* emit (StatusCallback FAILED) in
          ret false
      end
  end.

Definition drain : M State bool :=
  let* st := get in
  drain_from (List.rev (sendq st)).

End Drain.

(** What a trace put on the connection, in order. *)
Fixpoint sent (t : list Effect) : list string :=
  match t with
  | [] => []
  | ConnSend data :: t' => data :: sent t'
  | _ :: t' => sent t'
  end.

End ListenerThread.

(** [SatIf.__openSocket] and [RigIf.__openSocket]; the two differ in the
    address bound and in the text of the failure line. *)
Module OpenSocket.
Import Defs.

(** What [sock.bind] does: it returns, or raises an exception whose
    [str] is [text]. *)
Inductive BindResult :=
| Bound
| BindError (text : string).

Inductive Effect :=
| SockBind                            (* socket.socket(...); sock.bind(...) *)
| SockClose
| Sleep (tenths : Z)                  (* sleep(tenths / 10) *)
| MsgqAppend (line : string)
| StatusCallback (status : Z).

(** [binds] lists the outcomes of the successive calls of [bind]
    (success once exhausted). *)
Record State := mkState {
  binds : list BindResult;
  trace : list Effect
}.

Definition emit (e : Effect) : M State unit :=
  modify (fun st => mkState (binds st) (trace st ++ [e])).

Definition sock_bind : M State BindResult :=
  do* emit SockBind in
  fun st =>
    match binds st with
    | [] => (Ok Bound, st)
    | r :: rest => (Ok r, mkState rest (trace st))
    end.

(** The [while True] of [__openSocket]; one unit of fuel per attempt. *)
Fixpoint openSocket_loop (failure : string) (fuel : nat) (retry : Z)
  : M State bool :=
  match fuel with
  | O => lift OutOfFuel
  | S fuel' =>
      let* r := sock_bind in
      match r with
      | Bound => ret true
      | BindError text =>
          if contains "10048" text then
            (* Socket not available *)
            do* emit SockClose in
            let retry := retry - 1 in
            if retry =? 0 then
              do* emit (MsgqAppend failure) in
              do* emit (StatusCallback FAILED) in
              ret false
            else
              do* emit (Sleep 10) in
              do* emit (Sleep 1) in
              openSocket_loop failure fuel' retry
          else
            do* emit (Sleep 1) in
            openSocket_loop failure fuel' retry
      end
  end.

(** [__openSocket] *)
Definition openSocket (failure : string) (fuel : nat) : M State bool :=
  openSocket_loop failure fuel 5.

(** The number of calls of [bind] in a trace. *)
Fixpoint attempts (t : list Effect) : nat :=
  match t with
  | [] => 0%nat
  | SockBind :: t' => S (attempts t')
  | _ :: t' => attempts t'
  end.

End OpenSocket.

(* ===================================================================== *)
(** * Vocabulary of the statements *)
(* ===================================================================== *)

Section RigVocabulary.
Import RigIf.

(** The attributes that only the handler itself writes. *)
Definition kept (st st' : State) : Prop :=
  ptt st' = ptt st /\ rigPtt st' = rigPtt st /\ lastFreq st' = lastFreq st.

(** Frame reasoning: a computation [frames] when it leaves [ptt],
    [rigPtt] and [lastFreq] alone whatever its outcome. *)
Definition frames {A} (c : M State A) : Prop :=
  forall st r st', c st = (r, st') -> kept st st'.

End RigVocabulary.

Section RotVocabulary.
Import RotIf.

(** What the next exchange on the command socket meets. *)
Definition next_event (st : State) : NetEvent :=
  match net st with
  | [] => Timeout
  | ev :: _ => ev
  end.

(** The state after one exchange: the command is handed to the socket
    and what the exchange meets is consumed. *)
Definition exchanged (cmd : string) (st : State) : State :=
  mkState (status st) (calaz st) (calel st) (degaz st) (degel st)
          (timeout st) (calibration st) (List.tail (net st))
          (trace st ++ [UdpSend cmd]).

(** An exchange whose command goes out and that [__doCommand] turns
    into a result pair: the wait for the reply times out, or the reply
    is decodable. *)
Definition readable (ev : NetEvent) : bool :=
  match ev with
  | Timeout => true
  | Datagram data => utf8_valid (list_ascii_of_string data)
  | _ => false
  end.

(** The result pair of such an exchange. *)
Definition reply_of (ev : NetEvent) : bool * string :=
  match ev with
  | Datagram data => (true, data)
  | _ => (false, "nak")
  end.

(** ["%f\n%f\n" % (x, y)] *)
Definition two_lines (x y : spec_float) : string :=
  fmt_f x +:+ NL +:+ fmt_f y +:+ NL.

(** The state with one more effect and nothing else changed. *)
Definition with_effect (st : State) (e : Effect) : State :=
  mkState (status st) (calaz st) (calel st) (degaz st) (degel st)
          (timeout st) (calibration st) (net st) (trace st ++ [e]).

(** What the [k]-th exchange on the command socket from now on meets. *)
Definition nth_event (k : nat) (st : State) : NetEvent :=
  List.nth k (net st) Timeout.

(** A reply that lets a start-up step pass: a decodable datagram other
    than ["nak"]. *)
Definition acked (ev : NetEvent) : bool :=
  match ev with
  | Datagram data =>
      utf8_valid (list_ascii_of_string data) && negb (String.eqb data "nak")
  | _ => false
  end.

(** A failure of a step whose command went out: the wait timed out or
    the reply is ["nak"]. *)
Definition refused (ev : NetEvent) : bool :=
  match ev with
  | Timeout => true
  | Datagram data => String.eqb data "nak"
  | _ => false
  end.

End RotVocabulary.

Section SatVocabulary.

(** The effects of a well-formed set-position line. *)
Definition set_position_effects (az el : Z) : list SatIf.Effect :=
  [SatIf.CmdqAppend "setPosAz" [VInt az];
   SatIf.CmdqAppend "setPosEl" [VInt el];
   SatIf.PositionCallback az el;
   SatIf.SendqAppend ("RPRT 0" +:+ NL)].

End SatVocabulary.

(** Sample objects, used to run the statements on concrete inputs. *)

(** A CAT object whose translation functions return their argument. *)
Definition echo (v : Val) : Res Val := Ok v.

(** A rig interface tuned to the 2 m downlink with the PTT switch on. *)
Definition tuned : RigIf.State :=
  RigIf.mkState true false (Some "145800000") false [] [] [].

(** A rig interface just created, with the PTT switch then set. *)
Definition fresh_with_ptt : RigIf.State :=
  snd (RigIf.manualSetPtt true (RigIf.init [] [])).

(** The saved calibration of the cold-connect scenario. *)
Definition saved_calibration : gmap string Val :=
  <["AZ" := VInt 12345]> (<["EL" := VInt 6789]> ∅).

(** A rotator interface after a successful poll, position unknown. *)
Definition polled (cfg : gmap string Val) (replies : list RotIf.NetEvent)
  : RotIf.State :=
  RotIf.mkState Defs.PENDING (VInt (-1)) (VInt (-1)) (-1) (-1) Defs.HW_TIMEOUT
                cfg replies [].

(** A rotator interface online at azimuth 10, elevation 20. *)
Definition tracking (replies : list RotIf.NetEvent) : RotIf.State :=
  RotIf.mkState Defs.ONLINE (VInt 12345) (VInt 6789) 10 20 Defs.MOV_TIMEOUT
                saved_calibration replies [].

Definition ack : RotIf.NetEvent := RotIf.Datagram "ack".

(** A rig interface whose CAT thread delivers the frequency during wait
    number [k + 1]. *)
Definition awaiting (k : nat) : RigIf.State :=
  RigIf.mkState false false None false []
    (List.repeat [] k ++ [[(true, Defs.CAT_FREQ_GET, VStr "145800000")]]) [].

(** A rig interface whose CAT queue holds a failed reply in front of the
    frequency. *)
Definition answered : RigIf.State :=
  RigIf.mkState false false None false
    [(false, Defs.CAT_FREQ_SET, VNone);
     (true, Defs.CAT_FREQ_GET, VStr "145800000")] [] [].

(** A rotator interface at the end of a session in which it calibrated. *)
Definition calibrated : RotIf.State :=
  RotIf.mkState Defs.ONLINE (VStr "12000") (VStr "6500") 0 0 Defs.CAL_TIMEOUT
                ∅ [] [].

(** An event callback that leaves the send queue alone. *)
Definition pass_queue (msg : string) (q : list string) : list string := q.

(** A listener thread with replies queued, oldest first. *)
Definition replying (q : list string) (sends : list ListenerThread.SendResult)
  : ListenerThread.State :=
  ListenerThread.mkState q false sends [].

(** A socket set-up facing the given outcomes of [bind]. *)
Definition binding (outcomes : list OpenSocket.BindResult) : OpenSocket.State :=
  OpenSocket.mkState outcomes [].

(* ===================================================================== *)
(** * Vocabulary of the further statements *)
(* ===================================================================== *)

Section RotFurtherVocabulary.
Import RotIf.

(** The lines a trace put on the message queue. *)
Fixpoint logged (t : list Effect) : list LogMsg :=
  match t with
  | [] => []
  | MsgqAppend m :: t' => m :: logged t'
  | _ :: t' => logged t'
  end.

(** The states a trace reported through the state callback. *)
Fixpoint transitions (t : list Effect) : list Z :=
  match t with
  | [] => []
  | StateCallback s :: t' => s :: transitions t'
  | _ :: t' => transitions t'
  end.

(** A computation that puts no line on the message queue. *)
Definition quiet {A} (c : M State A) : Prop :=
  forall st r st', c st = (r, st') -> logged (trace st') = logged (trace st).

(** The position event carried by a datagram of the event channel that
    [__event_callback] accepts: decodable, with an integer in its second
    field. *)
Definition parse_event (data : string) : option (string * Z) :=
  if utf8_valid (list_ascii_of_string data) then
    match split_max ":"%char data 2 with
    | axis :: field :: _ =>
        match int_of_str field with
        | Ok n => Some (axis, n)
        | _ => None
        end
    | _ => None
    end
  else None.

(** A read of the event socket that the receiving loop survives. *)
Definition event_ok (ev : EvntRead) : bool :=
  match ev with
  | EvntTimeout => true
  | EvntDatagram data =>
      match parse_event data with Some _ => true | None => false end
  | EvntFailure => false
  end.

(** The events carried by a sequence of reads. *)
Fixpoint events_of (reads : list EvntRead) : list (string * Z) :=
  match reads with
  | [] => []
  | EvntDatagram data :: rest =>
      match parse_event data with
      | Some ev => ev :: events_of rest
      | None => events_of rest
      end
  | _ :: rest => events_of rest
  end.

(** The last value reported for [axis], [before] when there is none. *)
Fixpoint last_for (axis : string) (before : Z) (evs : list (string * Z)) : Z :=
  match evs with
  | [] => before
  | (a, n) :: rest => last_for axis (if String.eqb a axis then n else before) rest
  end.

End RotFurtherVocabulary.

(** The number of address-in-use errors among the texts of a sequence
    of bind errors. *)
Definition conflicts (errors : list string) : nat :=
  List.length (List.filter (contains "10048") errors).

(* ===================================================================== *)
(** * The runtime primitives on sample inputs *)
(* ===================================================================== *)

Example split_ws_sample : split_ws "P  123.4 45.6" = ["P"; "123.4"; "45.6"].
Proof. reflexivity. Qed.

Example split_max_sample :
  split_max ":"%char "az:5:6:7" 2 = ["az"; "5"; "6:7"]
  /\ split_max ":"%char "garbage" 2 = ["garbage"].
Proof. split; reflexivity. Qed.

Example params_of_sample :
  RigIf.params_of ("F  435850000" +:+ NL) = ["F"; "435850000"].
Proof. reflexivity. Qed.

Example int_of_str_sample :
  int_of_str " -12_3 " = Ok (-123)
  /\ int_of_str "1__2" = Raise ValueError
  /\ int_of_str "abc" = Raise ValueError
  /\ int_of_str "" = Raise ValueError.
Proof. repeat split. Qed.

Example int_float_sample :
  SatIf.int_float "123.4" = Ok 123
  /\ SatIf.int_float "-45.99" = Ok (-45)
  /\ SatIf.int_float "1e2" = Ok 100
  /\ SatIf.int_float "inf" = Raise OverflowError
  /\ SatIf.int_float "nan" = Raise ValueError
  /\ SatIf.int_float "north" = Raise ValueError.
Proof. repeat split. Qed.

Example fmt_f_sample :
  (match float_of_str "-45.99" with Ok x => fmt_f x | _ => "" end) = "-45.990000"
  /\ (match float_of_int 123 with Ok x => fmt_f x | _ => "" end) = "123.000000"
  /\ (match float_of_int (-1) with Ok x => fmt_f x | _ => "" end) = "-1.000000".
Proof. repeat split. Qed.

(* ===================================================================== *)
(** * Properties of the rig protocol server *)
(* ===================================================================== *)

Arguments int_of_str : simpl never.
Arguments float_of_str : simpl never.
Arguments float_of_int : simpl never.
Arguments fmt_f : simpl never.
Arguments decode_utf8 : simpl never.
Arguments str_of_int : simpl never.

(** Running the monad: unfold its combinators and compute. *)
Ltac py_unfold :=
  unfold bind, ret, raise, lift, get, modify, try_except, try_except_only.

Ltac rig_run :=
  repeat (progress (cbn;
    unfold RigIf.emit, RigIf.set_ptt, RigIf.set_rigPtt, RigIf.set_lastFreq,
      RigIf.set_restart, RigIf.set_catq, RigIf.sleep_tick, RigIf.get_lastFreq,
      RigIf.local, RigIf.call_msgq;
    py_unfold)).

Ltac rig_run_in H :=
  repeat (progress (cbn in H;
    unfold RigIf.emit, RigIf.set_ptt, RigIf.set_rigPtt, RigIf.set_lastFreq,
      RigIf.set_restart, RigIf.set_catq, RigIf.sleep_tick, RigIf.get_lastFreq,
      RigIf.local, RigIf.call_msgq in H;
    unfold bind, ret, raise, lift, get, modify, try_except, try_except_only in H)).

Section RigProperties.
Import RigIf Defs.

Variable mode_for_id : Val -> Res Val.
Variable bandwidth_for_mode : Val -> Res Val.

Abbreviation handle := (listenCallback mode_for_id bandwidth_for_mode).

Lemma params_nonempty_msg (msg : string) (p : string) (ps : list string) :
  params_of msg = p :: ps -> (String.length msg =? 0)%nat = false.
Proof.
  destruct msg; [discriminate | reflexivity].
Qed.

(** C1. An [F <hz>] line handled while the PTT intent is set and a last
    frequency is on record: CAT_FREQ_SET with the frequency and the
    reply "RPRT 0" come first; the transmitter is keyed (CAT_PTT_SET
    with true sent, [rigPtt] set) exactly when the new frequency is more
    than 100000 Hz away from the last one, and otherwise [rigPtt] keeps
    its value; the new frequency is the last frequency afterwards. *)
Theorem set_freq_keys_on_large_jump
    (fuel : nat) (st : State) (msg hz lastf : string) (new last : Z) :
  ptt st = true ->
  params_of msg = ["F"; hz] ->
  int_of_str hz = Ok new ->
  lastFreq st = Some lastf ->
  int_of_str lastf = Ok last ->
  exists (st' : State) (keying : list Effect),
    handle fuel msg st = (Ok tt, st')
    /\ trace st' = trace st ++
         [CatDo CAT_FREQ_SET (Some (VStr hz));
          SendqAppend ("RPRT 0" +:+ NL);
          FreqCallback true hz] ++ keying
    /\ lastFreq st' = Some hz
    /\ ptt st' = true
    /\ restart st' = restart st
    /\ ((Z.abs (new - last) > 100000
         /\ keying = [CatDo CAT_PTT_SET (Some (VBool true))]
         /\ rigPtt st' = true)
        \/ (Z.abs (new - last) <= 100000
            /\ keying = []
            /\ rigPtt st' = rigPtt st)).
Proof.
  intros Hptt Hpar Hnew Hlast Hlastv.
  destruct st as [p rp lf rs cq ar tr]; cbn in Hptt, Hlast; subst p lf.
  unfold listenCallback, try_except, listenCallback_try.
  rewrite (params_nonempty_msg _ _ _ Hpar), Hpar.
  rig_run. rewrite Hnew. rig_run. rewrite Hlastv. rig_run.
  destruct (Z.abs (new - last) >? 100000) eqn:Hcmp; rig_run.
  - eexists. exists [CatDo CAT_PTT_SET (Some (VBool true))].
    split; [reflexivity |]. cbn. rewrite <- !app_assoc. cbn.
    repeat split; try reflexivity.
    left. repeat split; lia.
  - eexists. exists [].
    split; [reflexivity |]. cbn. rewrite <- !app_assoc. cbn.
    repeat split; try reflexivity.
    right. repeat split; lia.
Qed.

(** The boundary of the crossover test, by running the handler: a jump
    of exactly 100000 Hz does not key, one of 100001 Hz does. *)
Example jump_of_100000_does_not_key :
  snd (handle 0 ("F 145900000" +:+ NL) tuned)
  = mkState true false (Some "145900000") false [] []
      [CatDo CAT_FREQ_SET (Some (VStr "145900000"));
       SendqAppend ("RPRT 0" +:+ NL);
       FreqCallback true "145900000"].
Proof. reflexivity. Qed.

Example jump_of_100001_keys :
  snd (handle 0 ("F 145900001" +:+ NL) tuned)
  = mkState true true (Some "145900001") false [] []
      [CatDo CAT_FREQ_SET (Some (VStr "145900001"));
       SendqAppend ("RPRT 0" +:+ NL);
       FreqCallback true "145900001";
       CatDo CAT_PTT_SET (Some (VBool true))].
Proof. reflexivity. Qed.

(** Without the PTT intent the line records the frequency and never
    keys, whatever the last frequency. *)
Lemma set_freq_without_ptt_never_keys
    (fuel : nat) (st : State) (msg hz : string) :
  ptt st = false ->
  params_of msg = ["F"; hz] ->
  handle fuel msg st
  = (Ok tt,
     mkState false (rigPtt st) (Some hz) (restart st) (catq st) (arrivals st)
       (trace st ++ [CatDo CAT_FREQ_SET (Some (VStr hz));
                     SendqAppend ("RPRT 0" +:+ NL);
                     FreqCallback false hz])).
Proof.
  intros Hptt Hpar.
  destruct st as [p rp lf rs cq ar tr]; cbn in Hptt; subst p.
  unfold listenCallback, try_except, listenCallback_try.
  rewrite (params_nonempty_msg _ _ _ Hpar), Hpar.
  rig_run. rewrite <- !app_assoc. reflexivity.
Qed.

Example set_freq_without_ptt :
  snd (handle 0 ("F 435850000" +:+ NL) (init [] []))
  = mkState false false (Some "435850000") false [] []
      [CatDo CAT_FREQ_SET (Some (VStr "435850000"));
       SendqAppend ("RPRT 0" +:+ NL);
       FreqCallback false "435850000"].
Proof. reflexivity. Qed.

(** ** The CAT response rendezvous *)

Lemma kept_refl st : kept st st.
Proof. repeat split. Qed.

Lemma kept_trans a b c : kept a b -> kept b c -> kept a c.
Proof. unfold kept. intuition congruence. Qed.

Lemma sleep_tick_kept st : kept st (snd (sleep_tick st)).
Proof. unfold sleep_tick, modify. destruct (arrivals st); repeat split. Qed.

Lemma wait_catq_kept command count st r st' :
  wait_catq command count st = (r, st') -> kept st st'.
Proof.
  revert st r st'.
  induction count as [| count IH]; intros st r st' H.
  - cbn in H. unfold bind, get, ret in H.
    destruct (catq st) eqn:Hq.
    + pose proof (sleep_tick_kept st) as K.
      destruct (sleep_tick st) as [[[] | e |] s1] eqn:Hs;
        unfold sleep_tick, modify in Hs; inversion Hs; subst; clear Hs.
      cbn in H. injection H as <- <-. exact K.
    + injection H as <- <-. apply kept_refl.
  - cbn in H. unfold bind, get, ret in H.
    destruct (catq st) eqn:Hq.
    + pose proof (sleep_tick_kept st) as K.
      destruct (sleep_tick st) as [[[] | e |] s1] eqn:Hs;
        unfold sleep_tick, modify in Hs; inversion Hs; subst; clear Hs.
      cbn [snd] in K.
      destruct (count <=? 0)%nat.
      * cbn in H. injection H as <- <-. exact K.
      * apply IH in H. eapply kept_trans; eassumption.
    + injection H as <- <-. apply kept_refl.
Qed.

Lemma cat_response_loop_kept fuel command count st r st' :
  cat_response_loop fuel command count st = (r, st') -> kept st st'.
Proof.
  revert count st r st'.
  induction fuel as [| fuel IH]; intros count st r st' H.
  - cbn in H. injection H as <- <-. apply kept_refl.
  - cbn in H. unfold bind in H.
    destruct (wait_catq command count st) as [[[c |] | e |] s1] eqn:Hw;
      apply wait_catq_kept in Hw;
      try (injection H as <- <-; exact Hw).
    unfold get, ret in H.
    destruct (catq s1) as [| [[ok cmd] data] rest] eqn:Hq.
    + injection H as <- <-. exact Hw.
    + unfold set_catq, modify in H.
      destruct ok.
      * destruct (String.eqb cmd command).
        -- injection H as <- <-.
           eapply kept_trans; [exact Hw | repeat split].
        -- cbn in H. injection H as <- <-.
           eapply kept_trans; [exact Hw | repeat split].
      * apply IH in H.
        eapply kept_trans; [exact Hw |].
        eapply kept_trans; [| exact H]. repeat split.
Qed.

Lemma frames_ret {A} (a : A) : frames (ret a).
Proof. intros st r st' H. injection H as <- <-. apply kept_refl. Qed.

Lemma frames_raise {A} (e : Exn) : frames (@raise State A e).
Proof. intros st r st' H. injection H as <- <-. apply kept_refl. Qed.

Lemma frames_lift {A} (x : Res A) : frames (@lift State A x).
Proof. intros st r st' H. injection H as <- <-. apply kept_refl. Qed.

Lemma frames_get : frames (@get State).
Proof. intros st r st' H. injection H as <- <-. apply kept_refl. Qed.

Lemma frames_emit e : frames (emit e).
Proof. intros st r st' H. injection H as <- <-. repeat split. Qed.

Lemma frames_set_restart b : frames (set_restart b).
Proof. intros st r st' H. injection H as <- <-. repeat split. Qed.

Lemma frames_local {A} (v : option A) : frames (local v).
Proof. destruct v; [apply frames_ret | apply frames_raise]. Qed.

Lemma frames_get_lastFreq : frames get_lastFreq.
Proof.
  intros st r st' H. unfold get_lastFreq, bind, get in H.
  destruct (lastFreq st); injection H as <- <-; apply kept_refl.
Qed.

Lemma frames_cat_response fuel command : frames (cat_response fuel command).
Proof. intros st r st' H. eapply cat_response_loop_kept, H. Qed.

Lemma frames_bind {A B} (c : M State A) (k : A -> M State B) :
  frames c -> (forall a, frames (k a)) -> frames (bind c k).
Proof.
  intros Hc Hk st r st' H. unfold bind in H.
  destruct (c st) as [[a | e |] s1] eqn:E; apply Hc in E.
  - apply Hk in H. eapply kept_trans; eassumption.
  - injection H as <- <-. exact E.
  - injection H as <- <-. exact E.
Qed.

(** C10. An [F <hz>] line handled with the PTT intent set while the
    attribute [__lastFreq] does not exist yet (the constructor never
    creates it, only the handling of an [F] line does): CAT_FREQ_SET is
    sent, "RPRT 0" is queued and the frequency callback is called, then
    reading [__lastFreq] fails; the catch-all of the handler logs the
    error and asks for a restart. The transmitter is not keyed: no
    CAT_PTT_SET is sent and [rigPtt] keeps its value, which is false as
    long as no [F] line has been handled (only the handling of an [F]
    line sets it). *)
Theorem first_set_freq_under_ptt_fails_in_handler
    (fuel : nat) (st : State) (msg hz : string) (new : Z) :
  lastFreq st = None ->
  ptt st = true ->
  params_of msg = ["F"; hz] ->
  int_of_str hz = Ok new ->
  handle fuel msg st
  = (Ok tt,
     mkState true (rigPtt st) None true (catq st) (arrivals st)
       (trace st ++
          [CatDo CAT_FREQ_SET (Some (VStr hz));
           SendqAppend ("RPRT 0" +:+ NL);
           FreqCallback true hz;
           MsgqAppend (Problem "rig interface" AttributeError)])).
Proof.
  intros Hnone Hptt Hpar Hnew.
  destruct st as [p rp lf rs cq ar tr]; cbn in Hnone, Hptt; subst p lf.
  unfold listenCallback, try_except, listenCallback_try.
  rewrite (params_nonempty_msg _ _ _ Hpar), Hpar.
  rig_run. rewrite Hnew. rig_run.
  rewrite <- !app_assoc. reflexivity.
Qed.

(** The three ways out of [__cat_response] at the head of the queue. *)
Lemma cat_response_head_matches fuel command data rest st :
  catq st = (true, command, data) :: rest ->
  cat_response (S fuel) command st
  = (Ok data,
     mkState (ptt st) (rigPtt st) (lastFreq st) (restart st) rest
             (arrivals st) (trace st)).
Proof.
  intros Hq. destruct st as [p rp lf rs cq ar tr]. cbn in Hq. subst cq.
  unfold cat_response. rig_run. rewrite String.eqb_refl. reflexivity.
Qed.

Lemma cat_response_head_differs fuel command cmd data rest st :
  catq st = (true, cmd, data) :: rest ->
  cmd <> command ->
  cat_response (S fuel) command st
  = (Raise TypeError,
     mkState (ptt st) (rigPtt st) (lastFreq st) (restart st) rest
             (arrivals st) (trace st)).
Proof.
  intros Hq Hne. destruct st as [p rp lf rs cq ar tr]. cbn in Hq. subst cq.
  apply String.eqb_neq in Hne.
  unfold cat_response. rig_run. rewrite Hne. reflexivity.
Qed.

Lemma wait_catq_silence command count st :
  catq st = [] -> arrivals st = [] ->
  wait_catq command count st = (Raise TypeError, st).
Proof.
  intros Hq Ha. destruct st as [p rp lf rs cq ar tr]. cbn in Hq, Ha. subst cq ar.
  induction count as [| count IH]; [reflexivity |].
  cbn. rig_run. destruct count; [reflexivity |]. cbn [Nat.leb]. exact IH.
Qed.

Lemma cat_response_silence fuel command st :
  catq st = [] -> arrivals st = [] ->
  cat_response (S fuel) command st = (Raise TypeError, st).
Proof.
  intros Hq Ha. unfold cat_response. cbn [cat_response_loop].
  unfold bind. rewrite (wait_catq_silence _ _ _ Hq Ha). reflexivity.
Qed.

(** C3. The [f] handler does not survive a reply for another operation
    at the head of the CAT queue: the line that should log it calls the
    message queue and raises, the handler is left through its catch-all
    with a restart requested, the matching reply stays in the queue and
    nothing is sent to the tracker. The same happens at the timeout:
    the method raises instead of returning [None]. *)
Theorem skewed_reply_aborts_get_freq (fuel : nat) :
  let skewed := (true, CAT_FREQ_SET, VNone) in
  let wanted := (true, CAT_FREQ_GET, VStr "145800000") in
  handle (S fuel) ("f" +:+ NL) (init [skewed; wanted] [])
  = (Ok tt,
     {| ptt := false; rigPtt := false; lastFreq := None;
        restart := true;
        catq := [wanted]; arrivals := [];
        trace := [CatDo CAT_FREQ_GET None;
                  MsgqAppend (Problem "rig interface" TypeError)] |})
  /\ handle (S fuel) ("f" +:+ NL) (init [] [])
     = (Ok tt,
        {| ptt := false; rigPtt := false; lastFreq := None;
           restart := true;
           catq := []; arrivals := [];
           trace := [CatDo CAT_FREQ_GET None;
                     MsgqAppend (Problem "rig interface" TypeError)] |}).
Proof.
  split; reflexivity.
Qed.

End RigProperties.

(* ===================================================================== *)
(** * Properties of the rotator interface *)
(* ===================================================================== *)

Ltac rot_unfold :=
  unfold RotIf.emit, RotIf.set_status, RotIf.set_calaz, RotIf.set_calel,
    RotIf.set_degaz, RotIf.set_degel, RotIf.settimeout, RotIf.set_calibration,
    RotIf.next_exchange, RotIf.exchange, RotIf.pos_callback, RotIf.offline, RotIf.failed.

Ltac rot_run := repeat (progress (cbn; rot_unfold; py_unfold)).


Ltac rot_run_in H :=
  repeat (progress (cbn in H;
    unfold RotIf.emit, RotIf.set_status, RotIf.set_calaz, RotIf.set_calel,
      RotIf.set_degaz, RotIf.set_degel, RotIf.settimeout, RotIf.set_calibration,
      RotIf.next_exchange, RotIf.exchange, RotIf.pos_callback, RotIf.offline, RotIf.failed in H;
    unfold bind, ret, raise, lift, get, modify, try_except, try_except_only in H)).

(** A reply that lets a step pass is decodable and is not "nak". *)
Lemma acked_decodes (data : string) :
  acked (RotIf.Datagram data) = true ->
  decode_utf8 data = Ok data /\ String.eqb data "nak" = false.
Proof.
  cbn. intros H. apply andb_prop in H as [Hv Hn].
  unfold decode_utf8. rewrite Hv. split; [reflexivity |].
  now apply negb_true_iff.
Qed.

(** Using a hypothesis on what an exchange meets. *)
Ltac use_reply H :=
  match type of H with
  | refused (RotIf.Datagram ?d) = true =>
      cbn in H; apply String.eqb_eq in H; subst d;
      change (decode_utf8 "nak") with (@Ok string "nak")
  | acked (RotIf.Datagram ?d) = true =>
      let Hd := fresh "Hd" in
      let Hn := fresh "Hn" in
      apply acked_decodes in H as (Hd & Hn)
  | readable (RotIf.Datagram ?d) = true =>
      let Hd := fresh "Hd" in
      assert (Hd : decode_utf8 d = Ok d)
        by (unfold decode_utf8; cbn in H; rewrite H; reflexivity);
      clear H
  | refused RotIf.Timeout = true => clear H
  | readable RotIf.Timeout = true => clear H
  | _ => discriminate H
  end.

(** What the next exchange meets, by cases, with the hypothesis [H] on
    it used at once. *)
Ltac net_step n H :=
  destruct n as [| [| ? | | |] n]; cbn [nth] in *; try use_reply H.

Ltac rot_go :=
  repeat (progress
    (rot_run;
     repeat match goal with
            | H : decode_utf8 _ = Ok _ |- _ => rewrite H
            | H : String.eqb _ "nak" = false |- _ => rewrite H
            | H : (_ =? Defs.OFFLINE) = false |- _ => rewrite H
            end)).

Section RotProperties.
Import RotIf Defs.

(** One exchange, as an equation to rewrite with: the result is read off
    what the exchange meets, and the state is [exchanged]. *)
Lemma doCommand_step (cmd : string) (st : State) :
  doCommand cmd st =
    (match next_event st with
     | Timeout | SendTimeout => Ok (false, "nak")
     | Datagram data =>
         if utf8_valid (list_ascii_of_string data) then Ok (true, data)
         else Raise UnicodeDecodeError
     | Failure | SendFailure => Raise OSError
     end,
     exchanged cmd st).
Proof.
  destruct st as [s ca ce da de t c n tr].
  unfold doCommand, next_event, exchanged.
  destruct n as [| [| data | | |] rest]; rot_run; try reflexivity.
  unfold decode_utf8.
  destruct (utf8_valid (list_ascii_of_string data)); reflexivity.
Qed.

(** C7, as amended. One command exchange hands the command to the
    socket and consumes what the exchange meets. It returns
    (False, "nak") exactly when the send or the wait for the reply
    raises [socket.timeout], and (True, d) when a datagram is received
    that is valid UTF-8, [d] being its decoding. It raises otherwise:
    the decoding error when the datagram is not valid UTF-8, and the
    [OSError] of a send or of a receive that fails in another way than
    by a timeout. *)
Theorem doCommand_outcomes (cmd : string) (st : State) :
  doCommand cmd st =
    (match next_event st with
     | Timeout | SendTimeout => Ok (false, "nak")
     | Datagram data =>
         if utf8_valid (list_ascii_of_string data) then Ok (true, data)
         else Raise UnicodeDecodeError
     | Failure | SendFailure => Raise OSError
     end,
     exchanged cmd st).
Proof.
  unfold doCommand, next_event, exchanged.
  destruct st as [s ca ce da de t c n tr].
  destruct n as [| [| data | | |] rest]; rot_run; try reflexivity.
  unfold decode_utf8.
  destruct (utf8_valid (list_ascii_of_string data)); reflexivity.
Qed.

(** C7, as stated, fails: a reply that is not valid UTF-8 gives neither
    of the two result pairs, and neither does a socket error other than
    a timeout. *)
Lemma doCommand_undecodable_reply :
  fst (doCommand "poll" (polled ∅ [Datagram (String (ascii_of_nat 255) EmptyString)]))
    = Raise UnicodeDecodeError
  /\ fst (doCommand "poll" (polled ∅ [Datagram (String (ascii_of_nat 255) EmptyString)]))
     <> Ok (false, "nak")
  /\ (forall d : string,
        fst (doCommand "poll" (polled ∅ [Datagram (String (ascii_of_nat 255) EmptyString)]))
        <> Ok (true, d))
  /\ fst (doCommand "poll" (polled ∅ [SendFailure])) = Raise OSError
  /\ fst (doCommand "poll" (polled ∅ [Failure])) = Raise OSError.
Proof.
  split; [reflexivity | split; [discriminate | split; [intros d; discriminate |]]].
  split; reflexivity.
Qed.

(** ** Homing *)

Lemma doCommand_readable cmd st :
  readable (next_event st) = true ->
  doCommand cmd st = (Ok (reply_of (next_event st)), exchanged cmd st).
Proof.
  intros H. rewrite doCommand_step.
  destruct (next_event st); cbn in *; try discriminate; [reflexivity |].
  now rewrite H.
Qed.

Lemma doCommand_returns cmd st r st' :
  doCommand cmd st = (Ok r, st') ->
  st' = exchanged cmd st /\ r = reply_of (next_event st).
Proof.
  rewrite doCommand_step. intros H.
  destruct (next_event st) as [| data | | |]; cbn in *; try discriminate.
  - injection H as <- <-. split; reflexivity.
  - destruct (utf8_valid (list_ascii_of_string data));
      [injection H as <- <-; split; reflexivity | discriminate].
  - injection H as <- <-. split; reflexivity.
Qed.

(** C9. When [homeAz] (resp. [homeEl]) returns with the status not
    offline, [degaz] (resp. [degel]) is 0 and the event (axis, 0) has
    been delivered to the position sink, whatever the reply: it does
    return on a timeout and on every decodable reply, "nak" included. *)
Theorem home_zeroes_position_whatever_the_reply (st : State) :
  status st <> OFFLINE ->
  (forall r st', homeAz st = (Ok r, st') ->
     degaz st' = 0
     /\ trace st' = trace st ++ [UdpSend "homeaz"; PosCallback "az" 0 0 (degel st)]
     /\ positions (trace st') = positions (trace st) ++ [("az", 0)])
  /\ (forall r st', homeEl st = (Ok r, st') ->
     degel st' = 0
     /\ trace st' = trace st ++ [UdpSend "homeel"; PosCallback "el" 0 (degaz st) 0]
     /\ positions (trace st') = positions (trace st) ++ [("el", 0)])
  /\ (readable (next_event st) = true ->
      (exists st', homeAz st = (Ok (reply_of (next_event st)), st'))
      /\ (exists st', homeEl st = (Ok (reply_of (next_event st)), st'))).
Proof.
  intros Hon.
  assert (Hoff : (status st =? OFFLINE) = false) by (apply Z.eqb_neq; exact Hon).
  assert (Hpos : forall t a v x y,
             positions (t ++ [UdpSend a; PosCallback v 0 x y])
             = positions t ++ [(v, 0)]).
  { intros t a v x y. induction t as [| e t IH]; [reflexivity |].
    destruct e; cbn; rewrite ?IH; reflexivity. }
  split; [| split].
  - intros r st' H. unfold homeAz in H.
    unfold bind at 1, get, offline in H. rewrite Hoff in H.
    unfold bind at 1, settimeout, modify in H.
    unfold bind at 1 in H. rewrite doCommand_step in H.
    destruct st as [s ca ce da de t c n tr].
    destruct n as [| [| data | | |] rest]; cbn in H; rot_run_in H;
      try discriminate;
      try (destruct (utf8_valid (list_ascii_of_string data)); cbn in H;
           [| discriminate]);
      injection H as <- <-; cbn; rewrite <- app_assoc; cbn [app];
      (split; [reflexivity | split; [reflexivity | apply Hpos]]).
  - intros r st' H. unfold homeEl in H.
    unfold bind at 1, get, offline in H. rewrite Hoff in H.
    unfold bind at 1, settimeout, modify in H.
    unfold bind at 1 in H. rewrite doCommand_step in H.
    destruct st as [s ca ce da de t c n tr].
    destruct n as [| [| data | | |] rest]; cbn in H; rot_run_in H;
      try discriminate;
      try (destruct (utf8_valid (list_ascii_of_string data)); cbn in H;
           [| discriminate]);
      injection H as <- <-; cbn; rewrite <- app_assoc; cbn [app];
      (split; [reflexivity | split; [reflexivity | apply Hpos]]).
  - intros Hread. split.
    + unfold homeAz. unfold bind at 1, get, offline. rewrite Hoff.
      unfold bind at 1, settimeout, modify.
      unfold bind at 1. rewrite doCommand_readable by exact Hread.
      rot_run. eexists; reflexivity.
    + unfold homeEl. unfold bind at 1, get, offline. rewrite Hoff.
      unfold bind at 1, settimeout, modify.
      unfold bind at 1. rewrite doCommand_readable by exact Hread.
      rot_run. eexists; reflexivity.
Qed.

(** ** Position reports *)

(** C5. [getPos] with hints [az], [el] and sink [q] appends one string
    to [q]: the two float-rendered lines of [degaz] and [degel] when the
    status is online, those of the hints otherwise. It returns [True]
    and changes nothing else. *)
Theorem getPos_replies_position_or_hint
    (st : State) (az el : Val) (q : nat) (daz del haz hel : spec_float) :
  float (VInt (degaz st)) = Ok daz ->
  float (VInt (degel st)) = Ok del ->
  float az = Ok haz ->
  float el = Ok hel ->
  getPos [az; el; VQueue q] st =
    (Ok true,
     with_effect st
       (QueueAppend q (if status st =? ONLINE then two_lines daz del
                       else two_lines haz hel))).
Proof.
  intros Hdaz Hdel Haz Hel.
  unfold getPos, with_effect, two_lines.
  destruct st as [s ca ce da de t c n tr]. cbn in Hdaz, Hdel.
  rot_run. destruct (s =? ONLINE).
  - rewrite Hdaz; rot_run. rewrite Hdel; rot_run. reflexivity.
  - rewrite Haz; rot_run. rewrite Hel; rot_run. reflexivity.
Qed.

(** Whole degrees are rendered with six zero decimals. *)
Lemma whole_degrees_rendering :
  forallb
    (fun n : Z =>
       match float (VInt n) with
       | Ok x => String.eqb (fmt_f x) (str_of_int n +:+ ".000000")
       | _ => false
       end)
    (List.map Z.of_nat (List.seq 0 361)) = true.
Proof. vm_compute. reflexivity. Qed.

(** ** Position events *)

(** C2. A malformed event payload is not logged and discarded: with a
    value that is not an integer the handler of [ValueError] itself
    raises [TypeError], without a separator [IndexError] is raised, and
    either exception leaves the callback and the receiving loop, which
    then handles no further event. The position attributes and the sink
    are left as they were. *)
Theorem malformed_event_escapes_the_receiver (st : State) :
  evnt_turn (EvntDatagram "az:abc") st = (Raise TypeError, st)
  /\ evnt_turn (EvntDatagram "garbage") st = (Raise IndexError, st)
  /\ fst (evnt_run [EvntDatagram "az:abc"; EvntDatagram "az:45"] st)
     = Raise TypeError
  /\ degaz (snd (evnt_run [EvntDatagram "az:abc"; EvntDatagram "az:45"] st))
     = degaz st.
Proof.
  destruct st as [s ca ce da de t c n tr].
  repeat split.
Qed.

(** C8. For a well-formed position event the sink is called first, with
    [degaz] and [degel] still holding the previous position, and the
    attribute of the axis is updated afterwards. *)
Theorem event_reaches_sink_before_update (st : State) :
  event_callback "az:45" st =
    (Ok tt,
     mkState (status st) (calaz st) (calel st) 45 (degel st)
             (timeout st) (calibration st) (net st)
             (trace st ++ [PosCallback "az" 45 (degaz st) (degel st)]))
  /\ event_callback "el:45" st =
    (Ok tt,
     mkState (status st) (calaz st) (calel st) (degaz st) 45
             (timeout st) (calibration st) (net st)
             (trace st ++ [PosCallback "el" 45 (degaz st) (degel st)])).
Proof.
  destruct st as [s ca ce da de t c n tr].
  split; reflexivity.
Qed.

(** The same for every well-formed event: the sink is called with the
    attributes still holding the previous position. *)
Lemma event_callback_well_formed
    (st : State) (position axis field : string) (rest : list string) (n : Z) :
  split_max ":"%char position 2 = axis :: field :: rest ->
  int_of_str field = Ok n ->
  event_callback position st =
    (Ok tt,
     mkState (status st) (calaz st) (calel st)
             (if String.eqb axis "az" then n else degaz st)
             (if String.eqb axis "az" then degel st
              else if String.eqb axis "el" then n else degel st)
             (timeout st) (calibration st) (net st)
             (trace st ++ [PosCallback axis n (degaz st) (degel st)])).
Proof.
  intros Hsplit Hint. unfold event_callback. rewrite Hsplit.
  destruct st as [s ca ce da de t c nt tr].
  rot_run. rewrite Hint. rot_run.
  destruct (String.eqb axis "az"); rot_run; [reflexivity |].
  destruct (String.eqb axis "el"); rot_run; reflexivity.
Qed.

(** A payload without a separator, or with a value that is not an
    integer, raises out of the callback and changes nothing. *)
Lemma event_callback_no_separator (st : State) (position : string) :
  split_max ":"%char position 2 = [position] ->
  event_callback position st = (Raise IndexError, st).
Proof.
  intros Hsplit. unfold event_callback. rewrite Hsplit.
  destruct st; reflexivity.
Qed.

Lemma event_callback_not_integer
    (st : State) (position axis field : string) (rest : list string) :
  split_max ":"%char position 2 = axis :: field :: rest ->
  int_of_str field = Raise ValueError ->
  event_callback position st = (Raise TypeError, st).
Proof.
  intros Hsplit Hint. unfold event_callback. rewrite Hsplit.
  destruct st. rot_run. rewrite Hint. reflexivity.
Qed.

(** ** Cold start *)

Lemma wire_app (t u : list Effect) : wire (t ++ u) = wire t ++ wire u.
Proof.
  induction t as [| e t IH]; [reflexivity |].
  destruct e; cbn; rewrite IH; reflexivity.
Qed.

(** What one short-timeout command does to the wire. *)
Lemma hw_command_wire (cmd : string) (st : State) r st' :
  hw_command cmd st = (r, st') ->
  wire (trace st') = wire (trace st) ++ (if offline st then [] else [cmd])
  /\ status st' = status st
  /\ calibration st' = calibration st.
Proof.
  unfold hw_command. unfold bind at 1, get.
  destruct (offline st) eqn:Hoff.
  - intros H. injection H as <- <-. rewrite app_nil_r. repeat split.
  - unfold bind at 1, settimeout, modify. rewrite doCommand_step.
    intros H. injection H as _ <-. unfold exchanged. cbn.
    rewrite wire_app. repeat split.
Qed.

Lemma cal_failed_wire (why : option string) (st : State) :
  exists st',
    cal_failed why st = (Ok false, st')
    /\ wire (trace st') = wire (trace st)
    /\ status st' = CAL_FAILED
    /\ List.last (trace st') (UdpSend "") = StateCallback CAL_FAILED.
Proof.
  unfold cal_failed. destruct why; rot_run; eexists; (split; [reflexivity |]); cbn;
    rewrite ?wire_app, ?last_last; cbn; rewrite ?app_nil_r; repeat split.
Qed.

Lemma preset_is_not_calibrate (x : string) :
  x +:+ "a" <> "calaz" /\ x +:+ "a" <> "calel"
  /\ x +:+ "b" <> "calaz" /\ x +:+ "b" <> "calel".
Proof.
  repeat split; intros H;
    repeat (destruct x as [| ? x]; cbn in H; try discriminate;
            injection H as ? H); discriminate.
Qed.

Ltac hw_step :=
  match goal with
  | Hoff : (status ?s =? OFFLINE) = false |- context [hw_command ?c ?s] =>
      let s' := fresh "s" in
      let E := fresh "E" in
      let W := fresh "W" in
      let S := fresh "S" in
      let C := fresh "C" in
      let Hoff' := fresh "Hoff" in
      destruct (hw_command c s) as [[[? ?] | ? |] s'] eqn:E;
      apply hw_command_wire in E as (W & S & C);
      unfold offline in W; rewrite Hoff in W;
      assert (Hoff' : (status s' =? OFFLINE) = false)
        by (rewrite S; exact Hoff)
  end.

Ltac give_up_step :=
  match goal with
  | |- context [cal_failed ?why ?s] =>
      let s' := fresh "s" in
      let E := fresh "E" in
      let W := fresh "W" in
      destruct (cal_failed_wire why s) as (s' & E & W & _);
      rewrite E
  end.

Ltac sent_so_far :=
  rot_run; rewrite ?wire_app; cbn [wire]; rewrite ?app_nil_r;
  repeat match goal with
         | W : wire (trace ?s) = _ |- context [wire (trace ?s)] => rewrite W
         end;
  rewrite <- ?app_assoc; cbn [app String.append];
  eexists; split; [reflexivity | eexists; reflexivity].

(** With a saved calibration, only speed and preset commands are ever
    handed to the socket. *)
Lemma coldStart_saved_wire (st : State) (a e : Val) :
  calibration st !! "AZ" = Some a ->
  calibration st !! "EL" = Some e ->
  exists sent : list string,
    wire (trace (snd (coldStart st))) = wire (trace st) ++ sent
    /\ sent `prefix_of` ["30n"; "20m"; str a +:+ "a"; str e +:+ "b"].
Proof.
  intros Haz Hel. unfold coldStart.
  unfold bind at 1, get.
  destruct (offline st) eqn:Hoff.
  { exists []. cbn. rewrite app_nil_r. split; [reflexivity | apply prefix_nil]. }
  unfold offline in Hoff.
  unfold setAzSpeed, setElSpeed, setCalAz, setCalEl.
  change (str_of_int AZ_MOTOR_SPEED) with "30".
  change (str_of_int EL_MOTOR_SPEED) with "20".
  unfold bind at 1. hw_step; [| sent_so_far | sent_so_far].
  destruct (failed _); [give_up_step; sent_so_far |].
  unfold bind at 1. hw_step; [| sent_so_far | sent_so_far].
  destruct (failed _); [give_up_step; sent_so_far |].
  unfold bind at 1. cbn beta iota. rewrite C0, C, Haz, Hel.
  rewrite !bool_decide_eq_false_2 by discriminate. cbn [orb].
  unfold saved. py_unfold. cbn beta iota. rewrite C0, C, Haz.
  hw_step; [| sent_so_far | sent_so_far].
  destruct (failed _); [give_up_step; sent_so_far |].
  rewrite C1, C0, C, Hel.
  hw_step; [| sent_so_far | sent_so_far].
  destruct (failed _); [give_up_step; sent_so_far |].
  sent_so_far.
Qed.

Ltac cold_done :=
  (eexists; split; [reflexivity |]); cbn;
  rewrite ?wire_app, ?last_last; cbn; rewrite <- ?app_assoc, ?app_nil_r;
  repeat split.

Lemma coldStart_az_speed_refused (st : State) :
  status st <> OFFLINE ->
  refused (nth_event 0 st) = true ->
  exists st',
    coldStart st = (Ok false, st')
    /\ status st' = CAL_FAILED
    /\ wire (trace st') = wire (trace st) ++ ["30n"]
    /\ List.last (trace st') (UdpSend "") = StateCallback CAL_FAILED.
Proof.
  intros Hon H0. apply Z.eqb_neq in Hon.
  destruct st as [s ca ce da de t c n tr]. cbn in Hon.
  unfold nth_event in H0. cbn [net] in H0.
  unfold coldStart, setAzSpeed, hw_command, doCommand.
  change (str_of_int AZ_MOTOR_SPEED) with "30".
  net_step n H0; rot_go; cold_done.
Qed.

Lemma coldStart_el_speed_refused (st : State) :
  status st <> OFFLINE ->
  acked (nth_event 0 st) = true ->
  refused (nth_event 1 st) = true ->
  exists st',
    coldStart st = (Ok false, st')
    /\ status st' = CAL_FAILED
    /\ wire (trace st') = wire (trace st) ++ ["30n"; "20m"]
    /\ List.last (trace st') (UdpSend "") = StateCallback CAL_FAILED.
Proof.
  intros Hon H0 H1. apply Z.eqb_neq in Hon.
  destruct st as [s ca ce da de t c n tr]. cbn in Hon.
  unfold nth_event in H0, H1. cbn [net] in H0, H1.
  unfold coldStart, setAzSpeed, setElSpeed, hw_command, doCommand.
  change (str_of_int AZ_MOTOR_SPEED) with "30".
  change (str_of_int EL_MOTOR_SPEED) with "20".
  net_step n H0; net_step n H1; rot_go; cold_done.
Qed.

Lemma coldStart_saved_all_acked (st : State) (a e : Val) :
  status st <> OFFLINE ->
  calibration st !! "AZ" = Some a ->
  calibration st !! "EL" = Some e ->
  acked (nth_event 0 st) = true ->
  acked (nth_event 1 st) = true ->
  acked (nth_event 2 st) = true ->
  acked (nth_event 3 st) = true ->
  exists st',
    coldStart st = (Ok true, st')
    /\ status st' = ONLINE
    /\ wire (trace st') = wire (trace st)
         ++ ["30n"; "20m"; str a +:+ "a"; str e +:+ "b"]
    /\ List.last (trace st') (UdpSend "") = StateCallback ONLINE.
Proof.
  intros Hon Haz Hel H0 H1 H2 H3. apply Z.eqb_neq in Hon.
  destruct st as [s ca ce da de t c n tr]. cbn in Hon, Haz, Hel.
  unfold nth_event in H0, H1, H2, H3. cbn [net] in H0, H1, H2, H3.
  unfold coldStart, setAzSpeed, setElSpeed, setCalAz, setCalEl, saved,
    hw_command, doCommand.
  change (str_of_int AZ_MOTOR_SPEED) with "30".
  change (str_of_int EL_MOTOR_SPEED) with "20".
  net_step n H0; net_step n H1; net_step n H2; net_step n H3.
  rot_go. rewrite Haz, Hel.
  rewrite !bool_decide_eq_false_2 by discriminate.
  repeat (progress (rot_go; rewrite ?Haz, ?Hel)). cold_done.
Qed.

Lemma coldStart_unsaved_all_acked (st : State) :
  status st <> OFFLINE ->
  calibration st !! "AZ" = None \/ calibration st !! "EL" = None ->
  acked (nth_event 0 st) = true ->
  acked (nth_event 1 st) = true ->
  acked (nth_event 2 st) = true ->
  acked (nth_event 3 st) = true ->
  exists st',
    coldStart st = (Ok true, st')
    /\ status st' = ONLINE
    /\ wire (trace st') = wire (trace st) ++ ["30n"; "20m"; "calaz"; "calel"]
    /\ List.last (trace st') (UdpSend "") = StateCallback ONLINE.
Proof.
  intros Hon Hcal H0 H1 H2 H3. apply Z.eqb_neq in Hon.
  destruct st as [s ca ce da de t c n tr]. cbn in Hon, Hcal.
  unfold nth_event in H0, H1, H2, H3. cbn [net] in H0, H1, H2, H3.
  unfold coldStart, setAzSpeed, setElSpeed, calibrateAz, calibrateEl,
    hw_command, doCommand.
  change (str_of_int AZ_MOTOR_SPEED) with "30".
  change (str_of_int EL_MOTOR_SPEED) with "20".
  assert (Hc : bool_decide (c !! "AZ" = None) || bool_decide (c !! "EL" = None) = true).
  { destruct Hcal as [Hc | Hc]; rewrite (bool_decide_eq_true_2 _ Hc);
      [reflexivity | apply orb_true_r]. }
  net_step n H0; net_step n H1; net_step n H2; net_step n H3.
  rot_go. rewrite Hc. rot_go. cold_done.
Qed.

Lemma prefix_In {A} (x : A) (sent full : list A) :
  sent `prefix_of` full -> In x sent -> In x full.
Proof. intros [k ->] H. apply in_or_app. left. exact H. Qed.

(** C6. [coldStart]: offline, it returns without action; a timeout or a
    "nak" on the AZ or on the EL speed command gives the status
    cal-failed and the result [False]; with both calibration values
    saved, only the speed and preset commands are sent, never "calaz" or
    "calel", and when every step is acknowledged the presets are sent
    and the status becomes online; without saved values the status
    becomes online when both calibrations succeed. *)
Theorem coldStart_start_up_sequence (st : State) :
  (status st = OFFLINE -> coldStart st = (Ok true, st))
  /\ (status st <> OFFLINE ->
      refused (nth_event 0 st) = true
      \/ (acked (nth_event 0 st) = true /\ refused (nth_event 1 st) = true) ->
      exists st',
        coldStart st = (Ok false, st')
        /\ status st' = CAL_FAILED
        /\ List.last (trace st') (UdpSend "") = StateCallback CAL_FAILED)
  /\ (forall a e : Val,
        calibration st !! "AZ" = Some a ->
        calibration st !! "EL" = Some e ->
        (exists sent : list string,
           wire (trace (snd (coldStart st))) = wire (trace st) ++ sent
           /\ sent `prefix_of` ["30n"; "20m"; str a +:+ "a"; str e +:+ "b"]
           /\ ~ In "calaz" sent /\ ~ In "calel" sent)
        /\ (status st <> OFFLINE ->
            acked (nth_event 0 st) = true -> acked (nth_event 1 st) = true ->
            acked (nth_event 2 st) = true -> acked (nth_event 3 st) = true ->
            exists st',
              coldStart st = (Ok true, st')
              /\ status st' = ONLINE
              /\ wire (trace st') = wire (trace st)
                   ++ ["30n"; "20m"; str a +:+ "a"; str e +:+ "b"]
              /\ List.last (trace st') (UdpSend "") = StateCallback ONLINE))
  /\ (status st <> OFFLINE ->
      calibration st !! "AZ" = None \/ calibration st !! "EL" = None ->
      acked (nth_event 0 st) = true -> acked (nth_event 1 st) = true ->
      acked (nth_event 2 st) = true -> acked (nth_event 3 st) = true ->
      exists st',
        coldStart st = (Ok true, st')
        /\ status st' = ONLINE
        /\ List.last (trace st') (UdpSend "") = StateCallback ONLINE).
Proof.
  split; [| split; [| split]].
  - intros Hoff. unfold coldStart, bind, get, offline.
    rewrite Hoff. reflexivity.
  - intros Hon [H0 | [H0 H1]].
    + destruct (coldStart_az_speed_refused st Hon H0) as (st' & E & S & _ & L).
      exists st'. repeat split; assumption.
    + destruct (coldStart_el_speed_refused st Hon H0 H1) as (st' & E & S & _ & L).
      exists st'. repeat split; assumption.
  - intros a e Haz Hel. split.
    + destruct (coldStart_saved_wire st a e Haz Hel) as (sent & W & P).
      exists sent. split; [exact W | split; [exact P |]].
      pose proof (preset_is_not_calibrate (str a)) as (A1 & A2 & _ & _).
      pose proof (preset_is_not_calibrate (str e)) as (_ & _ & B1 & B2).
      split; intros Hin; apply (prefix_In _ _ _ P) in Hin; cbn in Hin;
        destruct Hin as [Hin | [Hin | [Hin | [Hin | []]]]];
        try discriminate; congruence.
    + intros Hon H0 H1 H2 H3.
      exact (coldStart_saved_all_acked st a e Hon Haz Hel H0 H1 H2 H3).
  - intros Hon Hcal H0 H1 H2 H3.
    destruct (coldStart_unsaved_all_acked st Hon Hcal H0 H1 H2 H3)
      as (st' & E & S & _ & L).
    exists st'. repeat split; assumption.
Qed.

End RotProperties.

(* ===================================================================== *)
(** * Properties of the rotator protocol server *)
(* ===================================================================== *)

Ltac sat_run :=
  repeat (progress (cbn;
    unfold SatIf.emit, SatIf.set_azimuth, SatIf.set_elevation, SatIf.set_restart;
    py_unfold)).

Section SatProperties.
Import Defs.

Lemma lookup_setPosAz : RotIf.lookup !! "setPosAz" = Some RotIf.m_setPosAz.
Proof. vm_compute. reflexivity. Qed.

Lemma lookup_setPosEl : RotIf.lookup !! "setPosEl" = Some RotIf.m_setPosEl.
Proof. vm_compute. reflexivity. Qed.

(** C4, as amended. A line [P <az> <el>] whose two arguments parse as
    finite floats: each is truncated to an integer, [setPosAz] then
    [setPosEl] are queued with the integers, and "RPRT 0" is the reply.
    Executing the two queued commands with the status not offline and
    both positions known puts "<az>z" then "<el>e" on the wire; with the
    status offline nothing is put on the wire. *)
Theorem set_position_enqueues_az_then_el
    (sat : SatIf.State) (rot : RotIf.State) (msg a e : string) (az el : Z) :
  split_ws msg = ["P"; a; e] ->
  SatIf.int_float a = Ok az ->
  SatIf.int_float e = Ok el ->
  (exists sat' : SatIf.State,
     SatIf.listenCallback msg sat = (Ok tt, sat')
     /\ SatIf.trace sat' = SatIf.trace sat ++ set_position_effects az el
     /\ SatIf.azimuth sat' = az
     /\ SatIf.elevation sat' = el
     /\ SatIf.restart sat' = SatIf.restart sat)
  /\ (RotIf.status rot <> OFFLINE ->
      RotIf.degaz rot <> -1 ->
      RotIf.degel rot <> -1 ->
      readable (nth_event 0 rot) = true ->
      readable (nth_event 1 rot) = true ->
      exists rot' : RotIf.State,
        RotIf.process (SatIf.queued (set_position_effects az el)) rot = (Ok tt, rot')
        /\ RotIf.wire (RotIf.trace rot')
           = RotIf.wire (RotIf.trace rot)
               ++ [str_of_int az +:+ "z"; str_of_int el +:+ "e"])
  /\ (RotIf.status rot = OFFLINE ->
      exists rot' : RotIf.State,
        RotIf.process (SatIf.queued (set_position_effects az el)) rot = (Ok tt, rot')
        /\ RotIf.wire (RotIf.trace rot') = RotIf.wire (RotIf.trace rot)).
Proof.
  intros Htok Haz Hel. split; [| split].
  - assert (Hlen : (String.length msg =? 0)%nat = false)
      by (destruct msg; [discriminate | reflexivity]).
    unfold SatIf.listenCallback, SatIf.listenCallback_try.
    rewrite Hlen, Htok.
    destruct sat as [a0 e0 rs tr].
    sat_run. rewrite Haz. sat_run. rewrite Hel. sat_run.
    eexists. split; [reflexivity |]. cbn.
    rewrite <- !app_assoc. repeat split.
  - intros Hon Hdaz Hdel R0 R1.
    apply Z.eqb_neq in Hon, Hdaz, Hdel.
    destruct rot as [s ca ce da de t c n tr]. cbn in Hon, Hdaz, Hdel.
    unfold nth_event in R0, R1. cbn [RotIf.net] in R0, R1.
    unfold set_position_effects. cbn [SatIf.queued RotIf.process].
    unfold RotIf.execute. rewrite lookup_setPosAz, lookup_setPosEl.
    unfold RotIf.call_with, RotIf.truthy_pair, RotIf.setPosAz, RotIf.setPosEl,
      RotIf.doCommand.
    rot_run. rewrite Hdaz. rot_run. rewrite Hon. rot_run.
    net_step n R0; try (net_step n R1);
      repeat (progress (rot_go; rewrite ?Hdel, ?Hon));
      (eexists; split; [reflexivity |]); cbn;
      rewrite ?wire_app; cbn; rewrite <- ?app_assoc; reflexivity.
  - intros Hoff. apply Z.eqb_eq in Hoff.
    destruct rot as [s ca ce da de t c n tr]. cbn in Hoff.
    unfold set_position_effects. cbn [SatIf.queued RotIf.process].
    unfold RotIf.execute. rewrite lookup_setPosAz, lookup_setPosEl.
    unfold RotIf.call_with, RotIf.truthy_pair, RotIf.setPosAz, RotIf.setPosEl,
      RotIf.homeAz, RotIf.homeEl.
    repeat (progress (rot_run; rewrite ?Hoff)).
    destruct (da =? -1); repeat (progress (rot_run; rewrite ?Hoff));
      destruct (de =? -1); repeat (progress (rot_run; rewrite ?Hoff));
      (eexists; split; reflexivity).
Qed.

(** From an unknown position each axis is homed first. *)
Lemma set_position_from_unknown_position (rot : RotIf.State) (az el : Z) :
  RotIf.status rot <> OFFLINE ->
  RotIf.degaz rot = -1 ->
  RotIf.degel rot = -1 ->
  acked (nth_event 0 rot) = true -> acked (nth_event 1 rot) = true ->
  acked (nth_event 2 rot) = true -> acked (nth_event 3 rot) = true ->
  exists rot' : RotIf.State,
    RotIf.process (SatIf.queued (set_position_effects az el)) rot = (Ok tt, rot')
    /\ RotIf.wire (RotIf.trace rot')
       = RotIf.wire (RotIf.trace rot)
           ++ ["homeaz"; str_of_int az +:+ "z"; "homeel"; str_of_int el +:+ "e"]
    /\ RotIf.degaz rot' = 0 /\ RotIf.degel rot' = 0.
Proof.
  intros Hon Hdaz Hdel H0 H1 H2 H3. apply Z.eqb_neq in Hon.
  destruct rot as [s ca ce da de t c n tr]. cbn in Hon, Hdaz, Hdel. subst da de.
  unfold nth_event in H0, H1, H2, H3. cbn [RotIf.net] in H0, H1, H2, H3.
  unfold set_position_effects. cbn [SatIf.queued RotIf.process].
  unfold RotIf.execute. rewrite lookup_setPosAz, lookup_setPosEl.
  unfold RotIf.call_with, RotIf.truthy_pair, RotIf.setPosAz, RotIf.setPosEl,
    RotIf.homeAz, RotIf.homeEl, RotIf.doCommand.
  net_step n H0; net_step n H1; net_step n H2; net_step n H3.
  repeat (progress (rot_go; rewrite ?Hon)).
  eexists. split; [reflexivity |]. cbn.
  rewrite ?wire_app; cbn; rewrite <- ?app_assoc. repeat split.
Qed.

End SatProperties.

(* ===================================================================== *)
(** * The statements on concrete inputs *)
(* ===================================================================== *)

Lemma set_freq_keys_on_large_jump_witness :
  exists (st' : RigIf.State) (keying : list RigIf.Effect),
    RigIf.listenCallback echo echo 0 ("F 145900001" +:+ NL) tuned = (Ok tt, st')
    /\ RigIf.trace st' = RigIf.trace tuned ++
         [RigIf.CatDo Defs.CAT_FREQ_SET (Some (VStr "145900001"));
          RigIf.SendqAppend ("RPRT 0" +:+ NL);
          RigIf.FreqCallback true "145900001"] ++ keying
    /\ RigIf.lastFreq st' = Some "145900001"
    /\ RigIf.ptt st' = true
    /\ RigIf.restart st' = RigIf.restart tuned
    /\ ((Z.abs (145900001 - 145800000) > 100000
         /\ keying = [RigIf.CatDo Defs.CAT_PTT_SET (Some (VBool true))]
         /\ RigIf.rigPtt st' = true)
        \/ (Z.abs (145900001 - 145800000) <= 100000
            /\ keying = []
            /\ RigIf.rigPtt st' = RigIf.rigPtt tuned)).
Proof.
  apply (set_freq_keys_on_large_jump echo echo 0 tuned
           ("F 145900001" +:+ NL) "145900001" "145800000");
    reflexivity.
Defined.

Lemma first_set_freq_under_ptt_witness :
  RigIf.listenCallback echo echo 0 ("F 435850000" +:+ NL) fresh_with_ptt
  = (Ok tt,
     RigIf.mkState true false None true [] []
       [RigIf.CatDo Defs.CAT_FREQ_SET (Some (VStr "435850000"));
        RigIf.SendqAppend ("RPRT 0" +:+ NL);
        RigIf.FreqCallback true "435850000";
        RigIf.MsgqAppend (Problem "rig interface" AttributeError)]).
Proof.
  apply (first_set_freq_under_ptt_fails_in_handler echo echo 0 fresh_with_ptt
           ("F 435850000" +:+ NL) "435850000" 435850000);
    reflexivity.
Defined.

Lemma home_zeroes_position_witness :
  RotIf.status (polled saved_calibration [RotIf.Timeout]) <> Defs.OFFLINE
  /\ exists st' : RotIf.State,
       RotIf.homeAz (polled saved_calibration [RotIf.Timeout])
         = (Ok (false, "nak"), st')
       /\ RotIf.degaz st' = 0
       /\ RotIf.positions (RotIf.trace st') = [("az", 0)].
Proof.
  assert (Hon : RotIf.status (polled saved_calibration [RotIf.Timeout]) <> Defs.OFFLINE)
    by discriminate.
  split; [exact Hon |].
  destruct (home_zeroes_position_whatever_the_reply _ Hon) as (Haz & _ & Hret).
  destruct (Hret eq_refl) as ((st' & E) & _).
  exists st'. split; [exact E |].
  destruct (Haz _ _ E) as (D & _ & P).
  split; [exact D | exact P].
Defined.

Lemma getPos_replies_position_or_hint_witness :
  exists daz del haz hel : spec_float,
    float (VInt 10) = Ok daz /\ float (VInt 20) = Ok del
    /\ float (VInt 123) = Ok haz /\ float (VInt 45) = Ok hel
    /\ RotIf.getPos [VInt 123; VInt 45; VQueue 0] (tracking [])
       = (Ok true,
          with_effect (tracking [])
            (RotIf.QueueAppend 0 (two_lines daz del)))
    /\ RotIf.getPos [VInt 123; VInt 45; VQueue 0] (polled ∅ [])
       = (Ok true,
          with_effect (polled ∅ [])
            (RotIf.QueueAppend 0 (two_lines haz hel)))
    /\ two_lines daz del = "10.000000" +:+ NL +:+ "20.000000" +:+ NL
    /\ two_lines haz hel = "123.000000" +:+ NL +:+ "45.000000" +:+ NL.
Proof.
  do 4 eexists.
  split; [reflexivity |]. split; [reflexivity |].
  split; [reflexivity |]. split; [reflexivity |].
  split; [| split; [| split; reflexivity]].
  - eapply (getPos_replies_position_or_hint (tracking []) (VInt 123) (VInt 45) 0);
      reflexivity.
  - eapply (getPos_replies_position_or_hint (polled ∅ []) (VInt 123) (VInt 45) 0);
      reflexivity.
Defined.

Lemma coldStart_start_up_sequence_witness :
  (* offline: nothing happens *)
  RotIf.coldStart (RotIf.init saved_calibration [ack])
    = (Ok true, RotIf.init saved_calibration [ack])
  (* the controller stays silent on the AZ speed command *)
  /\ (exists st',
        RotIf.coldStart (polled saved_calibration [RotIf.Timeout]) = (Ok false, st')
        /\ RotIf.status st' = Defs.CAL_FAILED
        /\ List.last (RotIf.trace st') (RotIf.UdpSend "")
           = RotIf.StateCallback Defs.CAL_FAILED)
  (* the controller rejects the EL speed command *)
  /\ (exists st',
        RotIf.coldStart (polled saved_calibration [ack; RotIf.Datagram "nak"])
          = (Ok false, st')
        /\ RotIf.status st' = Defs.CAL_FAILED
        /\ List.last (RotIf.trace st') (RotIf.UdpSend "")
           = RotIf.StateCallback Defs.CAL_FAILED)
  (* saved calibration, every step acknowledged *)
  /\ (exists st',
        RotIf.coldStart (polled saved_calibration [ack; ack; ack; ack]) = (Ok true, st')
        /\ RotIf.status st' = Defs.ONLINE
        /\ RotIf.wire (RotIf.trace st') = ["30n"; "20m"; "12345a"; "6789b"]
        /\ List.last (RotIf.trace st') (RotIf.UdpSend "")
           = RotIf.StateCallback Defs.ONLINE)
  (* no saved calibration, every step succeeds *)
  /\ (exists st',
        RotIf.coldStart
          (polled ∅ [ack; ack; RotIf.Datagram "12000"; RotIf.Datagram "6500"])
          = (Ok true, st')
        /\ RotIf.status st' = Defs.ONLINE
        /\ List.last (RotIf.trace st') (RotIf.UdpSend "")
           = RotIf.StateCallback Defs.ONLINE).
Proof.
  split; [| split; [| split; [| split]]].
  - destruct (coldStart_start_up_sequence (RotIf.init saved_calibration [ack]))
      as (Hoff & _).
    apply Hoff. reflexivity.
  - destruct (coldStart_start_up_sequence (polled saved_calibration [RotIf.Timeout]))
      as (_ & Hfail & _).
    apply Hfail; [discriminate | left; reflexivity].
  - destruct (coldStart_start_up_sequence
                (polled saved_calibration [ack; RotIf.Datagram "nak"]))
      as (_ & Hfail & _).
    apply Hfail; [discriminate | right; split; reflexivity].
  - destruct (coldStart_start_up_sequence (polled saved_calibration [ack; ack; ack; ack]))
      as (_ & _ & Hsaved & _).
    destruct (Hsaved (VInt 12345) (VInt 6789) eq_refl eq_refl) as (_ & Honline).
    apply Honline; [discriminate | reflexivity ..].
  - destruct (coldStart_start_up_sequence
                (polled ∅ [ack; ack; RotIf.Datagram "12000"; RotIf.Datagram "6500"]))
      as (_ & _ & _ & Hcal).
    apply Hcal; [discriminate | left; reflexivity | reflexivity ..].
Defined.

Lemma set_position_enqueues_az_then_el_witness :
  (exists sat' : SatIf.State,
     SatIf.listenCallback ("P 123.4 45.6" +:+ NL) SatIf.init = (Ok tt, sat')
     /\ SatIf.trace sat' = SatIf.trace SatIf.init ++ set_position_effects 123 45
     /\ SatIf.azimuth sat' = 123
     /\ SatIf.elevation sat' = 45
     /\ SatIf.restart sat' = SatIf.restart SatIf.init)
  /\ (exists rot' : RotIf.State,
        RotIf.process (SatIf.queued (set_position_effects 123 45)) (tracking [ack; ack])
          = (Ok tt, rot')
        /\ RotIf.wire (RotIf.trace rot')
           = RotIf.wire (RotIf.trace (tracking [ack; ack]))
               ++ [str_of_int 123 +:+ "z"; str_of_int 45 +:+ "e"])
  /\ (exists rot' : RotIf.State,
        RotIf.process (SatIf.queued (set_position_effects 123 45))
          (RotIf.init saved_calibration [ack; ack])
          = (Ok tt, rot')
        /\ RotIf.wire (RotIf.trace rot')
           = RotIf.wire (RotIf.trace (RotIf.init saved_calibration [ack; ack]))).
Proof.
  destruct (set_position_enqueues_az_then_el SatIf.init (tracking [ack; ack])
              ("P 123.4 45.6" +:+ NL) "123.4" "45.6" 123 45
              eq_refl eq_refl eq_refl) as (Hsat & Hon & _).
  destruct (set_position_enqueues_az_then_el SatIf.init
              (RotIf.init saved_calibration [ack; ack])
              ("P 123.4 45.6" +:+ NL) "123.4" "45.6" 123 45
              eq_refl eq_refl eq_refl) as (_ & _ & Hoff).
  split; [exact Hsat | split].
  - apply Hon; [discriminate | discriminate | discriminate | reflexivity | reflexivity].
  - apply Hoff. reflexivity.
Defined.

(** C4, as stated, fails: arguments that parse as floats but are not
    finite are not enqueued and not acknowledged, and an offline rotator
    interface puts nothing on the wire for the enqueued commands. *)
Lemma set_position_counterexample :
  float_of_str "inf" = Ok (S754_infinity false)
  /\ float_of_str "0" = Ok (S754_zero false)
  /\ SatIf.listenCallback ("P inf 0" +:+ NL) SatIf.init
     = (Ok tt,
        SatIf.mkState 0 0 true [SatIf.MsgqAppend (Problem "sat control" OverflowError)])
  /\ SatIf.queued (SatIf.trace (snd (SatIf.listenCallback ("P 123.4 45.6" +:+ NL) SatIf.init)))
     = [("setPosAz", [VInt 123]); ("setPosEl", [VInt 45])]
  /\ RotIf.wire
       (RotIf.trace
          (snd (RotIf.process [("setPosAz", [VInt 123]); ("setPosEl", [VInt 45])]
                  (RotIf.init saved_calibration [ack; ack]))))
     = [].
Proof.
  repeat split; vm_compute; reflexivity.
Qed.

(* ===================================================================== *)
(** * Further properties of the rig protocol server *)
(* ===================================================================== *)

Section RigFurther.
Import RigIf Defs.

Variable mode_for_id : Val -> Res Val.
Variable bandwidth_for_mode : Val -> Res Val.

Abbreviation serve := (listenCallback mode_for_id bandwidth_for_mode).

Lemma params_msg_not_empty (msg : string) (p : string) (ps : list string) :
  params_of msg = p :: ps -> (String.length msg =? 0)%nat = false.
Proof. destruct msg; [discriminate | reflexivity]. Qed.

(** The [t] line answers with the operator's intent, whatever the state
    of the transmitter, and changes nothing. *)
Theorem get_ptt_reports_intent
    (fuel : nat) (st : State) (msg : string) (rest : list string) :
  params_of msg = "t" :: rest ->
  serve fuel msg st
  = (Ok tt,
     mkState (ptt st) (rigPtt st) (lastFreq st) (restart st) (catq st)
             (arrivals st)
             (trace st ++ [SendqAppend ((if ptt st then "1" else "0") +:+ NL)])).
Proof.
  intros Hpar. destruct st as [p rp lf rs cq ar tr].
  unfold listenCallback, try_except, listenCallback_try.
  rewrite (params_msg_not_empty _ _ _ Hpar), Hpar.
  rig_run. destruct p; reflexivity.
Qed.

(** An [M] line never reaches the CAT object: whatever its arguments,
    one of the two locals it reads is unbound, and the handler ends in
    its catch-all with a restart requested and no reply. *)
Theorem set_mode_line_always_fails
    (fuel : nat) (st : State) (msg : string) (rest : list string) :
  params_of msg = "M" :: rest ->
  serve fuel msg st
  = (Ok tt,
     mkState (ptt st) (rigPtt st) (lastFreq st) true (catq st) (arrivals st)
             (trace st ++ [MsgqAppend (Problem "rig interface" NameError)])).
Proof.
  intros Hpar. destruct st as [p rp lf rs cq ar tr].
  unfold listenCallback, try_except, listenCallback_try.
  rewrite (params_msg_not_empty _ _ _ Hpar), Hpar.
  destruct rest as [| a [| b [| c rest]]]; rig_run; reflexivity.
Qed.

(** A line without a token: the empty message is ignored; a message of
    spaces and newlines only ends in the catch-all with a restart
    requested. *)
Theorem blank_rig_line
    (fuel : nat) (st : State) (msg : string) :
  params_of msg = [] ->
  serve fuel msg st
  = (Ok tt,
     if is_empty msg then st
     else mkState (ptt st) (rigPtt st) (lastFreq st) true (catq st) (arrivals st)
            (trace st ++ [MsgqAppend (Problem "rig interface" IndexError)])).
Proof.
  intros Hpar. destruct st as [p rp lf rs cq ar tr].
  unfold listenCallback, try_except, listenCallback_try.
  destruct msg as [| c msg]; [reflexivity |].
  rewrite Hpar. rig_run. reflexivity.
Qed.

(** A line whose first token is no command of the protocol is logged and
    acknowledged, and changes nothing else. *)
Theorem unknown_rig_line_is_acknowledged
    (fuel : nat) (st : State) (msg code : string) (rest : list string) :
  params_of msg = code :: rest ->
  ~ In code ["F"; "f"; "t"; "M"; "m"; "q"; "x"] ->
  serve fuel msg st
  = (Ok tt,
     mkState (ptt st) (rigPtt st) (lastFreq st) (restart st) (catq st)
             (arrivals st)
             (trace st ++
                [MsgqAppend (Text ("Unknown command from rig interface! ["
                                   +:+ rstrip_nl msg +:+ "]"));
                 SendqAppend ("RPRT 0" +:+ NL)])).
Proof.
  intros Hpar Hcode. destruct st as [p rp lf rs cq ar tr].
  unfold listenCallback, try_except, listenCallback_try.
  rewrite (params_msg_not_empty _ _ _ Hpar), Hpar.
  cbn [index nth_error lift bind].
  assert (Hne : forall c, In c ["F"; "f"; "t"; "M"; "m"; "q"; "x"] ->
                          String.eqb code c = false).
  { intros c Hc. apply String.eqb_neq. intros ->. exact (Hcode Hc). }
  rewrite !Hne by (cbn; tauto).
  rig_run. rewrite <- app_assoc. reflexivity.
Qed.

(** Releasing the PTT switch unkeys the transmitter at once, and the next
    frequency line cannot key it, however far the frequency jumps. *)
Theorem ptt_release_unkeys
    (fuel : nat) (st : State) (msg hz : string) :
  params_of msg = ["F"; hz] ->
  serve fuel msg (snd (manualSetPtt false st))
  = (Ok tt,
     mkState false false (Some hz) (restart st) (catq st) (arrivals st)
       (trace st ++ [CatDo CAT_PTT_SET (Some (VBool false));
                     CatDo CAT_FREQ_SET (Some (VStr hz));
                     SendqAppend ("RPRT 0" +:+ NL);
                     FreqCallback false hz])).
Proof.
  intros Hpar. destruct st as [p rp lf rs cq ar tr].
  rewrite (set_freq_without_ptt_never_keys mode_for_id bandwidth_for_mode
             fuel (snd (manualSetPtt false (mkState p rp lf rs cq ar tr)))
             msg hz eq_refl Hpar).
  cbn. rewrite <- app_assoc. reflexivity.
Qed.

(** ** The transmitter is keyed only under the operator's intent *)

Ltac framed :=
  repeat first
    [ apply frames_ret | apply frames_raise | apply frames_lift
    | apply frames_get | apply frames_emit | apply frames_set_restart
    | apply frames_local | apply frames_get_lastFreq
    | apply frames_cat_response
    | apply frames_bind; [| intros ?]
    | match goal with
      | |- frames (if ?b then _ else _) => destruct b
      | |- frames (match ?x with _ => _ end) => destruct x
      end ].

Lemma listenCallback_try_keys_under_intent fuel msg st r st' :
  listenCallback_try mode_for_id bandwidth_for_mode fuel msg st = (r, st') ->
  ptt st' = ptt st
  /\ (rigPtt st' = rigPtt st
      \/ (rigPtt st' = true /\ ptt st = true /\ lastFreq st <> None)).
Proof.
  unfold listenCallback_try.
  destruct (String.length msg =? 0)%nat.
  { intros H. injection H as <- <-. split; [reflexivity | left; reflexivity]. }
  destruct (index (params_of msg) 0) as [code | e |] eqn:Hcode;
    cbn [lift bind];
    try (intros H; injection H as <- <-; split; [reflexivity | left; reflexivity]).
  destruct (String.eqb code "F").
  - generalize (if (List.length (params_of msg) =? 2)%nat
                then nth_error (params_of msg) 1 else None).
    intros arg1 H. destruct st as [p rp lf rs cq ar tr].
    destruct arg1 as [freq |]; rig_run_in H;
      [| injection H as <- <-; split; [reflexivity | left; reflexivity]].
    destruct p; rig_run_in H;
      [| injection H as <- <-; split; [reflexivity | left; reflexivity]].
    destruct (int_of_str freq) as [new | e |]; rig_run_in H;
      try (injection H as <- <-; split; [reflexivity | left; reflexivity]).
    destruct lf as [lastf |]; rig_run_in H;
      [| injection H as <- <-; split; [reflexivity | left; reflexivity]].
    destruct (int_of_str lastf) as [last | e |]; rig_run_in H;
      try (injection H as <- <-; split; [reflexivity | left; reflexivity]).
    destruct (Z.abs (new - last) >? 100000); rig_run_in H;
      injection H as <- <-; cbn; (split; [reflexivity |]);
      [right; repeat split; discriminate | left; reflexivity].
  - intros H.
    match type of H with
    | ?c st = _ => assert (Hf : frames c)
    end.
    { repeat match goal with
             | |- frames (if ?b then _ else _) => destruct b
             end; framed. }
    apply Hf in H. destruct H as (Hp & Hr & _).
    split; [exact Hp | left; exact Hr].
Qed.

Lemma listenCallback_keys_under_intent fuel msg st r st' :
  serve fuel msg st = (r, st') ->
  ptt st' = ptt st
  /\ (rigPtt st' = rigPtt st
      \/ (rigPtt st' = true /\ ptt st = true /\ lastFreq st <> None)).
Proof.
  unfold listenCallback, try_except. intros H.
  destruct (listenCallback_try mode_for_id bandwidth_for_mode fuel msg st)
    as [[[] | e |] s1] eqn:Htry;
    apply listenCallback_try_keys_under_intent in Htry;
    rig_run_in H; injection H as <- <-; cbn; exact Htry.
Qed.

(** Handling a line never changes the PTT switch and never unkeys the
    transmitter; it keys it only when the switch is on and a frequency
    is already on record. *)
Theorem keyed_only_under_intent (fuel : nat) (msg : string) (st : State) :
  ptt (snd (serve fuel msg st)) = ptt st
  /\ (rigPtt (snd (serve fuel msg st)) = rigPtt st
      \/ (rigPtt (snd (serve fuel msg st)) = true
          /\ ptt st = true /\ lastFreq st <> None)).
Proof.
  destruct (serve fuel msg st) as [r st'] eqn:Hh.
  apply listenCallback_keys_under_intent in Hh. exact Hh.
Qed.

(** ** The window of the CAT response rendezvous *)

Lemma wait_catq_arrival command (k : nat) :
  forall (count : nat) (st : State) (now : list CatReply) later,
    catq st = [] ->
    arrivals st = List.repeat [] k ++ now :: later ->
    now <> [] ->
    (k + 1 < count)%nat ->
    wait_catq command count st
    = (Ok (Some (count - (k + 1))%nat),
       mkState (ptt st) (rigPtt st) (lastFreq st) (restart st) now later
               (trace st)).
Proof.
  induction k as [| k IH]; intros count st now later Hq Ha Hnow Hlt;
    destruct st as [p rp lf rs cq ar tr]; cbn in Hq, Ha; subst cq ar;
    destruct count as [| count]; try lia;
    cbn [wait_catq]; rig_run;
    destruct count as [| count]; try lia; cbn [Nat.leb].
  - destruct now as [| x now]; [contradiction |].
    rig_run. reflexivity.
  - rewrite (IH (S count)
               (mkState p rp lf rs [] (List.repeat [] k ++ now :: later) tr)
               now later eq_refl eq_refl Hnow) by lia.
    reflexivity.
Qed.

Lemma wait_catq_late command (count : nat) :
  forall (k : nat) (st : State) rest,
    catq st = [] ->
    arrivals st = List.repeat [] k ++ rest ->
    (count <= k + 1)%nat ->
    fst (wait_catq command count st) = Raise TypeError.
Proof.
  induction count as [| count IH]; intros k st rest Hq Ha Hle;
    destruct st as [p rp lf rs cq ar tr]; cbn in Hq, Ha; subst cq ar.
  - cbn. rig_run. destruct (List.repeat [] k ++ rest); reflexivity.
  - cbn [wait_catq]. rig_run.
    destruct count as [| count].
    + destruct (List.repeat [] k ++ rest); reflexivity.
    + destruct k as [| k]; [lia |]. cbn.
      apply (IH k (mkState p rp lf rs [] (List.repeat [] k ++ rest) tr) rest
               eq_refl eq_refl).
      lia.
Qed.

(** A matching reply that the CAT thread delivers during one of the first
    49 waits of 100 ms is returned; one that only arrives during the
    50th wait, or later, is too late: the method ends in the failing log
    call of its timeout branch. *)
Theorem cat_response_window
    (fuel : nat) (command : string) (data : Val)
    (later : list (list CatReply)) (k : nat) (st : State) :
  catq st = [] ->
  arrivals st = List.repeat [] k ++ [(true, command, data)] :: later ->
  ((k < 49)%nat ->
   cat_response (S fuel) command st
   = (Ok data,
      mkState (ptt st) (rigPtt st) (lastFreq st) (restart st) [] later
              (trace st)))
  /\ ((49 <= k)%nat ->
      fst (cat_response (S fuel) command st) = Raise TypeError).
Proof.
  intros Hq Ha. split; intros Hk.
  - unfold cat_response. cbn [cat_response_loop]. unfold bind at 1.
    rewrite (wait_catq_arrival command k 50 st _ later Hq Ha) by (discriminate || lia).
    rig_run. rewrite String.eqb_refl. reflexivity.
  - unfold cat_response. cbn [cat_response_loop]. unfold bind at 1.
    pose proof (wait_catq_late command 50 k st _ Hq Ha) as Hlate.
    destruct (wait_catq command 50 st) as [r s1]. cbn in Hlate.
    rewrite Hlate by lia. reflexivity.
Qed.

(** ** Replies with a false result code *)

Lemma cat_response_loop_skips command data rest (failed : list CatReply) :
  forall (fuel count : nat) (st : State),
    catq st = failed ++ (true, command, data) :: rest ->
    Forall (fun reply : CatReply => fst (fst reply) = false) failed ->
    (List.length failed < fuel)%nat ->
    cat_response_loop fuel command count st
    = (Ok data,
       mkState (ptt st) (rigPtt st) (lastFreq st) (restart st) rest
               (arrivals st) (trace st)).
Proof.
  induction failed as [| [[ok cmd] d] failed IH]; intros fuel count st Hq Hall Hlt;
    destruct st as [p rp lf rs cq ar tr]; cbn in Hq; subst cq;
    destruct fuel as [| fuel]; cbn in Hlt; try lia;
    cbn [cat_response_loop];
    destruct count as [| count]; rig_run.
  - rewrite String.eqb_refl. reflexivity.
  - rewrite String.eqb_refl. reflexivity.
  - inversion Hall as [| ? ? Hok Hall']; subst. cbn in Hok. subst ok.
    erewrite IH; [reflexivity | reflexivity | exact Hall' | lia].
  - inversion Hall as [| ? ? Hok Hall']; subst. cbn in Hok. subst ok.
    erewrite IH; [reflexivity | reflexivity | exact Hall' | lia].
Qed.

(** The [f] line forwards the data of the first reply to CAT_FREQ_GET
    that carries a true result code; the replies with a false result
    code that precede it are taken off the queue without a log line, and
    data equal to [None] is not forwarded. *)
Theorem get_freq_forwards_first_good_reply
    (fuel : nat) (st : State) (msg : string) (more : list string)
    (failed rest : list CatReply) (data : Val) :
  params_of msg = "f" :: more ->
  catq st = failed ++ (true, CAT_FREQ_GET, data) :: rest ->
  Forall (fun reply : CatReply => fst (fst reply) = false) failed ->
  (List.length failed < fuel)%nat ->
  serve fuel msg st
  = (Ok tt,
     mkState (ptt st) (rigPtt st) (lastFreq st) (restart st) rest
             (arrivals st)
             (trace st ++ CatDo CAT_FREQ_GET None
                :: (if is_None data then []
                    else [SendqAppend (str data +:+ NL)]))).
Proof.
  intros Hpar Hq Hall Hlt.
  unfold listenCallback, try_except, listenCallback_try.
  rewrite (params_msg_not_empty _ _ _ Hpar), Hpar.
  destruct st as [p rp lf rs cq ar tr]. cbn in Hq. subst cq.
  cbn [index nth_error lift bind String.eqb Ascii.eqb Bool.eqb].
  unfold bind at 1. unfold emit at 1, modify.
  unfold bind at 1. unfold cat_response.
  erewrite (cat_response_loop_skips CAT_FREQ_GET data rest failed fuel 50);
    [| reflexivity | exact Hall | exact Hlt].
  destruct data; rig_run; rewrite <- ?app_assoc; reflexivity.
Qed.

End RigFurther.

(* ===================================================================== *)
(** * Further properties of the rotator protocol server *)
(* ===================================================================== *)

Section SatFurther.
Import SatIf Defs.

Lemma queued_app (t u : list Effect) : queued (t ++ u) = queued t ++ queued u.
Proof.
  induction t as [| e t IH]; [reflexivity |].
  destruct e; cbn; rewrite IH; reflexivity.
Qed.

Lemma tokens_msg_not_empty (msg : string) (t : string) (ts : list string) :
  split_ws msg = t :: ts -> (String.length msg =? 0)%nat = false.
Proof. destruct msg; [discriminate | reflexivity]. Qed.

(** Only [p] and [P] lines make the server queue a rotator command:
    every other line leaves the command queue and the commanded position
    alone. *)
Theorem rotator_commands_only_from_p_and_P
    (st : State) (msg tok0 : string) (rest : list string) :
  split_ws msg = tok0 :: rest ->
  tok0 <> "p" ->
  tok0 <> "P" ->
  queued (trace (snd (listenCallback msg st))) = queued (trace st)
  /\ azimuth (snd (listenCallback msg st)) = azimuth st
  /\ elevation (snd (listenCallback msg st)) = elevation st.
Proof.
  intros Htok Hp HP. apply String.eqb_neq in Hp, HP.
  destruct st as [a0 e0 rs tr].
  unfold listenCallback, try_except, listenCallback_try.
  rewrite (tokens_msg_not_empty _ _ _ Htok), Htok.
  cbn [index nth_error lift bind]. rewrite Hp, HP.
  destruct (String.eqb tok0 "S");
    [| destruct (String.eqb tok0 "q"); [| destruct (String.eqb tok0 "x")]];
    sat_run; rewrite ?queued_app; cbn; rewrite ?app_nil_r; repeat split.
Qed.

(** A [P] line queues both move commands and is acknowledged, or queues
    none and is not acknowledged: the two commands never go one without
    the other. *)
Theorem set_position_is_all_or_nothing
    (st : State) (msg : string) (rest : list string) :
  split_ws msg = "P" :: rest ->
  exists issued : list Effect,
    trace (snd (listenCallback msg st)) = trace st ++ issued
    /\ ((queued issued = [] /\ ~ In (SendqAppend ("RPRT 0" +:+ NL)) issued)
        \/ exists az el : Z,
             issued = set_position_effects az el
             /\ azimuth (snd (listenCallback msg st)) = az
             /\ elevation (snd (listenCallback msg st)) = el).
Proof.
  intros Htok. destruct st as [a0 e0 rs tr].
  unfold listenCallback, try_except, listenCallback_try.
  rewrite (tokens_msg_not_empty _ _ _ Htok), Htok.
  assert (Hnone : forall m : LogMsg,
             queued [MsgqAppend m] = []
             /\ ~ In (SendqAppend ("RPRT 0" +:+ NL)) [MsgqAppend m]).
  { intros m. split; [reflexivity |]. intros [H | []]. discriminate. }
  destruct rest as [| a [| e [| x rest]]]; sat_run;
    try (eexists; split; [reflexivity | left; apply Hnone]).
  destruct (int_float a) as [az | ex |]; sat_run.
  - destruct (int_float e) as [el | ex |]; sat_run.
    + eexists. split; [rewrite <- !app_assoc; reflexivity |].
      right. exists az, el. repeat split.
    + destruct ex; sat_run; eexists; (split; [reflexivity | left; apply Hnone]).
    + exists []. rewrite app_nil_r. split; [reflexivity |].
      left. split; [reflexivity | intros []].
  - destruct ex; sat_run; eexists; (split; [reflexivity | left; apply Hnone]).
  - exists []. rewrite app_nil_r. split; [reflexivity |].
    left. split; [reflexivity | intros []].
Qed.

(** A [P] line whose azimuth parses and whose elevation does not: the
    commanded azimuth is already overwritten when the elevation fails,
    the elevation keeps its old value, nothing is queued or
    acknowledged, and a restart is requested. *)
Theorem set_position_half_parsed
    (st : State) (msg a e : string) (az : Z) (ex : Exn) :
  split_ws msg = ["P"; a; e] ->
  int_float a = Ok az ->
  int_float e = Raise ex ->
  listenCallback msg st
  = (Ok tt,
     mkState az (elevation st) true
       (trace st ++
          [MsgqAppend (Problem "sat control"
                         (if is_ValueError ex then NameError else ex))])).
Proof.
  intros Htok Haz Hel. destruct st as [a0 e0 rs tr].
  unfold listenCallback, try_except, listenCallback_try.
  rewrite (tokens_msg_not_empty _ _ _ Htok), Htok.
  sat_run. rewrite Haz. sat_run. rewrite Hel. sat_run.
  destruct ex; reflexivity.
Qed.

(** A line without a token: the empty message is ignored; a message of
    whitespace only ends in the catch-all with a restart requested. *)
Theorem blank_sat_line (st : State) (msg : string) :
  split_ws msg = [] ->
  listenCallback msg st
  = (Ok tt,
     if is_empty msg then st
     else mkState (azimuth st) (elevation st) true
            (trace st ++ [MsgqAppend (Problem "sat control" IndexError)])).
Proof.
  intros Htok. destruct st as [a0 e0 rs tr].
  unfold listenCallback, try_except, listenCallback_try.
  destruct msg as [| c msg]; [reflexivity |].
  rewrite Htok. sat_run. reflexivity.
Qed.

Lemma lookup_getPos : RotIf.lookup !! "getPos" = Some RotIf.m_getPos.
Proof. vm_compute. reflexivity. Qed.

(** After a [P] line, a [p] line makes the server queue [getPos] with the
    two truncated values as hints and its own send queue as sink; a
    rotator interface that is not online answers that request with
    exactly these two values: the tracker reads back what it commanded. *)
Theorem position_query_echoes_command_when_not_online
    (sat : State) (rot : RotIf.State) (msg a e query : string)
    (more : list string) (az el : Z) (x y : spec_float) :
  split_ws msg = ["P"; a; e] ->
  int_float a = Ok az ->
  int_float e = Ok el ->
  split_ws query = "p" :: more ->
  RotIf.status rot <> ONLINE ->
  float (VInt az) = Ok x ->
  float (VInt el) = Ok y ->
  listenCallback query (snd (listenCallback msg sat))
  = (Ok tt,
     mkState az el (restart sat)
       (trace sat ++ set_position_effects az el
          ++ [CmdqAppend "getPos" [VInt az; VInt el; sendq]]))
  /\ RotIf.execute ("getPos", [VInt az; VInt el; sendq]) rot
     = (Ok tt, with_effect rot (RotIf.QueueAppend 0 (two_lines x y))).
Proof.
  intros Htok Haz Hel Hq Hoff Hx Hy. split.
  - destruct sat as [a0 e0 rs tr].
    unfold listenCallback at 2. unfold try_except, listenCallback_try.
    rewrite (tokens_msg_not_empty _ _ _ Htok), Htok.
    sat_run. rewrite Haz. sat_run. rewrite Hel. sat_run.
    unfold listenCallback, try_except, listenCallback_try.
    rewrite (tokens_msg_not_empty _ _ _ Hq), Hq.
    sat_run. rewrite <- !app_assoc. reflexivity.
  - apply Z.eqb_neq in Hoff.
    destruct rot as [s ca ce da de t c n tr]. cbn in Hoff.
    unfold RotIf.execute. rewrite lookup_getPos.
    unfold RotIf.call_with, RotIf.getPos, with_effect, two_lines, sendq.
    rot_run. rewrite Hoff. cbn in Hx, Hy. rewrite Hx. rot_run.
    rewrite Hy. rot_run. reflexivity.
Qed.

End SatFurther.

(* ===================================================================== *)
(** * Further properties of the rotator interface *)
(* ===================================================================== *)

Section RotFurther.
Import RotIf Defs.

Ltac rot_steps :=
  repeat (progress
    (rot_run;
     repeat match goal with
            | H : decode_utf8 _ = Ok _ |- _ => rewrite H
            | H : String.eqb _ "nak" = false |- _ => rewrite H
            | H : (_ =? OFFLINE) = false |- _ => rewrite H
            | H : (_ =? OFFLINE) = true |- _ => rewrite H
            end)).

(** ** Presence polling *)

(** [poll] is not guarded by the status: it always sends "poll", and any
    reply, "nak" included, is taken as presence and sets the status to
    pending, also when it was online; silence leaves the status as it
    was. *)
Theorem poll_takes_any_reply_as_presence (st : State) :
  readable (next_event st) = true ->
  exists st',
    poll st = (Ok (reply_of (next_event st)), st')
    /\ wire (trace st') = wire (trace st) ++ ["poll"]
    /\ match next_event st with
       | Datagram _ =>
           status st' = PENDING
           /\ transitions (trace st') = transitions (trace st) ++ [PENDING]
       | _ =>
           status st' = status st
           /\ transitions (trace st') = transitions (trace st)
       end.
Proof.
  intros Hread.
  assert (Htr : forall t u, transitions (t ++ u) = transitions t ++ transitions u).
  { intros t u. induction t as [| x t IH]; [reflexivity |].
    destruct x; cbn; rewrite IH; reflexivity. }
  unfold poll. unfold bind at 1, settimeout, modify. unfold bind at 1.
  rewrite doCommand_readable by exact Hread.
  destruct st as [s ca ce da de t c n tr].
  unfold next_event in *. cbn [net] in *.
  destruct n as [| [| data | | |] rest]; try discriminate Hread; rot_run;
    (eexists; split; [reflexivity |]); cbn;
    rewrite ?wire_app, ?Htr; cbn; rewrite ?app_nil_r; repeat split.
Qed.

(** [isOnLine], once its probe has gone out, sets the status to offline
    exactly when the wait for the reply times out; any decodable reply,
    "nak" included, leaves the status as it was. *)
Theorem isOnLine_goes_offline_only_on_silence (st : State) :
  readable (next_event st) = true ->
  exists st',
    isOnLine st = (Ok (reply_of (next_event st)), st')
    /\ wire (trace st') = wire (trace st) ++ ["poll"]
    /\ match next_event st with
       | Datagram _ =>
           status st' = status st
           /\ transitions (trace st') = transitions (trace st)
       | _ =>
           status st' = OFFLINE
           /\ transitions (trace st') = transitions (trace st) ++ [OFFLINE]
       end.
Proof.
  intros Hread.
  assert (Htr : forall t u, transitions (t ++ u) = transitions t ++ transitions u).
  { intros t u. induction t as [| x t IH]; [reflexivity |].
    destruct x; cbn; rewrite IH; reflexivity. }
  unfold isOnLine. unfold bind at 1, settimeout, modify. unfold bind at 1.
  rewrite doCommand_readable by exact Hread.
  destruct st as [s ca ce da de t c n tr].
  unfold next_event in *. cbn [net] in *.
  destruct n as [| [| data | | |] rest]; try discriminate Hread; rot_run;
    (eexists; split; [reflexivity |]); cbn;
    rewrite ?wire_app, ?Htr; cbn; rewrite ?app_nil_r; repeat split.
Qed.

(** ** Calibration *)

(** [calibrateAz] and [calibrateEl] are not guarded by the status: they
    always send their command with the long timeout. On a reply other
    than "nak" the position of the axis becomes 0 and the reply text
    becomes the calibration value; on a timeout or "nak" both are left
    as they were. *)
Theorem calibrate_records_reply (st : State) :
  readable (next_event st) = true ->
  (exists st',
     calibrateAz st = (Ok (negb (failed (reply_of (next_event st)))), st')
     /\ wire (trace st') = wire (trace st) ++ ["calaz"]
     /\ timeout st' = CAL_TIMEOUT
     /\ degel st' = degel st /\ calel st' = calel st
     /\ if failed (reply_of (next_event st))
        then degaz st' = degaz st /\ calaz st' = calaz st
        else degaz st' = 0 /\ calaz st' = VStr (snd (reply_of (next_event st))))
  /\ (exists st',
     calibrateEl st = (Ok (negb (failed (reply_of (next_event st)))), st')
     /\ wire (trace st') = wire (trace st) ++ ["calel"]
     /\ timeout st' = CAL_TIMEOUT
     /\ degaz st' = degaz st /\ calaz st' = calaz st
     /\ if failed (reply_of (next_event st))
        then degel st' = degel st /\ calel st' = calel st
        else degel st' = 0 /\ calel st' = VStr (snd (reply_of (next_event st)))).
Proof.
  intros Hread. split.
  - unfold calibrateAz. unfold bind at 1, settimeout, modify. unfold bind at 1.
    rewrite doCommand_readable by exact Hread.
    destruct st as [s ca ce da de t c n tr].
    unfold next_event in *. cbn [net] in *.
    destruct n as [| [| data | | |] rest]; try discriminate Hread; rot_run;
      try destruct (String.eqb data "nak"); rot_run;
      (eexists; split; [reflexivity |]); cbn;
      rewrite ?wire_app; cbn; repeat split.
  - unfold calibrateEl. unfold bind at 1, settimeout, modify. unfold bind at 1.
    rewrite doCommand_readable by exact Hread.
    destruct st as [s ca ce da de t c n tr].
    unfold next_event in *. cbn [net] in *.
    destruct n as [| [| data | | |] rest]; try discriminate Hread; rot_run;
      try destruct (String.eqb data "nak"); rot_run;
      (eexists; split; [reflexivity |]); cbn;
      rewrite ?wire_app; cbn; repeat split.
Qed.

(** ** Moves from an unknown position *)

(** While the status is offline, [setPosAz] and [setPosEl] send nothing
    and report success, yet an unknown position (-1) of the axis is
    overwritten with 0. *)
Theorem offline_set_position_marks_position_known
    (st : State) (params : list Val) :
  status st = OFFLINE ->
  setPosAz params st
  = (Ok (true, "ack"),
     mkState (status st) (calaz st) (calel st)
             (if degaz st =? -1 then 0 else degaz st) (degel st)
             (timeout st) (calibration st) (net st) (trace st))
  /\ setPosEl params st
     = (Ok (true, "ack"),
        mkState (status st) (calaz st) (calel st)
                (degaz st) (if degel st =? -1 then 0 else degel st)
                (timeout st) (calibration st) (net st) (trace st)).
Proof.
  intros Hoff. apply Z.eqb_eq in Hoff.
  destruct st as [s ca ce da de t c n tr]. cbn in Hoff.
  unfold setPosAz, setPosEl, homeAz, homeEl.
  split.
  - rot_run. destruct (da =? -1); rot_steps; reflexivity.
  - rot_run. destruct (de =? -1); rot_steps; reflexivity.
Qed.

(** A move from an unknown position whose preliminary home command is
    not acknowledged (timeout or "nak") is dropped, but the position is
    recorded as 0 all the same: the next move goes out without homing. *)
Theorem unacknowledged_home_drops_the_move (st : State) (v w : Val) :
  status st <> OFFLINE ->
  degaz st = -1 ->
  refused (nth_event 0 st) = true ->
  readable (nth_event 1 st) = true ->
  exists st1 st2,
    setPosAz [v] st = (Ok (reply_of (nth_event 0 st)), st1)
    /\ wire (trace st1) = wire (trace st) ++ ["homeaz"]
    /\ degaz st1 = 0
    /\ setPosAz [w] st1 = (Ok (reply_of (nth_event 1 st)), st2)
    /\ wire (trace st2) = wire (trace st) ++ ["homeaz"; str w +:+ "z"].
Proof.
  intros Hon Hdeg H0 H1. apply Z.eqb_neq in Hon.
  destruct st as [s ca ce da de t c n tr]. cbn in Hon, Hdeg. subst da.
  unfold nth_event in *. cbn [net] in *.
  unfold setPosAz, homeAz, doCommand.
  net_step n H0; try (net_step n H1); rot_steps;
    do 2 eexists; (split; [reflexivity |]); cbn;
    rewrite ?wire_app; cbn; rewrite ?app_nil_r;
    (split; [reflexivity |]); (split; [reflexivity |]);
    rot_steps; (split; [reflexivity |]); cbn;
    rewrite ?wire_app; cbn; rewrite <- ?app_assoc; reflexivity.
Qed.

(** ** The command loop *)

(** While the status is offline, no command of the dispatch table other
    than "poll", "isonline", "calibrateAz" and "calibrateEl" puts
    anything on the wire, reads the socket or changes the status,
    whatever its arguments. *)
Theorem offline_interface_sends_nothing
    (st : State) (cmd : string) (m : Method) (args : list Val) :
  status st = OFFLINE ->
  lookup !! cmd = Some m ->
  ~ In m [m_poll; m_isOnLine; m_calibrateAz; m_calibrateEl] ->
  wire (trace (snd (execute (cmd, args) st))) = wire (trace st)
  /\ status (snd (execute (cmd, args) st)) = OFFLINE
  /\ net (snd (execute (cmd, args) st)) = net st.
Proof.
  intros Hoff Hlook Hm. apply Z.eqb_eq in Hoff.
  destruct st as [s ca ce da de t c n tr]. cbn in Hoff.
  assert (Hs : s = OFFLINE) by (apply Z.eqb_eq; exact Hoff).
  unfold execute. rewrite Hlook.
  destruct m; try (exfalso; apply Hm; cbn; tauto);
    destruct (0 <? List.length args)%nat;
    unfold call, call_with, truthy_pair, coldStart, getPos,
      setCalAz, setCalEl, setAzSpeed, setElSpeed, hw_command,
      homeAz, homeEl, setPosAz, setPosEl,
      nudgeAzFwd, nudgeAzRev, nudgeElFwd, nudgeElRev, mov_command;
    repeat (rot_steps;
            match goal with
            | |- context [match ?x with _ => _ end] =>
                lazymatch x with
                | context [match _ with _ => _ end] => fail
                | _ => destruct x
                end
            end);
    rot_steps; rewrite ?wire_app; cbn; rewrite ?app_nil_r;
    repeat split; assumption.
Qed.

(** *** Commands whose failure is never logged *)

Lemma quiet_ret {A} (a : A) : quiet (ret a).
Proof. intros st r st' H. injection H as <- <-. reflexivity. Qed.

Lemma quiet_raise {A} (e : Exn) : quiet (@raise State A e).
Proof. intros st r st' H. injection H as <- <-. reflexivity. Qed.

Lemma quiet_lift {A} (x : Res A) : quiet (@lift State A x).
Proof. intros st r st' H. injection H as <- <-. reflexivity. Qed.

Lemma quiet_get : quiet (@get State).
Proof. intros st r st' H. injection H as <- <-. reflexivity. Qed.

Lemma quiet_bind {A B} (c : M State A) (k : A -> M State B) :
  quiet c -> (forall a, quiet (k a)) -> quiet (bind c k).
Proof.
  intros Hc Hk st r st' H. unfold bind in H.
  destruct (c st) as [[a | e |] s1] eqn:E; apply Hc in E.
  - apply Hk in H. congruence.
  - injection H as <- <-. exact E.
  - injection H as <- <-. exact E.
Qed.

Lemma logged_app (t u : list Effect) : logged (t ++ u) = logged t ++ logged u.
Proof.
  induction t as [| e t IH]; [reflexivity |].
  destruct e; cbn; rewrite IH; reflexivity.
Qed.

Lemma quiet_emit (e : Effect) :
  (forall m, e <> MsgqAppend m) -> quiet (emit e).
Proof.
  intros He st r st' H. injection H as <- <-. cbn.
  rewrite logged_app. destruct e; cbn; rewrite ?app_nil_r; try reflexivity.
  exfalso. eapply He. reflexivity.
Qed.

Lemma quiet_setters :
  (forall x, quiet (set_status x)) /\ (forall x, quiet (set_degaz x))
  /\ (forall x, quiet (set_degel x)) /\ (forall x, quiet (settimeout x))
  /\ quiet next_exchange.
Proof.
  repeat split; intros; intros st r st' H;
    try (injection H as <- <-; reflexivity).
  unfold next_exchange in H.
  destruct (net st); injection H as <- <-; reflexivity.
Qed.

Lemma quiet_try_only {A} (is_E : Exn -> bool) (c h : M State A) :
  quiet c -> quiet h -> quiet (try_except_only is_E c h).
Proof.
  intros Hc Hh st r st' H. unfold try_except_only in H.
  destruct (c st) as [[a | e |] s1] eqn:E; apply Hc in E.
  - injection H as <- <-. exact E.
  - destruct (is_E e).
    + apply Hh in H. congruence.
    + injection H as <- <-. exact E.
  - injection H as <- <-. exact E.
Qed.

Ltac hush :=
  repeat first
    [ apply quiet_ret | apply quiet_raise | apply quiet_lift | apply quiet_get
    | apply quiet_emit; intros ? ?; discriminate
    | apply (proj1 quiet_setters)
    | apply (proj1 (proj2 quiet_setters))
    | apply (proj1 (proj2 (proj2 quiet_setters)))
    | apply (proj1 (proj2 (proj2 (proj2 quiet_setters))))
    | apply (proj2 (proj2 (proj2 (proj2 quiet_setters))))
    | apply quiet_bind; [| intros ?]
    | apply quiet_try_only
    | match goal with
      | |- quiet (if ?b then _ else _) => destruct b
      | |- quiet (match ?x with _ => _ end) => destruct x
      | |- quiet (let (_, _) := ?x in _) => destruct x
      end ].

(** What a command that answers with a pair, or [getPos], leaves in the
    log: nothing, and its answer is true whenever it returns. *)
Lemma answers_stay_out_of_the_log (m : Method) (args : list Val) :
  ~ In m [m_coldStart; m_calibrateAz; m_calibrateEl] ->
  quiet (call m) /\ quiet (call_with m args)
  /\ (forall st b st', call m st = (Ok b, st') -> b = true)
  /\ (forall st b st', call_with m args st = (Ok b, st') -> b = true).
Proof.
  intros Hm.
  assert (Htrue : forall (c : M State (bool * string)) st b st',
             truthy_pair c st = (Ok b, st') -> b = true).
  { intros c st b st' H. unfold truthy_pair, bind, ret in H.
    destruct (c st) as [[a | e |] s1]; [| discriminate | discriminate].
    injection H as <- _. reflexivity. }
  assert (Hget : forall st b st', getPos args st = (Ok b, st') -> b = true).
  { intros st b st' H. unfold getPos in H.
    repeat (rot_run_in H;
            match type of H with
            | context [match ?x with _ => _ end] =>
                lazymatch x with
                | context [match _ with _ => _ end] => fail
                | _ => destruct x
                end
            end); rot_run_in H; congruence. }
  destruct m; try (exfalso; apply Hm; cbn; tauto);
    (split; [| split; [| split]]);
    try (intros st b st' H; discriminate H);
    try (apply Htrue); try exact Hget;
    unfold call, call_with, truthy_pair, poll, isOnLine, getPos,
      setCalAz, setCalEl, setAzSpeed, setElSpeed, hw_command,
      homeAz, homeEl, setPosAz, setPosEl,
      nudgeAzFwd, nudgeAzRev, nudgeElFwd, nudgeElRev, mov_command,
      doCommand, exchange, pos_callback;
    hush.
Qed.

(** Apart from "coldstart", "calibrateAz" and "calibrateEl", no command
    of the dispatch table ever leaves a line on the message queue:
    whatever the controller answers, a timed-out or rejected move, home,
    nudge, speed or preset command is not reported. *)
Theorem unacknowledged_commands_leave_no_log_line
    (st : State) (cmd : string) (m : Method) (args : list Val) :
  lookup !! cmd = Some m ->
  ~ In m [m_coldStart; m_calibrateAz; m_calibrateEl] ->
  logged (trace (snd (execute (cmd, args) st))) = logged (trace st).
Proof.
  intros Hlook Hm.
  destruct (answers_stay_out_of_the_log m args Hm) as (Q0 & Q1 & T0 & T1).
  unfold execute. rewrite Hlook.
  destruct (0 <? List.length args)%nat; unfold bind.
  - destruct (call_with m args st) as [[b | e |] s1] eqn:E;
      pose proof (Q1 _ _ _ E) as Hq; [| exact Hq | exact Hq].
    rewrite (T1 _ _ _ E). exact Hq.
  - destruct (call m st) as [[b | e |] s1] eqn:E;
      pose proof (Q0 _ _ _ E) as Hq; [| exact Hq | exact Hq].
    rewrite (T0 _ _ _ E). exact Hq.
Qed.

(** A command name that is not in the dispatch table raises [KeyError]
    out of the command loop before anything is done: the commands queued
    behind it are not executed. *)
Theorem unknown_command_stops_the_loop
    (st : State) (cmd : string) (args : list Val)
    (behind : list (string * list Val)) :
  lookup !! cmd = None ->
  process ((cmd, args) :: behind) st = (Raise KeyError, st).
Proof.
  intros Hlook. cbn [process]. unfold bind, execute.
  rewrite Hlook. destruct st; reflexivity.
Qed.

(** ** The event receiver *)

Lemma positions_app (t u : list Effect) :
  positions (t ++ u) = positions t ++ positions u.
Proof.
  induction t as [| e t IH]; [reflexivity |].
  destruct e; cbn; rewrite IH; reflexivity.
Qed.

Lemma parse_event_fields (data axis : string) (n : Z) :
  parse_event data = Some (axis, n) ->
  decode_utf8 data = Ok data
  /\ exists field rest,
       split_max ":"%char data 2 = axis :: field :: rest
       /\ int_of_str field = Ok n.
Proof.
  unfold parse_event, decode_utf8.
  destruct (utf8_valid (list_ascii_of_string data)); [| discriminate].
  destruct (split_max ":"%char data 2) as [| a [| field rest]]; try discriminate.
  destruct (int_of_str field) as [v | |] eqn:Hint; try discriminate.
  intros H. injection H as -> ->.
  split; [reflexivity |]. exists field, rest. split; [reflexivity | exact Hint].
Qed.

(** As long as every datagram read carries a position event, the
    receiving loop goes on: each event is delivered to the sink in the
    order read, and at the end each axis holds the last value reported
    for it (or what it held before, if none was). *)
Theorem event_loop_tracks_positions (reads : list EvntRead) :
  forall st : State,
    forallb event_ok reads = true ->
    exists st',
      evnt_loop reads st = (Ok tt, st')
      /\ positions (trace st') = positions (trace st) ++ events_of reads
      /\ degaz st' = last_for "az" (degaz st) (events_of reads)
      /\ degel st' = last_for "el" (degel st) (events_of reads)
      /\ status st' = status st
      /\ net st' = net st.
Proof.
  induction reads as [| ev reads IH]; intros st Hok.
  - exists st. cbn. rewrite app_nil_r. repeat split.
  - cbn in Hok. apply andb_prop in Hok as [Hev Hrest].
    destruct ev as [| data |]; [| | discriminate Hev].
    + destruct (IH st Hrest) as (st' & E & P & A & L & S & N).
      exists st'. cbn [evnt_loop evnt_turn]. unfold bind at 1.
      cbn [ret]. repeat split; assumption.
    + cbn in Hev. destruct (parse_event data) as [[axis n] |] eqn:Hp;
        [| discriminate].
      destruct (parse_event_fields _ _ _ Hp) as (Hd & field & rest & Hs & Hn).
      pose proof (event_callback_well_formed st data axis field rest n Hs Hn) as Hcb.
      set (st1 := mkState (status st) (calaz st) (calel st)
                    (if String.eqb axis "az" then n else degaz st)
                    (if String.eqb axis "az" then degel st
                     else if String.eqb axis "el" then n else degel st)
                    (timeout st) (calibration st) (net st)
                    (trace st ++ [PosCallback axis n (degaz st) (degel st)])) in *.
      destruct (IH st1 Hrest) as (st' & E & P & A & L & S & N).
      exists st'. cbn [evnt_loop evnt_turn events_of]. rewrite Hp.
      unfold bind at 1. unfold bind at 1. unfold lift. rewrite Hd, Hcb.
      split; [exact E |].
      subst st1. cbn in P, A, L, S, N.
      rewrite positions_app in P. cbn in P. rewrite <- app_assoc in P.
      repeat split; try assumption.
      rewrite L. cbn.
      destruct (String.eqb axis "az") eqn:Haz; [| reflexivity].
      apply String.eqb_eq in Haz. subst axis. reflexivity.
Qed.

(** ** Connecting *)

Lemma transitions_app (t u : list Effect) :
  transitions (t ++ u) = transitions t ++ transitions u.
Proof.
  induction t as [| e t IH]; [reflexivity |].
  destruct e; cbn; rewrite IH; reflexivity.
Qed.

Lemma lookup_poll : lookup !! "poll" = Some m_poll.
Proof. vm_compute. reflexivity. Qed.

Lemma lookup_coldstart : lookup !! "coldstart" = Some m_coldStart.
Proof. vm_compute. reflexivity. Qed.

(** The cold connect: with both calibration values saved and a
    controller that acknowledges, the commands "poll" then "coldstart"
    of the queue take the interface from any status through pending to
    online, with the probe, the two speed commands and the two presets
    on the wire in that order, and without a log line. *)
Theorem cold_connect_with_saved_calibration (st : State) (a e : Val) :
  calibration st !! "AZ" = Some a ->
  calibration st !! "EL" = Some e ->
  acked (nth_event 0 st) = true -> acked (nth_event 1 st) = true ->
  acked (nth_event 2 st) = true -> acked (nth_event 3 st) = true ->
  acked (nth_event 4 st) = true ->
  exists st',
    process [("poll", []); ("coldstart", [])] st = (Ok tt, st')
    /\ status st' = ONLINE
    /\ wire (trace st') = wire (trace st)
         ++ ["poll"; "30n"; "20m"; str a +:+ "a"; str e +:+ "b"]
    /\ transitions (trace st') = transitions (trace st) ++ [PENDING; ONLINE]
    /\ logged (trace st') = logged (trace st).
Proof.
  intros Haz Hel H0 H1 H2 H3 H4.
  destruct st as [s ca ce da de t c n tr]. cbn in Haz, Hel.
  unfold nth_event in *. cbn [net] in *.
  cbn [process]. unfold execute. rewrite lookup_poll, lookup_coldstart.
  unfold call, truthy_pair, poll, coldStart, setAzSpeed, setElSpeed,
    setCalAz, setCalEl, saved, hw_command, doCommand.
  change (str_of_int AZ_MOTOR_SPEED) with "30".
  change (str_of_int EL_MOTOR_SPEED) with "20".
  net_step n H0; net_step n H1; net_step n H2; net_step n H3; net_step n H4.
  rot_steps. rewrite Haz, Hel.
  rewrite !bool_decide_eq_false_2 by discriminate.
  repeat (progress (rot_steps; rewrite ?Haz, ?Hel)).
  eexists. split; [reflexivity |]. cbn.
  rewrite ?wire_app, ?transitions_app, ?logged_app; cbn.
  rewrite <- ?app_assoc, ?app_nil_r. repeat split.
Qed.

(** A cold start that has to calibrate: when both calibrations succeed
    the status is online, both positions are 0 and the two reply texts
    are the calibration values, so that a position request is answered
    with two zero lines whatever its hints. *)
Theorem calibrating_cold_start_zeroes_position
    (st : State) (hint_az hint_el : Val) (q : nat) :
  status st <> OFFLINE ->
  calibration st !! "AZ" = None \/ calibration st !! "EL" = None ->
  acked (nth_event 0 st) = true -> acked (nth_event 1 st) = true ->
  acked (nth_event 2 st) = true -> acked (nth_event 3 st) = true ->
  exists st',
    coldStart st = (Ok true, st')
    /\ status st' = ONLINE
    /\ degaz st' = 0 /\ degel st' = 0
    /\ calaz st' = VStr (snd (reply_of (nth_event 2 st)))
    /\ calel st' = VStr (snd (reply_of (nth_event 3 st)))
    /\ getPos [hint_az; hint_el; VQueue q] st'
       = (Ok true,
          with_effect st'
            (QueueAppend q ("0.000000" +:+ NL +:+ "0.000000" +:+ NL))).
Proof.
  intros Hon Hcal H0 H1 H2 H3. apply Z.eqb_neq in Hon.
  destruct st as [s ca ce da de t c n tr]. cbn in Hon, Hcal.
  unfold nth_event in *. cbn [net] in *.
  assert (Hc : bool_decide (c !! "AZ" = None) || bool_decide (c !! "EL" = None) = true).
  { destruct Hcal as [Hc | Hc]; rewrite (bool_decide_eq_true_2 _ Hc);
      [reflexivity | apply orb_true_r]. }
  unfold coldStart, setAzSpeed, setElSpeed, calibrateAz, calibrateEl,
    hw_command, doCommand.
  net_step n H0; net_step n H1; net_step n H2; net_step n H3.
  rot_steps. rewrite Hc. rot_steps.
  eexists. split; [reflexivity |]. cbn.
  repeat split.
Qed.

(** A cold start that has to calibrate and whose azimuth calibration is
    not acknowledged (timeout or "nak"): the failure is logged, the
    status is cal-failed, and the elevation calibration is not started. *)
Theorem refused_calibration_fails_cold_start (st : State) :
  status st <> OFFLINE ->
  calibration st !! "AZ" = None \/ calibration st !! "EL" = None ->
  acked (nth_event 0 st) = true -> acked (nth_event 1 st) = true ->
  refused (nth_event 2 st) = true ->
  exists st',
    coldStart st = (Ok false, st')
    /\ status st' = CAL_FAILED
    /\ wire (trace st') = wire (trace st) ++ ["30n"; "20m"; "calaz"]
    /\ logged (trace st')
       = logged (trace st) ++ [Text "Failed to calibrate azimuth motor!"]
    /\ degaz st' = degaz st /\ calaz st' = calaz st.
Proof.
  intros Hon Hcal H0 H1 H2. apply Z.eqb_neq in Hon.
  destruct st as [s ca ce da de t c n tr]. cbn in Hon, Hcal.
  unfold nth_event in *. cbn [net] in *.
  assert (Hc : bool_decide (c !! "AZ" = None) || bool_decide (c !! "EL" = None) = true).
  { destruct Hcal as [Hc | Hc]; rewrite (bool_decide_eq_true_2 _ Hc);
      [reflexivity | apply orb_true_r]. }
  unfold coldStart, setAzSpeed, setElSpeed, calibrateAz, calibrateEl,
    cal_failed, hw_command, doCommand.
  net_step n H0; net_step n H1; net_step n H2;
    rot_steps; rewrite Hc; rot_steps;
    (eexists; split; [reflexivity |]); cbn;
    rewrite ?wire_app, ?logged_app; cbn;
    rewrite <- ?app_assoc, ?app_nil_r; repeat split.
Qed.

(** ** Saving the calibration *)

(** A calibration measured in one session is saved by [terminate] at its
    end, and is what the cold start of the next session presets on the
    controller, without calibrating again. *)
Theorem saved_calibration_is_preset_in_next_session
    (st : State) (replies : list NetEvent) (a e : string) :
  calaz st = VStr a ->
  calel st = VStr e ->
  acked (List.nth 0 replies Timeout) = true ->
  acked (List.nth 1 replies Timeout) = true ->
  acked (List.nth 2 replies Timeout) = true ->
  acked (List.nth 3 replies Timeout) = true ->
  exists st',
    coldStart (polled (calibration (snd (terminate st))) replies)
    = (Ok true, st')
    /\ status st' = ONLINE
    /\ wire (trace st') = ["30n"; "20m"; a +:+ "a"; e +:+ "b"].
Proof.
  intros Ha He H0 H1 H2 H3.
  destruct st as [s ca ce da de t c n tr]. cbn in Ha, He. subst ca ce.
  destruct (coldStart_saved_all_acked
              (polled (<["EL" := VStr e]> (<["AZ" := VStr a]> c)) replies)
              (VStr a) (VStr e)) as (st' & E & S & W & _);
    try assumption.
  - discriminate.
  - cbn. rewrite lookup_insert_ne by discriminate.
    apply lookup_insert_eq.
  - cbn. apply lookup_insert_eq.
  - exists st'. split; [exact E | split; [exact S | exact W]].
Qed.

End RotFurther.

(* ===================================================================== *)
(** * Properties of the listener threads and of the socket set-up *)
(* ===================================================================== *)

Section DrainProperties.
Import ListenerThread.

Variable evntCallback : string -> list string -> list string.
Variable kind : Kind.

Abbreviation drain_queue := (drain_from evntCallback kind).

Lemma drain_from_all_sent (pending : list string) :
  forall st : State,
    Forall (fun r => r = Sent) (List.firstn (List.length pending) (sends st)) ->
    exists st',
      drain_queue pending st = (Ok true, st')
      /\ trace st' = trace st ++ List.map ConnSend pending
      /\ sendq st' = match pending with [] => sendq st | _ => [] end
      /\ terminate st' = terminate st.
Proof.
  induction pending as [| data older IH]; intros st Hall.
  - exists st. cbn. rewrite app_nil_r. repeat split.
  - destruct st as [q tm sn tr]. cbn [sends List.length] in Hall.
    cbn [drain_from]. unfold bind at 1, set_sendq, modify.
    unfold bind at 1, conn_send. unfold bind at 1, emit, modify. cbn [sends].
    destruct sn as [| r sn].
    + cbn [trace sendq terminate sends].
      destruct (IH (mkState (List.rev older) tm [] (tr ++ [ConnSend data])))
        as (st' & E & T & Q & Tm).
      { cbn. rewrite firstn_nil. constructor. }
      exists st'. rewrite E. split; [reflexivity |].
      cbn in T, Q, Tm. rewrite T, <- app_assoc.
      split; [reflexivity |]. split; [| exact Tm].
      rewrite Q. destruct older; reflexivity.
    + cbn [List.firstn] in Hall. inversion Hall as [| ? ? Hr Hall']; subst.
      cbn [trace sendq terminate sends].
      destruct (IH (mkState (List.rev older) tm sn (tr ++ [ConnSend data])))
        as (st' & E & T & Q & Tm).
      { exact Hall'. }
      exists st'. rewrite E. split; [reflexivity |].
      cbn in T, Q, Tm. rewrite T, <- app_assoc.
      split; [reflexivity |]. split; [| exact Tm].
      rewrite Q. destruct older; reflexivity.
Qed.

(** When every send succeeds, the queued replies go out newest first,
    the reverse of the order in which they were queued, and the queue
    is empty afterwards. *)
Theorem drain_sends_newest_first (st : State) :
  Forall (fun r => r = Sent) (List.firstn (List.length (sendq st)) (sends st)) ->
  exists st',
    drain evntCallback kind st = (Ok true, st')
    /\ trace st' = trace st ++ List.map ConnSend (List.rev (sendq st))
    /\ sendq st' = []
    /\ terminate st' = terminate st.
Proof.
  intros Hall. unfold drain, bind, get.
  destruct (drain_from_all_sent (List.rev (sendq st)) st) as (st' & E & T & Q & Tm).
  { rewrite length_rev. exact Hall. }
  exists st'. split; [exact E | split; [exact T | split; [| exact Tm]]].
  rewrite Q. destruct (List.rev (sendq st)) eqn:Hrev; [| reflexivity].
  apply (f_equal (@List.rev string)) in Hrev. rewrite rev_involutive in Hrev.
  exact Hrev.
Qed.

Lemma drain_from_failure (newer : list string) :
  forall (st : State) (failing : string) (older : list string)
         (text : string) (more : list SendResult),
    sends st = List.repeat Sent (List.length newer) ++ SendError text :: more ->
    drain_queue (newer ++ failing :: older) st
    = (Ok false,
       mkState (evntCallback ("x" +:+ NL) (List.rev older)) true more
         (trace st ++ List.map ConnSend newer
            ++ [ConnSend failing;
                MsgqAppend (if disconnected text
                            then HostDisconnected
                            else ThreadFailure kind text);
                EvntCallback ("x" +:+ NL);
                StatusCallback Defs.FAILED])).
Proof.
  induction newer as [| data newer IH]; intros st failing older text more Hs;
    destruct st as [q tm sn tr]; cbn in Hs; subst sn.
  - cbn [app drain_from List.map].
    unfold bind at 1, set_sendq, modify.
    unfold bind at 1, conn_send. unfold bind at 1, emit, modify. cbn [sends].
    destruct (disconnected text); cbn; rewrite <- !app_assoc; reflexivity.
  - cbn [app drain_from List.map].
    unfold bind at 1, set_sendq, modify.
    unfold bind at 1, conn_send. unfold bind at 1, emit, modify. cbn [sends].
    cbn [trace sendq terminate].
    erewrite IH; [| reflexivity].
    cbn. rewrite <- !app_assoc. reflexivity.
Qed.

(** A send that fails ends the loop: the replies newer than the failing
    one have gone out, the failing one is taken off the queue and lost,
    the older ones stay queued; the failure is logged, the pseudo
    command "x" is given to the event callback, the thread is told to
    terminate and the status callback gets the failure. *)
Theorem failed_send_stops_the_drain
    (st : State) (older newer : list string) (failing text : string)
    (more : list SendResult) :
  sendq st = older ++ failing :: newer ->
  sends st = List.repeat Sent (List.length newer) ++ SendError text :: more ->
  drain evntCallback kind st
  = (Ok false,
     mkState (evntCallback ("x" +:+ NL) older) true more
       (trace st ++ List.map ConnSend (List.rev newer)
          ++ [ConnSend failing;
              MsgqAppend (if disconnected text
                          then HostDisconnected
                          else ThreadFailure kind text);
              EvntCallback ("x" +:+ NL);
              StatusCallback Defs.FAILED])).
Proof.
  intros Hq Hs. unfold drain, bind, get. rewrite Hq.
  rewrite rev_app_distr. cbn [List.rev]. rewrite <- app_assoc. cbn [app].
  erewrite drain_from_failure; [| rewrite length_rev; exact Hs].
  rewrite rev_involutive. reflexivity.
Qed.

End DrainProperties.

Section OpenSocketProperties.
Import OpenSocket.

Lemma attempts_app (t u : list Effect) :
  attempts (t ++ u) = (attempts t + attempts u)%nat.
Proof.
  induction t as [| e t IH]; [reflexivity |].
  destruct e; cbn; rewrite IH; reflexivity.
Qed.

Lemma openSocket_loop_binds (failure : string) (errors : list string) :
  forall (fuel : nat) (retry : Z) (st : State) (rest : list BindResult),
    binds st = List.map BindError errors ++ Bound :: rest ->
    Z.of_nat (conflicts errors) < retry ->
    (List.length errors < fuel)%nat ->
    exists st',
      openSocket_loop failure fuel retry st = (Ok true, st')
      /\ binds st' = rest
      /\ attempts (trace st') = (attempts (trace st) + List.length errors + 1)%nat
      /\ (In (StatusCallback Defs.FAILED) (trace st') ->
          In (StatusCallback Defs.FAILED) (trace st)).
Proof.
  induction errors as [| text errors IH]; intros fuel retry st rest Hb Hc Hf;
    destruct st as [bs tr]; cbn in Hb; subst bs;
    destruct fuel as [| fuel]; cbn in Hf; try lia;
    cbn [openSocket_loop]; unfold bind at 1, sock_bind;
    unfold bind at 1, emit, modify; cbn [binds trace].
  - eexists. split; [reflexivity |]. cbn. rewrite attempts_app. cbn.
    split; [reflexivity | split; [lia |]].
    intros Hin. apply in_app_or in Hin as [Hin | [Hin | []]];
      [exact Hin | discriminate].
  - unfold conflicts in Hc. cbn [List.filter] in Hc.
    destruct (contains "10048" text) eqn:Hcon.
    + cbn [List.length] in Hc.
      unfold bind at 1, modify. cbn [binds trace].
      destruct (retry - 1 =? 0) eqn:Hz; [apply Z.eqb_eq in Hz; lia |].
      unfold bind at 1, modify. unfold bind at 1, modify. cbn [binds trace].
      match goal with
      | |- context [openSocket_loop _ _ _ ?s] =>
          destruct (IH fuel (retry - 1) s rest) as (st' & E & B & A & F);
            [reflexivity | unfold conflicts; lia | lia |]
      end.
      exists st'. split; [exact E | split; [exact B |]].
      cbn in A, F. rewrite !attempts_app in A. cbn in A.
      split; [cbn; lia |].
      intros Hin. apply F in Hin.
      repeat (apply in_app_or in Hin as [Hin | [Hin | []]]; try discriminate).
      exact Hin.
    + unfold bind at 1, modify. cbn [binds trace].
      match goal with
      | |- context [openSocket_loop _ _ _ ?s] =>
          destruct (IH fuel retry s rest) as (st' & E & B & A & F);
            [reflexivity | unfold conflicts; lia | lia |]
      end.
      exists st'. split; [exact E | split; [exact B |]].
      cbn in A, F. rewrite !attempts_app in A. cbn in A.
      split; [cbn; lia |].
      intros Hin. apply F in Hin.
      repeat (apply in_app_or in Hin as [Hin | [Hin | []]]; try discriminate).
      exact Hin.
Qed.

Lemma openSocket_loop_gives_up (failure : string) (errors : list string) :
  forall (fuel : nat) (retry : Z) (st : State) (last : string)
         (rest : list BindResult),
    binds st = List.map BindError errors ++ BindError last :: rest ->
    contains "10048" last = true ->
    Z.of_nat (conflicts errors) = retry - 1 ->
    (List.length errors < fuel)%nat ->
    exists st' t,
      openSocket_loop failure fuel retry st = (Ok false, st')
      /\ binds st' = rest
      /\ attempts (trace st') = (attempts (trace st) + List.length errors + 1)%nat
      /\ trace st'
         = t ++ [SockClose; MsgqAppend failure; StatusCallback Defs.FAILED].
Proof.
  induction errors as [| text errors IH];
    intros fuel retry st last rest Hb Hl Hc Hf;
    destruct st as [bs tr]; cbn in Hb; subst bs;
    destruct fuel as [| fuel]; cbn in Hf; try lia;
    cbn [openSocket_loop]; unfold bind at 1, sock_bind;
    unfold bind at 1, emit, modify; cbn [binds trace].
  - rewrite Hl. unfold bind at 1, modify. cbn [binds trace].
    unfold conflicts in Hc. cbn in Hc.
    replace (retry - 1) with 0 by lia. cbn [Z.eqb].
    unfold bind, modify, ret. cbn [binds trace].
    exists (mkState rest
              ((((tr ++ [SockBind]) ++ [SockClose]) ++ [MsgqAppend failure])
                 ++ [StatusCallback Defs.FAILED])),
           (tr ++ [SockBind]).
    split; [reflexivity | split; [reflexivity |]].
    cbn [trace]. rewrite !attempts_app. cbn.
    split; [lia |]. rewrite <- !app_assoc. reflexivity.
  - unfold conflicts in Hc. cbn [List.filter] in Hc.
    destruct (contains "10048" text) eqn:Hcon.
    + cbn [List.length] in Hc.
      unfold bind at 1, modify. cbn [binds trace].
      destruct (retry - 1 =? 0) eqn:Hz; [apply Z.eqb_eq in Hz; lia |].
      unfold bind at 1, modify. unfold bind at 1, modify. cbn [binds trace].
      match goal with
      | |- context [openSocket_loop _ _ _ ?s] =>
          destruct (IH fuel (retry - 1) s last rest) as (st' & t & E & B & A & T);
            [reflexivity | exact Hl | unfold conflicts; lia | lia |]
      end.
      exists st', t. split; [exact E | split; [exact B |]].
      cbn in A. rewrite !attempts_app in A. cbn in A.
      split; [cbn; lia | exact T].
    + unfold bind at 1, modify. cbn [binds trace].
      match goal with
      | |- context [openSocket_loop _ _ _ ?s] =>
          destruct (IH fuel retry s last rest) as (st' & t & E & B & A & T);
            [reflexivity | exact Hl | unfold conflicts; lia | lia |]
      end.
      exists st', t. split; [exact E | split; [exact B |]].
      cbn in A. rewrite !attempts_app in A. cbn in A.
      split; [cbn; lia | exact T].
Qed.

(** The listening socket is bound as soon as one bind succeeds, however
    many binds failed before, as long as fewer than five of the failures
    were address-in-use errors (text containing 10048): the result is
    True, there was one bind per failure and one more, and no failure is
    reported to the status callback. *)
Theorem openSocket_binds_after_errors
    (failure : string) (errors : list string) (fuel : nat) (st : State)
    (rest : list BindResult) :
  binds st = List.map BindError errors ++ Bound :: rest ->
  (conflicts errors < 5)%nat ->
  (List.length errors < fuel)%nat ->
  exists st',
    openSocket failure fuel st = (Ok true, st')
    /\ binds st' = rest
    /\ attempts (trace st') = (attempts (trace st) + List.length errors + 1)%nat
    /\ (In (StatusCallback Defs.FAILED) (trace st') ->
        In (StatusCallback Defs.FAILED) (trace st)).
Proof.
  intros Hb Hc Hf. unfold openSocket.
  apply openSocket_loop_binds with (errors := errors); [exact Hb | lia | exact Hf].
Qed.

(** The fifth address-in-use error ends the attempts, whatever other
    errors came in between (those are retried without being counted):
    the result is False, the socket is closed, the failure line is
    logged and the status callback gets the failure, in that order, and
    no further bind is tried. *)
Theorem openSocket_gives_up_at_fifth_conflict
    (failure : string) (errors : list string) (last : string) (fuel : nat)
    (st : State) (rest : list BindResult) :
  binds st = List.map BindError errors ++ BindError last :: rest ->
  conflicts errors = 4%nat ->
  contains "10048" last = true ->
  (List.length errors < fuel)%nat ->
  exists st' t,
    openSocket failure fuel st = (Ok false, st')
    /\ binds st' = rest
    /\ attempts (trace st') = (attempts (trace st) + List.length errors + 1)%nat
    /\ trace st'
       = t ++ [SockClose; MsgqAppend failure; StatusCallback Defs.FAILED].
Proof.
  intros Hb Hc Hl Hf. unfold openSocket.
  apply openSocket_loop_gives_up with (errors := errors) (last := last);
    [exact Hb | exact Hl | lia | exact Hf].
Qed.

End OpenSocketProperties.

(* ===================================================================== *)
(** * The further statements on concrete inputs *)
(* ===================================================================== *)

Lemma get_ptt_reports_intent_witness :
  RigIf.listenCallback echo echo 0 ("t" +:+ NL) tuned
  = (Ok tt,
     RigIf.mkState true false (Some "145800000") false [] []
       [RigIf.SendqAppend ("1" +:+ NL)]).
Proof.
  exact (get_ptt_reports_intent echo echo 0 tuned ("t" +:+ NL) [] eq_refl).
Defined.

Lemma set_mode_line_always_fails_witness :
  RigIf.listenCallback echo echo 0 ("M USB 2400" +:+ NL) tuned
  = (Ok tt,
     RigIf.mkState true false (Some "145800000") true [] []
       [RigIf.MsgqAppend (Problem "rig interface" NameError)]).
Proof.
  exact (set_mode_line_always_fails echo echo 0 tuned ("M USB 2400" +:+ NL)
           ["USB"; "2400"] eq_refl).
Defined.

Lemma blank_rig_line_witness :
  RigIf.listenCallback echo echo 0 NL tuned
  = (Ok tt,
     RigIf.mkState true false (Some "145800000") true [] []
       [RigIf.MsgqAppend (Problem "rig interface" IndexError)])
  /\ RigIf.listenCallback echo echo 0 EmptyString tuned = (Ok tt, tuned).
Proof.
  split.
  - exact (blank_rig_line echo echo 0 tuned NL eq_refl).
  - exact (blank_rig_line echo echo 0 tuned EmptyString eq_refl).
Defined.

Lemma unknown_rig_line_is_acknowledged_witness :
  RigIf.listenCallback echo echo 0 ("S" +:+ NL) tuned
  = (Ok tt,
     RigIf.mkState true false (Some "145800000") false [] []
       [RigIf.MsgqAppend (Text "Unknown command from rig interface! [S]");
        RigIf.SendqAppend ("RPRT 0" +:+ NL)]).
Proof.
  apply (unknown_rig_line_is_acknowledged echo echo 0 tuned ("S" +:+ NL) "S" []).
  - reflexivity.
  - cbn. intuition discriminate.
Defined.

Lemma ptt_release_unkeys_witness :
  RigIf.listenCallback echo echo 0 ("F 145900001" +:+ NL)
    (snd (RigIf.manualSetPtt false tuned))
  = (Ok tt,
     RigIf.mkState false false (Some "145900001") false [] []
       [RigIf.CatDo Defs.CAT_PTT_SET (Some (VBool false));
        RigIf.CatDo Defs.CAT_FREQ_SET (Some (VStr "145900001"));
        RigIf.SendqAppend ("RPRT 0" +:+ NL);
        RigIf.FreqCallback false "145900001"]).
Proof.
  exact (ptt_release_unkeys echo echo 0 tuned ("F 145900001" +:+ NL)
           "145900001" eq_refl).
Defined.

Lemma cat_response_window_witness :
  RigIf.cat_response 1 Defs.CAT_FREQ_GET (awaiting 48)
  = (Ok (VStr "145800000"),
     RigIf.mkState false false None false [] [] [])
  /\ fst (RigIf.cat_response 1 Defs.CAT_FREQ_GET (awaiting 49)) = Raise TypeError.
Proof.
  split.
  - apply (proj1 (cat_response_window 0 Defs.CAT_FREQ_GET (VStr "145800000")
                    [] 48 (awaiting 48) eq_refl eq_refl)).
    lia.
  - apply (proj2 (cat_response_window 0 Defs.CAT_FREQ_GET (VStr "145800000")
                    [] 49 (awaiting 49) eq_refl eq_refl)).
    lia.
Defined.

Lemma get_freq_forwards_first_good_reply_witness :
  RigIf.listenCallback echo echo 2 ("f" +:+ NL) answered
  = (Ok tt,
     RigIf.mkState false false None false [] []
       [RigIf.CatDo Defs.CAT_FREQ_GET None;
        RigIf.SendqAppend ("145800000" +:+ NL)]).
Proof.
  apply (get_freq_forwards_first_good_reply echo echo 2 answered ("f" +:+ NL) []
           [(false, Defs.CAT_FREQ_SET, VNone)] [] (VStr "145800000")).
  - reflexivity.
  - reflexivity.
  - repeat constructor.
  - cbn. lia.
Defined.

Lemma rotator_commands_only_from_p_and_P_witness :
  SatIf.queued (SatIf.trace (snd (SatIf.listenCallback ("S" +:+ NL) SatIf.init)))
  = SatIf.queued (SatIf.trace SatIf.init)
  /\ SatIf.azimuth (snd (SatIf.listenCallback ("S" +:+ NL) SatIf.init))
     = SatIf.azimuth SatIf.init
  /\ SatIf.elevation (snd (SatIf.listenCallback ("S" +:+ NL) SatIf.init))
     = SatIf.elevation SatIf.init.
Proof.
  apply (rotator_commands_only_from_p_and_P SatIf.init ("S" +:+ NL) "S" []);
    [reflexivity | discriminate | discriminate].
Defined.

Lemma set_position_is_all_or_nothing_witness :
  exists issued : list SatIf.Effect,
    SatIf.trace (snd (SatIf.listenCallback ("P 123.4 45.6" +:+ NL) SatIf.init))
    = SatIf.trace SatIf.init ++ issued
    /\ ((SatIf.queued issued = []
         /\ ~ In (SatIf.SendqAppend ("RPRT 0" +:+ NL)) issued)
        \/ exists az el : Z,
             issued = set_position_effects az el
             /\ SatIf.azimuth
                  (snd (SatIf.listenCallback ("P 123.4 45.6" +:+ NL) SatIf.init)) = az
             /\ SatIf.elevation
                  (snd (SatIf.listenCallback ("P 123.4 45.6" +:+ NL) SatIf.init)) = el).
Proof.
  exact (set_position_is_all_or_nothing SatIf.init ("P 123.4 45.6" +:+ NL)
           ["123.4"; "45.6"] eq_refl).
Defined.

Lemma set_position_half_parsed_witness :
  SatIf.listenCallback ("P 10 abc" +:+ NL) SatIf.init
  = (Ok tt,
     SatIf.mkState 10 0 true
       [SatIf.MsgqAppend (Problem "sat control" NameError)]).
Proof.
  exact (set_position_half_parsed SatIf.init ("P 10 abc" +:+ NL) "10" "abc" 10
           ValueError eq_refl eq_refl eq_refl).
Defined.

Lemma blank_sat_line_witness :
  SatIf.listenCallback " " SatIf.init
  = (Ok tt,
     SatIf.mkState 0 0 true
       [SatIf.MsgqAppend (Problem "sat control" IndexError)])
  /\ SatIf.listenCallback EmptyString SatIf.init = (Ok tt, SatIf.init).
Proof.
  split.
  - exact (blank_sat_line SatIf.init " " eq_refl).
  - exact (blank_sat_line SatIf.init EmptyString eq_refl).
Defined.

Lemma position_query_echoes_command_witness :
  exists x y : spec_float,
    float (VInt 123) = Ok x
    /\ float (VInt 45) = Ok y
    /\ SatIf.listenCallback ("p" +:+ NL)
         (snd (SatIf.listenCallback ("P 123.4 45.6" +:+ NL) SatIf.init))
       = (Ok tt,
          SatIf.mkState 123 45 false
            (set_position_effects 123 45
               ++ [SatIf.CmdqAppend "getPos" [VInt 123; VInt 45; SatIf.sendq]]))
    /\ RotIf.execute ("getPos", [VInt 123; VInt 45; SatIf.sendq]) (polled ∅ [])
       = (Ok tt,
          with_effect (polled ∅ []) (RotIf.QueueAppend 0 (two_lines x y)))
    /\ two_lines x y = "123.000000" +:+ NL +:+ "45.000000" +:+ NL.
Proof.
  do 2 eexists.
  split; [reflexivity |]. split; [reflexivity |].
  split; [| split; [| reflexivity]].
  - eapply (position_query_echoes_command_when_not_online SatIf.init (polled ∅ [])
              ("P 123.4 45.6" +:+ NL) "123.4" "45.6" ("p" +:+ NL) [] 123 45);
      first [reflexivity | discriminate].
  - eapply (position_query_echoes_command_when_not_online SatIf.init (polled ∅ [])
              ("P 123.4 45.6" +:+ NL) "123.4" "45.6" ("p" +:+ NL) [] 123 45);
      first [reflexivity | discriminate].
Defined.

Lemma poll_takes_any_reply_as_presence_witness :
  exists st' : RotIf.State,
    RotIf.poll (tracking [RotIf.Datagram "nak"]) = (Ok (true, "nak"), st')
    /\ RotIf.wire (RotIf.trace st') = ["poll"]
    /\ RotIf.status st' = Defs.PENDING
    /\ transitions (RotIf.trace st') = [Defs.PENDING].
Proof.
  exact (poll_takes_any_reply_as_presence (tracking [RotIf.Datagram "nak"]) eq_refl).
Defined.

Lemma isOnLine_goes_offline_only_on_silence_witness :
  (exists st' : RotIf.State,
     RotIf.isOnLine (tracking []) = (Ok (false, "nak"), st')
     /\ RotIf.wire (RotIf.trace st') = ["poll"]
     /\ RotIf.status st' = Defs.OFFLINE
     /\ transitions (RotIf.trace st') = [Defs.OFFLINE])
  /\ (exists st' : RotIf.State,
        RotIf.isOnLine (tracking [RotIf.Datagram "nak"]) = (Ok (true, "nak"), st')
        /\ RotIf.wire (RotIf.trace st') = ["poll"]
        /\ RotIf.status st' = Defs.ONLINE
        /\ transitions (RotIf.trace st') = []).
Proof.
  split.
  - exact (isOnLine_goes_offline_only_on_silence (tracking []) eq_refl).
  - exact (isOnLine_goes_offline_only_on_silence
             (tracking [RotIf.Datagram "nak"]) eq_refl).
Defined.

Lemma calibrate_records_reply_witness :
  exists st' : RotIf.State,
    RotIf.calibrateAz (polled ∅ [RotIf.Datagram "12000"]) = (Ok true, st')
    /\ RotIf.wire (RotIf.trace st') = ["calaz"]
    /\ RotIf.timeout st' = Defs.CAL_TIMEOUT
    /\ RotIf.degel st' = -1 /\ RotIf.calel st' = VInt (-1)
    /\ RotIf.degaz st' = 0 /\ RotIf.calaz st' = VStr "12000".
Proof.
  exact (proj1 (calibrate_records_reply (polled ∅ [RotIf.Datagram "12000"])
                  eq_refl)).
Defined.

Lemma offline_set_position_witness :
  RotIf.setPosAz [VInt 90] (RotIf.init saved_calibration [])
  = (Ok (true, "ack"),
     RotIf.mkState Defs.OFFLINE (VInt (-1)) (VInt (-1)) 0 (-1) Defs.HW_TIMEOUT
       saved_calibration [] (RotIf.trace (RotIf.init saved_calibration [])))
  /\ RotIf.setPosEl [VInt 90] (RotIf.init saved_calibration [])
     = (Ok (true, "ack"),
        RotIf.mkState Defs.OFFLINE (VInt (-1)) (VInt (-1)) (-1) 0 Defs.HW_TIMEOUT
          saved_calibration [] (RotIf.trace (RotIf.init saved_calibration []))).
Proof.
  exact (offline_set_position_marks_position_known
           (RotIf.init saved_calibration []) [VInt 90] eq_refl).
Defined.

Lemma unacknowledged_home_drops_the_move_witness :
  exists st1 st2 : RotIf.State,
    RotIf.setPosAz [VInt 90] (polled saved_calibration [RotIf.Timeout; ack])
    = (Ok (false, "nak"), st1)
    /\ RotIf.wire (RotIf.trace st1) = ["homeaz"]
    /\ RotIf.degaz st1 = 0
    /\ RotIf.setPosAz [VInt 100] st1 = (Ok (true, "ack"), st2)
    /\ RotIf.wire (RotIf.trace st2) = ["homeaz"; "100z"].
Proof.
  apply (unacknowledged_home_drops_the_move
           (polled saved_calibration [RotIf.Timeout; ack]) (VInt 90) (VInt 100));
    [discriminate | reflexivity | reflexivity | reflexivity].
Defined.

Lemma offline_interface_sends_nothing_witness :
  RotIf.wire (RotIf.trace (snd (RotIf.execute ("homeAz", [])
                                  (RotIf.init saved_calibration [ack]))))
  = RotIf.wire (RotIf.trace (RotIf.init saved_calibration [ack]))
  /\ RotIf.status (snd (RotIf.execute ("homeAz", [])
                          (RotIf.init saved_calibration [ack])))
     = Defs.OFFLINE
  /\ RotIf.net (snd (RotIf.execute ("homeAz", [])
                       (RotIf.init saved_calibration [ack])))
     = RotIf.net (RotIf.init saved_calibration [ack]).
Proof.
  apply (offline_interface_sends_nothing (RotIf.init saved_calibration [ack])
           "homeAz" RotIf.m_homeAz []).
  - reflexivity.
  - vm_compute. reflexivity.
  - cbn. intuition discriminate.
Defined.

Lemma unacknowledged_commands_leave_no_log_line_witness :
  RotIf.execute ("setPosAz", [VInt 90]) (tracking [RotIf.Timeout])
  = (Ok tt,
     RotIf.mkState Defs.ONLINE (VInt 12345) (VInt 6789) 10 20 Defs.MOV_TIMEOUT
       saved_calibration [] [RotIf.UdpSend "90z"])
  /\ logged (RotIf.trace (snd (RotIf.execute ("setPosAz", [VInt 90])
                                 (tracking [RotIf.Timeout]))))
     = logged (RotIf.trace (tracking [RotIf.Timeout])).
Proof.
  split; [vm_compute; reflexivity |].
  apply (unacknowledged_commands_leave_no_log_line (tracking [RotIf.Timeout])
           "setPosAz" RotIf.m_setPosAz [VInt 90]).
  - vm_compute. reflexivity.
  - cbn. intuition discriminate.
Defined.

Lemma unknown_command_stops_the_loop_witness :
  RotIf.process [("stop", []); ("poll", [])] (tracking [ack])
  = (Raise KeyError, tracking [ack]).
Proof.
  apply (unknown_command_stops_the_loop (tracking [ack]) "stop" [] [("poll", [])]).
  vm_compute. reflexivity.
Defined.

Lemma event_loop_tracks_positions_witness :
  exists st' : RotIf.State,
    RotIf.evnt_loop
      [RotIf.EvntDatagram "az:45"; RotIf.EvntTimeout;
       RotIf.EvntDatagram "el:30"; RotIf.EvntDatagram "az:50"] (tracking [])
    = (Ok tt, st')
    /\ RotIf.positions (RotIf.trace st') = [("az", 45); ("el", 30); ("az", 50)]
    /\ RotIf.degaz st' = 50
    /\ RotIf.degel st' = 30
    /\ RotIf.status st' = Defs.ONLINE
    /\ RotIf.net st' = [].
Proof.
  exact (event_loop_tracks_positions
           [RotIf.EvntDatagram "az:45"; RotIf.EvntTimeout;
            RotIf.EvntDatagram "el:30"; RotIf.EvntDatagram "az:50"]
           (tracking []) eq_refl).
Defined.

Lemma cold_connect_with_saved_calibration_witness :
  exists st' : RotIf.State,
    RotIf.process [("poll", []); ("coldstart", [])]
      (RotIf.init saved_calibration [ack; ack; ack; ack; ack])
    = (Ok tt, st')
    /\ RotIf.status st' = Defs.ONLINE
    /\ RotIf.wire (RotIf.trace st') = ["poll"; "30n"; "20m"; "12345a"; "6789b"]
    /\ transitions (RotIf.trace st') = [Defs.PENDING; Defs.ONLINE]
    /\ logged (RotIf.trace st') = [Text "HW interface initialised."].
Proof.
  apply (cold_connect_with_saved_calibration
           (RotIf.init saved_calibration [ack; ack; ack; ack; ack])
           (VInt 12345) (VInt 6789));
    reflexivity.
Defined.

Lemma calibrating_cold_start_zeroes_position_witness :
  exists st' : RotIf.State,
    RotIf.coldStart
      (polled ∅ [ack; ack; RotIf.Datagram "12000"; RotIf.Datagram "6500"])
    = (Ok true, st')
    /\ RotIf.status st' = Defs.ONLINE
    /\ RotIf.degaz st' = 0 /\ RotIf.degel st' = 0
    /\ RotIf.calaz st' = VStr "12000"
    /\ RotIf.calel st' = VStr "6500"
    /\ RotIf.getPos [VInt 123; VInt 45; VQueue 0] st'
       = (Ok true,
          with_effect st'
            (RotIf.QueueAppend 0 ("0.000000" +:+ NL +:+ "0.000000" +:+ NL))).
Proof.
  apply (calibrating_cold_start_zeroes_position
           (polled ∅ [ack; ack; RotIf.Datagram "12000"; RotIf.Datagram "6500"])
           (VInt 123) (VInt 45) 0);
    [discriminate | left; reflexivity | reflexivity ..].
Defined.

Lemma refused_calibration_fails_cold_start_witness :
  exists st' : RotIf.State,
    RotIf.coldStart (polled ∅ [ack; ack; RotIf.Timeout]) = (Ok false, st')
    /\ RotIf.status st' = Defs.CAL_FAILED
    /\ RotIf.wire (RotIf.trace st') = ["30n"; "20m"; "calaz"]
    /\ logged (RotIf.trace st') = [Text "Failed to calibrate azimuth motor!"]
    /\ RotIf.degaz st' = -1 /\ RotIf.calaz st' = VInt (-1).
Proof.
  apply (refused_calibration_fails_cold_start (polled ∅ [ack; ack; RotIf.Timeout]));
    [discriminate | left; reflexivity | reflexivity ..].
Defined.

Lemma saved_calibration_is_preset_witness :
  exists st' : RotIf.State,
    RotIf.coldStart
      (polled (RotIf.calibration (snd (RotIf.terminate calibrated)))
         [ack; ack; ack; ack])
    = (Ok true, st')
    /\ RotIf.status st' = Defs.ONLINE
    /\ RotIf.wire (RotIf.trace st') = ["30n"; "20m"; "12000a"; "6500b"].
Proof.
  apply (saved_calibration_is_preset_in_next_session calibrated
           [ack; ack; ack; ack] "12000" "6500");
    reflexivity.
Defined.

Lemma drain_sends_newest_first_witness :
  exists st' : ListenerThread.State,
    ListenerThread.drain pass_queue ListenerThread.Antenna
      (replying ["first"; "second"] [])
    = (Ok true, st')
    /\ ListenerThread.trace st'
       = [ListenerThread.ConnSend "second"; ListenerThread.ConnSend "first"]
    /\ ListenerThread.sendq st' = []
    /\ ListenerThread.terminate st' = false.
Proof.
  apply (drain_sends_newest_first pass_queue ListenerThread.Antenna
           (replying ["first"; "second"] [])).
  cbn. constructor.
Defined.

Lemma failed_send_stops_the_drain_witness :
  ListenerThread.drain pass_queue ListenerThread.Rig
    (replying ["old"; "fail"; "new"]
       [ListenerThread.Sent; ListenerThread.SendError "[WinError 10054]"])
  = (Ok false,
     ListenerThread.mkState ["old"] true []
       [ListenerThread.ConnSend "new";
        ListenerThread.ConnSend "fail";
        ListenerThread.MsgqAppend ListenerThread.HostDisconnected;
        ListenerThread.EvntCallback ("x" +:+ NL);
        ListenerThread.StatusCallback Defs.FAILED]).
Proof.
  exact (failed_send_stops_the_drain pass_queue ListenerThread.Rig
           (replying ["old"; "fail"; "new"]
              [ListenerThread.Sent; ListenerThread.SendError "[WinError 10054]"])
           ["old"] ["new"] "fail" "[WinError 10054]" [] eq_refl eq_refl).
Defined.

Lemma openSocket_binds_after_errors_witness :
  exists st' : OpenSocket.State,
    OpenSocket.openSocket "Failed to bind" 3
      (binding [OpenSocket.BindError "[WinError 10048] address in use";
                OpenSocket.BindError "timed out";
                OpenSocket.Bound])
    = (Ok true, st')
    /\ OpenSocket.binds st' = []
    /\ OpenSocket.attempts (OpenSocket.trace st') = 3%nat
    /\ (In (OpenSocket.StatusCallback Defs.FAILED) (OpenSocket.trace st') -> False).
Proof.
  apply (openSocket_binds_after_errors "Failed to bind"
           ["[WinError 10048] address in use"; "timed out"] 3
           (binding [OpenSocket.BindError "[WinError 10048] address in use";
                     OpenSocket.BindError "timed out";
                     OpenSocket.Bound]) []).
  - reflexivity.
  - unfold conflicts. cbn. lia.
  - cbn. lia.
Defined.

Lemma openSocket_gives_up_witness :
  exists (st' : OpenSocket.State) (t : list OpenSocket.Effect),
    OpenSocket.openSocket "Failed to bind" 5
      (binding (List.repeat (OpenSocket.BindError "[WinError 10048]") 6))
    = (Ok false, st')
    /\ OpenSocket.binds st' = [OpenSocket.BindError "[WinError 10048]"]
    /\ OpenSocket.attempts (OpenSocket.trace st') = 5%nat
    /\ OpenSocket.trace st'
       = t ++ [OpenSocket.SockClose;
               OpenSocket.MsgqAppend "Failed to bind";
               OpenSocket.StatusCallback Defs.FAILED].
Proof.
  apply (openSocket_gives_up_at_fifth_conflict "Failed to bind"
           (List.repeat "[WinError 10048]" 4) "[WinError 10048]" 5
           (binding (List.repeat (OpenSocket.BindError "[WinError 10048]") 6))
           [OpenSocket.BindError "[WinError 10048]"]).
  - reflexivity.
  - reflexivity.
  - reflexivity.
  - cbn. lia.
Defined.
